(** * E-commerce medallion pipeline: Rocq model and verified properties

    A shallow embedding of the transformation and validation core of the
    pipeline:

    - [src/quality/validators.py]                    (module [Validators])
    - [src/glue_jobs/silver/transform_to_silver.py]  (module [Silver])
    - [src/glue_jobs/gold/dim_tables.py]             (module [DimTables])
    - [src/glue_jobs/gold/fact_sales.py]             (module [FactSales])

    with the library operations they rest on: Spark SQL expressions
    ([Spark], [Relational]), dates ([PyDatetime], [SparkDate]), and the
    table shapes of each layer ([Bronze], [SilverRows], [GoldRows]).  The
    definitions come first; the properties follow, from [ValidatorsFacts]
    on.

    Conventions of the embedding.

    - A DataFrame is a list of rows.  Spark gives no row order unless one is
      asked for; the list order of the model is one admissible order, and
      the window functions below break ties by it.
    - A nullable column is an [option]; SQL NULL is [None].
    - A [DoubleType] column is an exact rational ([Q]): the model idealises
      binary floating point as exact decimal arithmetic.
    - [F.current_timestamp()] and [F.current_date()] read the clock; the
      clock reading is an explicit argument [now] of every builder.
    - Expressions follow Spark SQL with ANSI mode off (the default of the
      Spark 3 runtimes that Glue provides): an operator with a NULL operand
      is NULL, a division by zero is NULL, a comparison with NULL is NULL,
      and [F.when] takes a NULL condition as not satisfied. *)

From Stdlib Require Import List ZArith QArith Qabs Qround String Ascii Bool Lia Arith.
From Stdlib Require Import Permutation DecimalString Lqa.
Import ListNotations.

Local Open Scope string_scope.
Local Open Scope Z_scope.

(* ------------------------------------------------------------------ *)
(** * Spark SQL primitives shared by the jobs *)

Module Spark.

(** A SQL timestamp: microseconds since the Unix epoch, UTC. *)
Definition timestamp := Z.

(** Three-valued logic: a SQL boolean expression is [Some b] or NULL. *)
Definition sqlbool := option bool.

(** [df.filter(c)] and [F.when(c, _)] keep a row only when [c] is TRUE. *)
Definition is_true (c : sqlbool) : bool :=
  match c with Some true => true | _ => false end.

(** Lifting of a binary operator: NULL if either operand is NULL. *)
Definition lift2 {A B C : Type} (f : A -> B -> C) (a : option A) (b : option B)
  : option C :=
  match a, b with
  | Some x, Some y => Some (f x y)
  | _, _ => None
  end.

Definition lift1 {A B : Type} (f : A -> B) (a : option A) : option B :=
  match a with Some x => Some (f x) | None => None end.

(** [F.coalesce(a, b)]. *)
Definition coalesce {A : Type} (a : option A) (b : option A) : option A :=
  match a with Some _ => a | None => b end.

(** [F.when(c, a).otherwise(b)]. *)
Definition when_otherwise {A : Type} (c : sqlbool) (a b : A) : A :=
  if is_true c then a else b.

(** ** Double arithmetic (exact rationals) *)

Definition double := Q.

Definition dadd : option double -> option double -> option double := lift2 Qplus.
Definition dsub : option double -> option double -> option double := lift2 Qminus.
Definition dmul : option double -> option double -> option double := lift2 Qmult.

(** [a / b]: NULL when the divisor is zero. *)
Definition ddiv (a b : option double) : option double :=
  match a, b with
  | Some x, Some y => if Qeq_bool y 0 then None else Some (x / y)%Q
  | _, _ => None
  end.

Definition dabs : option double -> option double := lift1 Qabs.

(** [a < b], [a > b], [a >= b], [a <= b] on doubles. *)
Definition Qltb (x y : Q) : bool := negb (Qle_bool y x).
Definition dlt : option double -> option double -> sqlbool := lift2 Qltb.
Definition dgt (a b : option double) : sqlbool := dlt b a.
Definition dge : option double -> option double -> sqlbool :=
  lift2 (fun x y => Qle_bool y x).
Definition dle : option double -> option double -> sqlbool := lift2 Qle_bool.

(** [F.round(x, 2)]: rounding to two decimals, half away from zero
    (Spark's [round] is HALF_UP). *)
Definition round2 (x : Q) : Q :=
  if Qle_bool 0 x
  then Qmake (Qfloor (x * 100 + (1 # 2))) 100
  else Qmake (- Qfloor ((- x) * 100 + (1 # 2))) 100.

Definition dround2 : option double -> option double := lift1 round2.

(** An integer column used in double arithmetic is widened. *)
Definition of_int (n : option Z) : option double := lift1 inject_Z n.

(** ** Equality of nullable keys *)

(** The join condition [a == b]: NULL unless both sides are present. *)
Definition sql_eq {A : Type} (eqb : A -> A -> bool) (a b : option A) : sqlbool :=
  lift2 eqb a b.

(** Ordering of a nullable string column, ascending: NULLs first, then
    byte-wise lexicographic order. *)
Definition str_leb (a b : option string) : bool :=
  match a, b with
  | None, _ => true
  | Some _, None => false
  | Some x, Some y => String.leb x y
  end.

(** Ordering of a nullable timestamp column, descending: larger first,
    NULLs last.  [ts_geb a b] says that [a] sorts no later than [b]. *)
Definition ts_geb (a b : option timestamp) : bool :=
  match a, b with
  | _, None => true
  | None, Some _ => false
  | Some x, Some y => y <=? x
  end.

(** ** Ordering and numbering: [Window.orderBy] with [F.row_number()] *)

Section Sorting.
Context {A : Type} (leb : A -> A -> bool).

(** Stable insertion: [x] goes after the elements that sort no later. *)
Fixpoint insert (x : A) (l : list A) : list A :=
  match l with
  | [] => [x]
  | y :: l' => if leb y x then y :: insert x l' else x :: y :: l'
  end.

Definition orderBy (l : list A) : list A :=
  fold_left (fun acc x => insert x acc) l [].

(** [row_number()] over an ordered list: 1, 2, 3, ... *)
Fixpoint number_from (n : Z) (l : list A) : list (A * Z) :=
  match l with
  | [] => []
  | x :: l' => (x, n) :: number_from (n + 1) l'
  end.

Definition row_number (l : list A) : list (A * Z) := number_from 1 l.
End Sorting.

End Spark.

(* ------------------------------------------------------------------ *)
(** * [src/quality/validators.py] *)

Module Validators.
Import Spark.

(** ** Dynamically typed frames

    The validator is generic in the frame it checks: columns are looked
    up by name at run time.  A row maps a column name to a nullable
    value; [columns] is the frame's schema ([df.columns]).  Values are
    text, integers and booleans, the kinds that key columns hold. *)

Inductive value : Type :=
| VStr (s : string)
| VInt (z : Z)
| VBool (b : bool).

Definition cell := option value.

Definition value_eqb (x y : value) : bool :=
  match x, y with
  | VStr a, VStr b => String.eqb a b
  | VInt a, VInt b => Z.eqb a b
  | VBool a, VBool b => Bool.eqb a b
  | _, _ => false
  end.

Definition cell_eq_dec (x y : cell) : {x = y} + {x <> y}.
Proof.
  decide equality. decide equality.
  - apply string_dec.
  - apply Z.eq_dec.
  - apply bool_dec.
Defined.

Definition Row := string -> cell.

Record DataFrame : Type := {
  columns : list string;
  rows : list Row
}.

Definition has_column (df : DataFrame) (c : string) : bool :=
  existsb (String.eqb c) (columns df).

(** [df.count()] *)
Definition count {A : Type} (l : list A) : Z := Z.of_nat (List.length l).

(** [df.select(c)] as the list of that column's cells. *)
Definition select_col (df : DataFrame) (c : string) : list cell :=
  map (fun r => r c) (rows df).

(** [.distinct()]: one representative per value; NULLs are grouped. *)
Definition distinct (l : list cell) : list cell := nodup cell_eq_dec l.

(** [F.col(c).isNull()] *)
Definition isNull (x : cell) : bool :=
  match x with None => true | Some _ => false end.

(** [fk.join(pk, fk[c] == pk[rc], "left_anti")]: the left rows for which
    the join condition is TRUE for no right row. *)
Definition left_anti (l r : list cell) : list cell :=
  filter (fun a => negb (existsb (fun b => is_true (sql_eq value_eqb a b)) r)) l.

(** ** Results and the validator object *)

Inductive CheckSeverity : Type := WARNING | ERROR | INFO.

Definition CheckSeverity_eqb (a b : CheckSeverity) : bool :=
  match a, b with
  | WARNING, WARNING | ERROR, ERROR | INFO, INFO => true
  | _, _ => false
  end.

Record QualityCheckResult : Type := {
  check_name : string;
  passed : bool;
  severity : CheckSeverity;
  message : string;
  failed_count : Z;          (* default 0 *)
  total_count : Z;           (* default 0 *)
  failed_percentage : Q      (* default 0.0 *)
}.

(** The state of a [DataQualityValidator]: [results] is [self.results],
    [_total_count] the cache behind the [total_count] property. *)
Record DataQualityValidator : Type := {
  df : DataFrame;
  table_name : string;
  results : list QualityCheckResult;
  _total_count : option Z
}.

(** [DataQualityValidator(df, table_name)] *)
Definition init (d : DataFrame) (name : string) : DataQualityValidator :=
  {| df := d; table_name := name; results := []; _total_count := None |}.

(** The [total_count] property: computes the count once and caches it.
    Returns the count and the validator with the cache filled. *)
Definition validator_total_count (self : DataQualityValidator)
  : Z * DataQualityValidator :=
  match _total_count self with
  | Some n => (n, self)
  | None =>
      let n := count (rows (df self)) in
      (n, {| df := df self; table_name := table_name self;
             results := results self; _total_count := Some n |})
  end.

(** [self.results.append(result)] *)
Definition record_result (self : DataQualityValidator) (r : QualityCheckResult)
  : DataQualityValidator :=
  {| df := df self; table_name := table_name self;
     results := results self ++ [r]; _total_count := _total_count self |}.

(** [failed / total * 100 if total > 0 else 0] *)
Definition percentage (failed total : Z) : Q :=
  if 0 <? total then (inject_Z failed / inject_Z total * 100)%Q else 0%Q.

(** ** [check_not_null] *)

(** The result appended when the named column is not in the frame. *)
Definition missing_column_result (col_name : string) : QualityCheckResult :=
  {| check_name := "not_null_" ++ col_name;
     passed := false;
     severity := ERROR;
     message := "Column '" ++ col_name ++ "' does not exist in DataFrame";
     failed_count := 0;
     total_count := 0;
     failed_percentage := 0%Q |}.

(** The result of the null check of an existing column. *)
Definition null_check_result (col_name : string) (sev : CheckSeverity)
    (null_count total : Z) : QualityCheckResult :=
  {| check_name := "not_null_" ++ col_name;
     passed := null_count =? 0;
     severity := sev;
     message := "Null check for '" ++ col_name ++ "'";
     failed_count := null_count;
     total_count := total;
     failed_percentage := percentage null_count total |}.

(** The body of the [for col_name in columns] loop.  [acc] is the local
    list [results]; the validator is threaded because the loop appends
    to [self.results] and fills the count cache.  In the missing-column
    branch the [continue] is reached right after the append to the local
    list, before the statements that build and record a null check. *)
Fixpoint check_not_null_loop (cols : list string) (sev : CheckSeverity)
    (acc : list QualityCheckResult) (self : DataQualityValidator)
  : list QualityCheckResult * DataQualityValidator :=
  match cols with
  | [] => (acc, self)
  | col_name :: rest =>
      if negb (has_column (df self) col_name) then
        check_not_null_loop rest sev (acc ++ [missing_column_result col_name]) self
      else
        let null_count := count (filter isNull (select_col (df self) col_name)) in
        let '(total, self1) := validator_total_count self in
        let result := null_check_result col_name sev null_count total in
        check_not_null_loop rest sev (acc ++ [result]) (record_result self1 result)
  end.

Definition check_not_null (self : DataQualityValidator) (cols : list string)
    (sev : CheckSeverity) : list QualityCheckResult * DataQualityValidator :=
  check_not_null_loop cols sev [] self.

(** ** [check_referential_integrity]

    [None] stands for the [AnalysisException] that Spark raises when a
    selected column is not in the frame. *)
Definition check_referential_integrity (self : DataQualityValidator)
    (column : string) (reference_df : DataFrame) (reference_column : string)
    (sev : CheckSeverity)
  : option (QualityCheckResult * DataQualityValidator) :=
  if negb (has_column (df self) column) then None
  else if negb (has_column reference_df reference_column) then None
  else
    let fk_values := distinct (select_col (df self) column) in
    let pk_values := distinct (select_col reference_df reference_column) in
    let orphans := left_anti fk_values pk_values in
    let orphan_count := count orphans in
    let '(total, self1) := validator_total_count self in
    let result :=
      {| check_name := "ref_integrity_" ++ column;
         passed := orphan_count =? 0;
         severity := sev;
         message := "Foreign key '" ++ column ++ "' must exist in reference table";
         failed_count := orphan_count;
         total_count := total;
         failed_percentage := percentage orphan_count total |} in
    Some (result, record_result self1 result).

(** ** [all_passed] *)

Fixpoint all_passed_loop (rs : list QualityCheckResult) (include_warnings : bool)
  : bool :=
  match rs with
  | [] => true
  | result :: rest =>
      if negb (passed result) then
        if CheckSeverity_eqb (severity result) ERROR then false
        else if include_warnings && CheckSeverity_eqb (severity result) WARNING
             then false
             else all_passed_loop rest include_warnings
      else all_passed_loop rest include_warnings
  end.

Definition all_passed (self : DataQualityValidator) (include_warnings : bool)
  : bool :=
  all_passed_loop (results self) include_warnings.

End Validators.

(* ------------------------------------------------------------------ *)
(** * [src/quality/validators.py]: the remaining checks and the suites *)

Module ValidatorChecks.
Import Spark Validators.
Local Open Scope list_scope.

(** [df.select(columns)]: every row cut down to the named columns. *)
Definition has_columns (d : DataFrame) (cols : list string) : bool :=
  forallb (has_column d) cols.

Definition select_cols (d : DataFrame) (cols : list string) : list (list cell) :=
  map (fun r => map r cols) (rows d).

Definition tuple_eq_dec : forall x y : list cell, {x = y} + {x <> y} :=
  list_eq_dec cell_eq_dec.

(** [.distinct()] on rows: NULLs compare equal. *)
Definition distinct_rows (l : list (list cell)) : list (list cell) :=
  nodup tuple_eq_dec l.

(** Boolean connectives of SQL's three-valued logic. *)
Definition sql_and (a b : sqlbool) : sqlbool :=
  match a, b with
  | Some false, _ => Some false
  | _, Some false => Some false
  | Some true, Some true => Some true
  | _, _ => None
  end.

Definition sql_not (a : sqlbool) : sqlbool := lift1 negb a.

(** [F.col(c).isin(values)]: NULL for a NULL value; TRUE when a listed
    value equals it; otherwise NULL if the list holds a NULL, else FALSE. *)
Definition isin (x : cell) (values : list cell) : sqlbool :=
  match x with
  | None => None
  | Some _ =>
      if existsb (fun v => is_true (sql_eq value_eqb x v)) values then Some true
      else if existsb isNull values then None
      else Some false
  end.

(** Python's text formatting in the messages, and Spark's cast of a
    compared column to a number (NULL when the value is not numeric). *)
Record Formatting : Type := {
  str_int : Z -> string;                     (* f"{count}" *)
  str_bound : option Q -> string;            (* f"{min_value}" *)
  repr_columns : list string -> string;      (* f"{columns}" *)
  repr_values : list cell -> string          (* f"{valid_values}" *)
}.

Section Checks.
Variable fmt : Formatting.
Variable to_double : value -> option Q.

Definition number (x : cell) : option Q :=
  match x with Some v => to_double v | None => None end.

(** The result that the column checks build. *)
Definition counted_result (name : string) (sev : CheckSeverity) (msg : string)
    (failed total : Z) : QualityCheckResult :=
  {| check_name := name;
     passed := failed =? 0;
     severity := sev;
     message := msg;
     failed_count := failed;
     total_count := total;
     failed_percentage := percentage failed total |}.

(** ** [check_unique] *)
Definition check_unique (self : DataQualityValidator) (cols : list string)
    (sev : CheckSeverity) : option (QualityCheckResult * DataQualityValidator) :=
  if negb (has_columns (df self) cols) then None
  else
    let distinct_count := count (distinct_rows (select_cols (df self) cols)) in
    let '(total, self1) := validator_total_count self in
    let duplicate_count := total - distinct_count in
    let result :=
      counted_result ("unique_" ++ String.concat "+" cols) sev
        ("Uniqueness check for " ++ repr_columns fmt cols)
        duplicate_count total in
    Some (result, record_result self1 result).

(** ** [check_values_in_set] *)
Definition check_values_in_set (self : DataQualityValidator) (column : string)
    (valid_values : list cell) (sev : CheckSeverity)
  : option (QualityCheckResult * DataQualityValidator) :=
  if negb (has_column (df self) column) then None
  else
    let invalid_count :=
      count (filter (fun r => is_true (sql_not (isin (r column) valid_values)))
               (rows (df self))) in
    let '(total, self1) := validator_total_count self in
    let result :=
      counted_result ("valid_values_" ++ column) sev
        ("Values in '" ++ column ++ "' must be one of "
         ++ repr_values fmt valid_values)
        invalid_count total in
    Some (result, record_result self1 result).

(** ** [check_range] *)

(** The filter condition, built up from [F.lit(True)]. *)
Definition range_condition (column : string) (min_value max_value : option Q)
    (r : Row) : sqlbool :=
  let condition := Some true in
  let condition :=
    match min_value with
    | Some lo => sql_and condition (dge (number (r column)) (Some lo))
    | None => condition
    end in
  match max_value with
  | Some hi => sql_and condition (dle (number (r column)) (Some hi))
  | None => condition
  end.

(** The column is resolved only if a bound mentions it. *)
Definition check_range (self : DataQualityValidator) (column : string)
    (min_value max_value : option Q) (sev : CheckSeverity)
  : option (QualityCheckResult * DataQualityValidator) :=
  let mentioned :=
    match min_value, max_value with None, None => false | _, _ => true end in
  if mentioned && negb (has_column (df self) column) then None
  else
    let invalid_count :=
      count (filter (fun r => is_true (sql_not
                                 (range_condition column min_value max_value r)))
               (rows (df self))) in
    let '(total, self1) := validator_total_count self in
    let range_desc :=
      ("[" ++ str_bound fmt min_value ++ ", " ++ str_bound fmt max_value ++ "]")%string in
    let result :=
      counted_result ("range_" ++ column) sev
        ("Values in '" ++ column ++ "' must be in range " ++ range_desc)
        invalid_count total in
    Some (result, record_result self1 result).

(** ** [check_row_count] *)
Definition check_row_count (self : DataQualityValidator) (min_count : Z)
    (max_count : option Z) (sev : CheckSeverity)
  : QualityCheckResult * DataQualityValidator :=
  let '(count, self1) := validator_total_count self in
  let passed := min_count <=? count in
  let passed :=
    match max_count with
    | Some m => passed && (count <=? m)
    | None => passed
    end in
  let range_desc :=
    match max_count with
    | Some m => ("[" ++ str_int fmt min_count ++ ", " ++ str_int fmt m ++ "]")%string
    | None => (">= " ++ str_int fmt min_count)%string
    end in
  let result :=
    {| check_name := "row_count";
       passed := passed;
       severity := sev;
       message := "Row count (" ++ str_int fmt count ++ ") must be " ++ range_desc;
       failed_count := if passed then 0 else 1;
       total_count := count;
       failed_percentage := 0%Q |} in
  (result, record_result self1 result).

(** ** The pre-built suites

    A suite raises when one of its checks does; the returned results of
    the checks are dropped, the validator is kept. *)
Definition and_then (v : option DataQualityValidator)
    (check : DataQualityValidator -> option (QualityCheckResult * DataQualityValidator))
  : option DataQualityValidator :=
  match v with
  | Some self => option_map snd (check self)
  | None => None
  end.

Definition statuses : list cell :=
  map (fun s => Some (VStr s))
    ["pending"; "confirmed"; "shipped"; "delivered"; "cancelled"; "returned"].

Definition validate_customers (d : DataFrame) : option DataQualityValidator :=
  let validator := init d "customers" in
  let validator :=
    snd (check_not_null validator ["customer_id"; "email"; "country"] ERROR) in
  let validator :=
    and_then (Some validator) (fun v => check_unique v ["customer_id"] ERROR) in
  let validator :=
    and_then validator (fun v => check_unique v ["email"] WARNING) in
  and_then validator (fun v => Some (check_row_count v 1 None ERROR)).

Definition validate_products (d : DataFrame) : option DataQualityValidator :=
  let validator := init d "products" in
  let validator :=
    snd (check_not_null validator ["product_id"; "name"; "price"; "category"] ERROR) in
  let validator :=
    and_then (Some validator) (fun v => check_unique v ["product_id"] ERROR) in
  let validator :=
    and_then validator (fun v => check_unique v ["sku"] WARNING) in
  let validator :=
    and_then validator (fun v => check_range v "price" (Some 0%Q) None ERROR) in
  let validator :=
    and_then validator (fun v => check_range v "cost" (Some 0%Q) None ERROR) in
  and_then validator
    (fun v => check_range v "margin_percent" (Some (-100)%Q) (Some 100%Q) WARNING).

Definition validate_orders (d customers_df : DataFrame)
  : option DataQualityValidator :=
  let validator := init d "orders" in
  let validator :=
    snd (check_not_null validator
           ["order_id"; "customer_id"; "order_date"; "total_amount"] ERROR) in
  let validator :=
    and_then (Some validator) (fun v => check_unique v ["order_id"] ERROR) in
  let validator :=
    and_then validator (fun v => check_range v "total_amount" (Some 0%Q) None ERROR) in
  let validator :=
    and_then validator (fun v => check_range v "subtotal" (Some 0%Q) None ERROR) in
  let validator :=
    and_then validator (fun v => check_values_in_set v "status" statuses ERROR) in
  and_then validator
    (fun v => check_referential_integrity v "customer_id" customers_df
                "customer_id" ERROR).

Definition validate_order_items (d orders_df products_df : DataFrame)
  : option DataQualityValidator :=
  let validator := init d "order_items" in
  let validator :=
    snd (check_not_null validator
           ["order_item_id"; "order_id"; "product_id"; "quantity"] ERROR) in
  let validator :=
    and_then (Some validator) (fun v => check_unique v ["order_item_id"] ERROR) in
  let validator :=
    and_then validator (fun v => check_range v "quantity" (Some 1%Q) None ERROR) in
  let validator :=
    and_then validator (fun v => check_range v "unit_price" (Some 0%Q) None ERROR) in
  let validator :=
    and_then validator
      (fun v => check_range v "discount_percent" (Some 0%Q) (Some 100%Q) ERROR) in
  let validator :=
    and_then validator
      (fun v => check_referential_integrity v "order_id" orders_df "order_id" ERROR) in
  and_then validator
    (fun v => check_referential_integrity v "product_id" products_df
                "product_id" ERROR).

End Checks.

End ValidatorChecks.

(* ------------------------------------------------------------------ *)
(** * Calendar arithmetic

    [build_dim_date] creates its dates with Python's [datetime] and reads
    their components back with Spark's date functions.  Both work on the
    proleptic Gregorian calendar through a day number: Python's ordinal
    (day 1 is 0001-01-01) and Spark's [DateType] (day 0 is 1970-01-01).
    The definitions follow [Lib/_pydatetime.py]. *)

Module PyDatetime.

Definition MINYEAR : Z := 1.
Definition MAXYEAR : Z := 9999.
(** [date.max.toordinal()] *)
Definition _MAXORDINAL : Z := 3652059.

(** Index 0 is a placeholder. *)
Definition _DAYS_IN_MONTH : list Z :=
  [-1; 31; 28; 31; 30; 31; 30; 31; 31; 30; 31; 30; 31].

Definition _DAYS_BEFORE_MONTH : list Z :=
  [-1; 0; 31; 59; 90; 120; 151; 181; 212; 243; 273; 304; 334].

Definition _is_leap (year : Z) : bool :=
  (year mod 4 =? 0) && (negb (year mod 100 =? 0) || (year mod 400 =? 0)).

(** Number of days before January 1st of [year]. *)
Definition _days_before_year (year : Z) : Z :=
  let y := year - 1 in
  y * 365 + y / 4 - y / 100 + y / 400.

Definition _days_in_month (year month : Z) : Z :=
  if (month =? 2) && _is_leap year then 29
  else nth (Z.to_nat month) _DAYS_IN_MONTH 0.

(** Number of days in [year] before the first day of [month]. *)
Definition _days_before_month (year month : Z) : Z :=
  nth (Z.to_nat month) _DAYS_BEFORE_MONTH 0
  + (if (2 <? month) && _is_leap year then 1 else 0).

(** year, month, day -> ordinal *)
Definition _ymd2ord (year month day : Z) : Z :=
  _days_before_year year + _days_before_month year month + day.

Definition _DI400Y : Z := 146097.   (* _days_before_year(401) *)
Definition _DI100Y : Z := 36524.    (* _days_before_year(101) *)
Definition _DI4Y : Z := 1461.       (* _days_before_year(5)   *)

(** ordinal -> (year, month, day) *)
Definition _ord2ymd (n : Z) : Z * Z * Z :=
  let n := n - 1 in
  let n400 := n / _DI400Y in
  let n := n mod _DI400Y in
  let year := n400 * 400 + 1 in
  let n100 := n / _DI100Y in
  let n := n mod _DI100Y in
  let n4 := n / _DI4Y in
  let n := n mod _DI4Y in
  let n1 := n / 365 in
  let n := n mod 365 in
  let year := year + (n100 * 100 + n4 * 4 + n1) in
  if (n1 =? 4) || (n100 =? 4) then (year - 1, 12, 31)
  else
    let leapyear := (n1 =? 3) && (negb (n4 =? 24) || (n100 =? 3)) in
    let month := Z.shiftr (n + 50) 5 in
    let preceding :=
      nth (Z.to_nat month) _DAYS_BEFORE_MONTH 0
      + (if (2 <? month) && leapyear then 1 else 0) in
    if n <? preceding then
      let month := month - 1 in
      let preceding :=
        preceding
        - (nth (Z.to_nat month) _DAYS_IN_MONTH 0
           + (if (month =? 2) && leapyear then 1 else 0)) in
      (year, month, n - preceding + 1)
    else (year, month, n - preceding + 1).

(** A [datetime] whose time of day is midnight, which is all that
    [build_dim_date] creates; only the date part is kept. *)
Record datetime : Type := {
  year : Z;
  month : Z;
  day : Z
}.

(** [datetime(year, month, day)]; [None] is the [ValueError] raised for a
    field out of range. *)
Definition new (y m d : Z) : option datetime :=
  if (MINYEAR <=? y) && (y <=? MAXYEAR)
     && (1 <=? m) && (m <=? 12)
     && (1 <=? d) && (d <=? _days_in_month y m)
  then Some {| year := y; month := m; day := d |}
  else None.

Definition toordinal (t : datetime) : Z :=
  _ymd2ord (year t) (month t) (day t).

Definition fromordinal (n : Z) : datetime :=
  let '(y, m, d) := _ord2ymd n in {| year := y; month := m; day := d |}.

(** [(a - b).days] for two midnights. *)
Definition sub_days (a b : datetime) : Z := toordinal a - toordinal b.

(** [t + timedelta(days=i)]; [None] is the [OverflowError] raised when the
    result leaves the supported range. *)
Definition add_days (t : datetime) (i : Z) : option datetime :=
  let n := toordinal t + i in
  if (0 <? n) && (n <=? _MAXORDINAL) then Some (fromordinal n) else None.

(** [range(n)] *)
Definition range (n : Z) : list Z := map Z.of_nat (seq 0 (Z.to_nat n)).

End PyDatetime.

(** Spark's [DateType] and its date functions. *)
Module SparkDate.
Import PyDatetime.

(** A SQL date: days since 1970-01-01. *)
Definition date := Z.

(** [date(1970, 1, 1).toordinal()] *)
Definition EPOCH_ORDINAL : Z := 719163.

(** [DateType.toInternal]: how [createDataFrame] stores a Python date. *)
Definition toInternal (t : datetime) : date := toordinal t - EPOCH_ORDINAL.

Definition ymd (d : date) : Z * Z * Z := _ord2ymd (d + EPOCH_ORDINAL).

(** [F.year], [F.month], [F.dayofmonth] *)
Definition year (d : date) : Z := fst (fst (ymd d)).
Definition month (d : date) : Z := snd (fst (ymd d)).
Definition dayofmonth (d : date) : Z := snd (ymd d).

(** [F.dayofweek]: 1 = Sunday, ..., 7 = Saturday. *)
Definition dayofweek (d : date) : Z := (d + EPOCH_ORDINAL) mod 7 + 1.

(** [F.dayofyear] *)
Definition dayofyear (d : date) : Z :=
  d + EPOCH_ORDINAL - _days_before_year (year d).

(** [F.quarter] *)
Definition quarter (d : date) : Z := (month d - 1) / 3 + 1.

(** [F.last_day]: the last day of the date's month. *)
Definition last_day (d : date) : date :=
  d - dayofmonth d + _days_in_month (year d) (month d).

(** ISO weekday, 1 = Monday, ..., 7 = Sunday. *)
Definition isoweekday (d : date) : Z := (d + EPOCH_ORDINAL + 6) mod 7 + 1.

(** Number of ISO weeks of a year: 53 when January 1st is a Thursday, or a
    Wednesday in a leap year. *)
Definition iso_weeks_in_year (y : Z) : Z :=
  let jan1 := (_days_before_year y + 1 + 6) mod 7 + 1 in
  if (jan1 =? 4) || ((jan1 =? 3) && _is_leap y) then 53 else 52.

(** [F.weekofyear]: the ISO 8601 week number. *)
Definition weekofyear (d : date) : Z :=
  let w := (dayofyear d - isoweekday d + 10) / 7 in
  if w <? 1 then iso_weeks_in_year (year d - 1)
  else if iso_weeks_in_year (year d) <? w then 1
  else w.

(** ** Timestamps *)

Definition MICROS_PER_DAY : Z := 86400000000.

(** The date of a timestamp ([F.to_date], session time zone UTC). *)
Definition to_date (t : Spark.timestamp) : date := t / MICROS_PER_DAY.

(** [F.datediff(end, start)]: number of days from [start] to [end]. *)
Definition datediff (e s : option date) : option Z :=
  Spark.lift2 Z.sub e s.

End SparkDate.

(* ------------------------------------------------------------------ *)
(** * Bronze and Silver tables *)

(** Rows of the Bronze layer: every source column is text
    ([ingest_raw_data.py] declares [StringType] throughout), followed by
    the lineage columns added at ingestion. *)
Module Bronze.

Module Customers.
Record row : Type := {
  customer_id : option string;
  email : option string;
  first_name : option string;
  last_name : option string;
  phone : option string;
  country : option string;
  city : option string;
  address : option string;
  created_at : option string;
  updated_at : option string;
  _ingested_at : option Spark.timestamp;
  _source_file : option string;
  _ingestion_date : option SparkDate.date
}.
End Customers.

Module Products.
Record row : Type := {
  product_id : option string;
  sku : option string;
  name : option string;
  description : option string;
  category : option string;
  subcategory : option string;
  brand : option string;
  price : option string;
  cost : option string;
  stock_quantity : option string;
  is_active : option string;
  created_at : option string;
  _ingested_at : option Spark.timestamp;
  _source_file : option string;
  _ingestion_date : option SparkDate.date
}.
End Products.

Module Orders.
Record row : Type := {
  order_id : option string;
  customer_id : option string;
  order_date : option string;
  status : option string;
  payment_method : option string;
  subtotal : option string;
  tax_amount : option string;
  shipping_amount : option string;
  discount_amount : option string;
  total_amount : option string;
  currency : option string;
  shipping_country : option string;
  shipping_city : option string;
  _ingested_at : option Spark.timestamp;
  _source_file : option string;
  _ingestion_date : option SparkDate.date
}.
End Orders.

Module OrderItems.
Record row : Type := {
  order_item_id : option string;
  order_id : option string;
  product_id : option string;
  quantity : option string;
  unit_price : option string;
  discount_percent : option string;
  line_total : option string;
  _ingested_at : option Spark.timestamp;
  _source_file : option string;
  _ingestion_date : option SparkDate.date
}.
End OrderItems.

End Bronze.

(** Rows of the Silver layer, with the columns of each transformer's final
    [select], in that order. *)
Module SilverRows.

Module Customers.
Record row : Type := {
  customer_id : option string;
  email : option string;
  email_domain : option string;
  is_valid_email : Spark.sqlbool;
  first_name : option string;
  last_name : option string;
  full_name : option string;
  phone : option string;
  country : option string;
  city : option string;
  address : option string;
  created_at : option Spark.timestamp;
  updated_at : option Spark.timestamp;
  account_age_days : option Z;
  segment : option string;
  _source_file : option string;
  _ingested_at : option Spark.timestamp;
  _processed_at : option Spark.timestamp
}.
End Customers.

Module Products.
Record row : Type := {
  product_id : option string;
  sku : option string;
  name : option string;
  description : option string;
  category : option string;
  subcategory : option string;
  brand : option string;
  price : option Spark.double;
  cost : option Spark.double;
  margin_percent : option Spark.double;
  stock_quantity : option Z;
  is_active : Spark.sqlbool;
  created_at : option Spark.timestamp;
  _source_file : option string;
  _ingested_at : option Spark.timestamp;
  _processed_at : option Spark.timestamp
}.
End Products.

Module Orders.
Record row : Type := {
  order_id : option string;
  customer_id : option string;
  order_date : option Spark.timestamp;
  order_year : option Z;
  order_month : option Z;
  order_day : option Z;
  order_day_of_week : option Z;
  order_week : option Z;
  status : option string;
  payment_method : option string;
  subtotal : option Spark.double;
  tax_amount : option Spark.double;
  shipping_amount : option Spark.double;
  discount_amount : option Spark.double;
  total_amount : option Spark.double;
  calculated_total : option Spark.double;
  is_total_valid : Spark.sqlbool;
  currency : option string;
  shipping_country : option string;
  shipping_city : option string;
  _source_file : option string;
  _ingested_at : option Spark.timestamp;
  _processed_at : option Spark.timestamp
}.
End Orders.

Module OrderItems.
Record row : Type := {
  order_item_id : option string;
  order_id : option string;
  product_id : option string;
  quantity : option Z;
  unit_price : option Spark.double;
  gross_amount : option Spark.double;
  discount_percent : option Spark.double;
  discount_amount : option Spark.double;
  line_total : option Spark.double;
  calculated_line_total : option Spark.double;
  is_line_total_valid : Spark.sqlbool;
  _source_file : option string;
  _ingested_at : option Spark.timestamp;
  _processed_at : option Spark.timestamp
}.
End OrderItems.

End SilverRows.

(* ------------------------------------------------------------------ *)
(** * [src/glue_jobs/silver/transform_to_silver.py] *)

Module Silver.
Import Spark.
Local Open Scope list_scope.

(** ** Deduplication

    [Window.partitionBy(key).orderBy(F.col("_ingested_at").desc())], then
    [F.row_number()] and the filter [_row_num == 1]. *)
Section Dedup.
Context {A : Type} (key : A -> option string) (ts : A -> option timestamp).

(** Grouping equality of the partition key: NULL is a group of its own. *)
Definition same_key (a b : A) : bool :=
  match key a, key b with
  | None, None => true
  | Some x, Some y => String.eqb x y
  | _, _ => false
  end.

(** Adds a row to the partition of its key, or opens a new partition. *)
Fixpoint add_to_partition (x : A) (ps : list (list A)) : list (list A) :=
  match ps with
  | [] => [[x]]
  | p :: ps' =>
      match p with
      | y :: _ => if same_key y x then (p ++ [x]) :: ps'
                  else p :: add_to_partition x ps'
      | [] => p :: add_to_partition x ps'
      end
  end.

Definition partitionBy (l : list A) : list (list A) :=
  fold_left (fun ps x => add_to_partition x ps) l [].

(** The window ordering: [_ingested_at] descending. *)
Definition by_ingested_desc (a b : A) : bool := ts_geb (ts a) (ts b).

(** Rows of one partition with their [_row_num]. *)
Definition with_row_num (p : list A) : list (A * Z) :=
  row_number (orderBy by_ingested_desc p).

(** [df.filter(F.col("_row_num") == 1).drop("_row_num")] *)
Definition keep_first (p : list (A * Z)) : list A :=
  map fst (filter (fun rn => snd rn =? 1) p).

Definition deduplicate (l : list A) : list A :=
  flat_map (fun p => keep_first (with_row_num p)) (partitionBy l).
End Dedup.

(** ** Spark's scalar functions on text

    Parsing, casing and pattern matching are Spark's; the transformers are
    stated over any implementation of them. *)
Record Functions : Type := {
  trim : string -> string;
  lower : string -> string;
  upper : string -> string;
  initcap : string -> string;
  (** [F.regexp_extract(s, pattern, idx)] *)
  regexp_extract : string -> string -> Z -> string;
  (** [s.rlike(pattern)] *)
  rlike : string -> string -> bool;
  (** [F.to_timestamp(s)]: NULL when the text is not a timestamp. *)
  to_timestamp : string -> option timestamp;
  (** [s.cast(DoubleType())], [s.cast(IntegerType())]: NULL when the text
      is not a number. *)
  cast_double : string -> option double;
  cast_int : string -> option Z
}.

(** A scalar function applied to a nullable column. *)
Definition on {A B : Type} (f : A -> B) (c : option A) : option B := lift1 f c.
Definition on_opt {A B : Type} (f : A -> option B) (c : option A) : option B :=
  match c with Some x => f x | None => None end.

(** [F.concat_ws(sep, a, b)]: NULL arguments are skipped. *)
Definition concat_ws (sep : string) (a b : option string) : option string :=
  match a, b with
  | Some x, Some y => Some (x ++ sep ++ y)%string
  | Some x, None => Some x
  | None, Some y => Some y
  | None, None => Some ""
  end.

(** [c.isin(v1, v2, v3)] *)
Definition isin (c : option string) (vs : list string) : sqlbool :=
  on (fun s => existsb (String.eqb s) vs) c.

(** Integer comparison [a < b] on a nullable column. *)
Definition ilt (a : option Z) (b : Z) : sqlbool := on (fun x => x <? b) a.

Section Transformers.
Variable fn : Functions.
(** The clock reading of the run. *)
Variable now : timestamp.

(** *** Customers *)

(** Steps 1 to 5, row by row.  The columns added after deduplication are
    not yet present; they are NULL here and set by [customers_finish]. *)
Definition customers_clean (r : Bronze.Customers.row) : SilverRows.Customers.row :=
  (* Step 1: parse timestamps *)
  let created_at := on_opt (to_timestamp fn) (Bronze.Customers.created_at r) in
  let updated_at := on_opt (to_timestamp fn) (Bronze.Customers.updated_at r) in
  (* Step 2: clean and validate emails *)
  let email := on (lower fn) (on (trim fn) (Bronze.Customers.email r)) in
  let email_domain := on (fun s => regexp_extract fn s "@(.+)$" 1) email in
  let is_valid_email :=
    on (fun s => rlike fn s "^[a-zA-Z0-9._%+-]+@[a-zA-Z0-9.-]+\.[a-zA-Z]{2,}$") email in
  (* Step 3: standardize country codes *)
  let country := on (upper fn) (on (trim fn) (Bronze.Customers.country r)) in
  (* Step 4: full name *)
  let full_name :=
    concat_ws " "
      (on (initcap fn) (on (trim fn) (Bronze.Customers.first_name r)))
      (on (initcap fn) (on (trim fn) (Bronze.Customers.last_name r))) in
  (* Step 5: trim string columns *)
  {| SilverRows.Customers.customer_id := Bronze.Customers.customer_id r;
     SilverRows.Customers.email := email;
     SilverRows.Customers.email_domain := email_domain;
     SilverRows.Customers.is_valid_email := is_valid_email;
     SilverRows.Customers.first_name := on (trim fn) (Bronze.Customers.first_name r);
     SilverRows.Customers.last_name := on (trim fn) (Bronze.Customers.last_name r);
     SilverRows.Customers.full_name := full_name;
     SilverRows.Customers.phone := on (trim fn) (Bronze.Customers.phone r);
     SilverRows.Customers.country := country;
     SilverRows.Customers.city := on (trim fn) (Bronze.Customers.city r);
     SilverRows.Customers.address := on (trim fn) (Bronze.Customers.address r);
     SilverRows.Customers.created_at := created_at;
     SilverRows.Customers.updated_at := updated_at;
     SilverRows.Customers.account_age_days := None;
     SilverRows.Customers.segment := None;
     SilverRows.Customers._source_file := Bronze.Customers._source_file r;
     SilverRows.Customers._ingested_at := Bronze.Customers._ingested_at r;
     SilverRows.Customers._processed_at := None |}.

(** Steps 7 and 8. *)
Definition customers_finish (r : SilverRows.Customers.row) : SilverRows.Customers.row :=
  let account_age_days :=
    SparkDate.datediff (Some (SparkDate.to_date now))
      (on SparkDate.to_date (SilverRows.Customers.created_at r)) in
  let segment :=
    when_otherwise (ilt account_age_days 30) "new"
      (when_otherwise (ilt account_age_days 365) "regular" "established") in
  {| SilverRows.Customers.customer_id := SilverRows.Customers.customer_id r;
     SilverRows.Customers.email := SilverRows.Customers.email r;
     SilverRows.Customers.email_domain := SilverRows.Customers.email_domain r;
     SilverRows.Customers.is_valid_email := SilverRows.Customers.is_valid_email r;
     SilverRows.Customers.first_name := SilverRows.Customers.first_name r;
     SilverRows.Customers.last_name := SilverRows.Customers.last_name r;
     SilverRows.Customers.full_name := SilverRows.Customers.full_name r;
     SilverRows.Customers.phone := SilverRows.Customers.phone r;
     SilverRows.Customers.country := SilverRows.Customers.country r;
     SilverRows.Customers.city := SilverRows.Customers.city r;
     SilverRows.Customers.address := SilverRows.Customers.address r;
     SilverRows.Customers.created_at := SilverRows.Customers.created_at r;
     SilverRows.Customers.updated_at := SilverRows.Customers.updated_at r;
     SilverRows.Customers.account_age_days := account_age_days;
     SilverRows.Customers.segment := Some segment;
     SilverRows.Customers._source_file := SilverRows.Customers._source_file r;
     SilverRows.Customers._ingested_at := SilverRows.Customers._ingested_at r;
     SilverRows.Customers._processed_at := Some now |}.

Definition transform_customers (df : list Bronze.Customers.row)
  : list SilverRows.Customers.row :=
  let df := map customers_clean df in
  (* Step 6: keep the most recent record per customer_id *)
  let df := deduplicate SilverRows.Customers.customer_id
              SilverRows.Customers._ingested_at df in
  map customers_finish df.

(** *** Products *)

Definition products_clean (r : Bronze.Products.row) : SilverRows.Products.row :=
  (* Step 1: cast numeric fields *)
  let price := on_opt (cast_double fn) (Bronze.Products.price r) in
  let cost := on_opt (cast_double fn) (Bronze.Products.cost r) in
  let stock_quantity := on_opt (cast_int fn) (Bronze.Products.stock_quantity r) in
  (* Step 2: parse boolean field *)
  let is_active :=
    when_otherwise
      (isin (on (lower fn) (Bronze.Products.is_active r)) ["true"; "1"; "yes"])
      true false in
  (* Step 3: parse timestamp *)
  let created_at := on_opt (to_timestamp fn) (Bronze.Products.created_at r) in
  (* Step 4: standardize category *)
  let category := on (lower fn) (on (trim fn) (Bronze.Products.category r)) in
  let subcategory := on (trim fn) (Bronze.Products.subcategory r) in
  (* Step 5: profit margin percentage *)
  let margin_percent :=
    when_otherwise (dgt price (Some 0%Q))
      (dround2 (dmul (ddiv (dsub price cost) price) (Some 100%Q)))
      (Some 0%Q) in
  (* Step 6: null descriptions *)
  let description :=
    coalesce (Bronze.Products.description r) (Some "No description available") in
  (* Step 7: clean string fields *)
  {| SilverRows.Products.product_id := Bronze.Products.product_id r;
     SilverRows.Products.sku := on (upper fn) (on (trim fn) (Bronze.Products.sku r));
     SilverRows.Products.name := on (trim fn) (Bronze.Products.name r);
     SilverRows.Products.description := description;
     SilverRows.Products.category := category;
     SilverRows.Products.subcategory := subcategory;
     SilverRows.Products.brand := on (trim fn) (Bronze.Products.brand r);
     SilverRows.Products.price := price;
     SilverRows.Products.cost := cost;
     SilverRows.Products.margin_percent := margin_percent;
     SilverRows.Products.stock_quantity := stock_quantity;
     SilverRows.Products.is_active := Some is_active;
     SilverRows.Products.created_at := created_at;
     SilverRows.Products._source_file := Bronze.Products._source_file r;
     SilverRows.Products._ingested_at := Bronze.Products._ingested_at r;
     SilverRows.Products._processed_at := None |}.

(** Step 9. *)
Definition products_finish (r : SilverRows.Products.row) : SilverRows.Products.row :=
  {| SilverRows.Products.product_id := SilverRows.Products.product_id r;
     SilverRows.Products.sku := SilverRows.Products.sku r;
     SilverRows.Products.name := SilverRows.Products.name r;
     SilverRows.Products.description := SilverRows.Products.description r;
     SilverRows.Products.category := SilverRows.Products.category r;
     SilverRows.Products.subcategory := SilverRows.Products.subcategory r;
     SilverRows.Products.brand := SilverRows.Products.brand r;
     SilverRows.Products.price := SilverRows.Products.price r;
     SilverRows.Products.cost := SilverRows.Products.cost r;
     SilverRows.Products.margin_percent := SilverRows.Products.margin_percent r;
     SilverRows.Products.stock_quantity := SilverRows.Products.stock_quantity r;
     SilverRows.Products.is_active := SilverRows.Products.is_active r;
     SilverRows.Products.created_at := SilverRows.Products.created_at r;
     SilverRows.Products._source_file := SilverRows.Products._source_file r;
     SilverRows.Products._ingested_at := SilverRows.Products._ingested_at r;
     SilverRows.Products._processed_at := Some now |}.

Definition transform_products (df : list Bronze.Products.row)
  : list SilverRows.Products.row :=
  let df := map products_clean df in
  (* Step 8: deduplicate by product_id *)
  let df := deduplicate SilverRows.Products.product_id
              SilverRows.Products._ingested_at df in
  map products_finish df.

(** *** Orders *)

Definition orders_clean (r : Bronze.Orders.row) : SilverRows.Orders.row :=
  (* Step 1: cast numeric fields *)
  let subtotal := on_opt (cast_double fn) (Bronze.Orders.subtotal r) in
  let tax_amount := on_opt (cast_double fn) (Bronze.Orders.tax_amount r) in
  let shipping_amount := on_opt (cast_double fn) (Bronze.Orders.shipping_amount r) in
  let discount_amount := on_opt (cast_double fn) (Bronze.Orders.discount_amount r) in
  let total_amount := on_opt (cast_double fn) (Bronze.Orders.total_amount r) in
  (* Step 2: parse order date *)
  let order_date := on_opt (to_timestamp fn) (Bronze.Orders.order_date r) in
  (* Step 3: date components *)
  let d := on SparkDate.to_date order_date in
  (* Step 6: validate total amount *)
  let calculated_total :=
    dsub (dadd (dadd subtotal tax_amount) shipping_amount) discount_amount in
  let is_total_valid :=
    dlt (dabs (dsub total_amount calculated_total)) (Some (1 # 100)%Q) in
  {| SilverRows.Orders.order_id := Bronze.Orders.order_id r;
     SilverRows.Orders.customer_id := Bronze.Orders.customer_id r;
     SilverRows.Orders.order_date := order_date;
     SilverRows.Orders.order_year := on SparkDate.year d;
     SilverRows.Orders.order_month := on SparkDate.month d;
     SilverRows.Orders.order_day := on SparkDate.dayofmonth d;
     SilverRows.Orders.order_day_of_week := on SparkDate.dayofweek d;
     SilverRows.Orders.order_week := on SparkDate.weekofyear d;
     (* Steps 4 and 5: status and payment method *)
     SilverRows.Orders.status := on (lower fn) (on (trim fn) (Bronze.Orders.status r));
     SilverRows.Orders.payment_method :=
       on (lower fn) (on (trim fn) (Bronze.Orders.payment_method r));
     SilverRows.Orders.subtotal := subtotal;
     SilverRows.Orders.tax_amount := tax_amount;
     SilverRows.Orders.shipping_amount := shipping_amount;
     SilverRows.Orders.discount_amount := discount_amount;
     SilverRows.Orders.total_amount := total_amount;
     SilverRows.Orders.calculated_total := calculated_total;
     SilverRows.Orders.is_total_valid := is_total_valid;
     SilverRows.Orders.currency := Bronze.Orders.currency r;
     (* Step 7: country codes *)
     SilverRows.Orders.shipping_country :=
       on (upper fn) (on (trim fn) (Bronze.Orders.shipping_country r));
     SilverRows.Orders.shipping_city := Bronze.Orders.shipping_city r;
     SilverRows.Orders._source_file := Bronze.Orders._source_file r;
     SilverRows.Orders._ingested_at := Bronze.Orders._ingested_at r;
     SilverRows.Orders._processed_at := None |}.

(** Step 9. *)
Definition orders_finish (r : SilverRows.Orders.row) : SilverRows.Orders.row :=
  {| SilverRows.Orders.order_id := SilverRows.Orders.order_id r;
     SilverRows.Orders.customer_id := SilverRows.Orders.customer_id r;
     SilverRows.Orders.order_date := SilverRows.Orders.order_date r;
     SilverRows.Orders.order_year := SilverRows.Orders.order_year r;
     SilverRows.Orders.order_month := SilverRows.Orders.order_month r;
     SilverRows.Orders.order_day := SilverRows.Orders.order_day r;
     SilverRows.Orders.order_day_of_week := SilverRows.Orders.order_day_of_week r;
     SilverRows.Orders.order_week := SilverRows.Orders.order_week r;
     SilverRows.Orders.status := SilverRows.Orders.status r;
     SilverRows.Orders.payment_method := SilverRows.Orders.payment_method r;
     SilverRows.Orders.subtotal := SilverRows.Orders.subtotal r;
     SilverRows.Orders.tax_amount := SilverRows.Orders.tax_amount r;
     SilverRows.Orders.shipping_amount := SilverRows.Orders.shipping_amount r;
     SilverRows.Orders.discount_amount := SilverRows.Orders.discount_amount r;
     SilverRows.Orders.total_amount := SilverRows.Orders.total_amount r;
     SilverRows.Orders.calculated_total := SilverRows.Orders.calculated_total r;
     SilverRows.Orders.is_total_valid := SilverRows.Orders.is_total_valid r;
     SilverRows.Orders.currency := SilverRows.Orders.currency r;
     SilverRows.Orders.shipping_country := SilverRows.Orders.shipping_country r;
     SilverRows.Orders.shipping_city := SilverRows.Orders.shipping_city r;
     SilverRows.Orders._source_file := SilverRows.Orders._source_file r;
     SilverRows.Orders._ingested_at := SilverRows.Orders._ingested_at r;
     SilverRows.Orders._processed_at := Some now |}.

Definition transform_orders (df : list Bronze.Orders.row)
  : list SilverRows.Orders.row :=
  let df := map orders_clean df in
  (* Step 8: deduplicate by order_id *)
  let df := deduplicate SilverRows.Orders.order_id
              SilverRows.Orders._ingested_at df in
  map orders_finish df.

(** *** Order items *)

Definition order_items_clean (r : Bronze.OrderItems.row) : SilverRows.OrderItems.row :=
  (* Step 1: cast numeric fields *)
  let quantity := on_opt (cast_int fn) (Bronze.OrderItems.quantity r) in
  let unit_price := on_opt (cast_double fn) (Bronze.OrderItems.unit_price r) in
  let discount_percent := on_opt (cast_double fn) (Bronze.OrderItems.discount_percent r) in
  let line_total := on_opt (cast_double fn) (Bronze.OrderItems.line_total r) in
  (* Step 2: gross amount (before discount) *)
  let gross_amount := dround2 (dmul (of_int quantity) unit_price) in
  (* Step 3: discount amount *)
  let discount_amount :=
    dround2 (ddiv (dmul gross_amount discount_percent) (Some 100%Q)) in
  (* Step 4: validate line total *)
  let calculated_line_total := dround2 (dsub gross_amount discount_amount) in
  let is_line_total_valid :=
    dlt (dabs (dsub line_total calculated_line_total)) (Some (1 # 100)%Q) in
  {| SilverRows.OrderItems.order_item_id := Bronze.OrderItems.order_item_id r;
     SilverRows.OrderItems.order_id := Bronze.OrderItems.order_id r;
     SilverRows.OrderItems.product_id := Bronze.OrderItems.product_id r;
     SilverRows.OrderItems.quantity := quantity;
     SilverRows.OrderItems.unit_price := unit_price;
     SilverRows.OrderItems.gross_amount := gross_amount;
     SilverRows.OrderItems.discount_percent := discount_percent;
     SilverRows.OrderItems.discount_amount := discount_amount;
     SilverRows.OrderItems.line_total := line_total;
     SilverRows.OrderItems.calculated_line_total := calculated_line_total;
     SilverRows.OrderItems.is_line_total_valid := is_line_total_valid;
     SilverRows.OrderItems._source_file := Bronze.OrderItems._source_file r;
     SilverRows.OrderItems._ingested_at := Bronze.OrderItems._ingested_at r;
     SilverRows.OrderItems._processed_at := None |}.

(** Step 6. *)
Definition order_items_finish (r : SilverRows.OrderItems.row)
  : SilverRows.OrderItems.row :=
  {| SilverRows.OrderItems.order_item_id := SilverRows.OrderItems.order_item_id r;
     SilverRows.OrderItems.order_id := SilverRows.OrderItems.order_id r;
     SilverRows.OrderItems.product_id := SilverRows.OrderItems.product_id r;
     SilverRows.OrderItems.quantity := SilverRows.OrderItems.quantity r;
     SilverRows.OrderItems.unit_price := SilverRows.OrderItems.unit_price r;
     SilverRows.OrderItems.gross_amount := SilverRows.OrderItems.gross_amount r;
     SilverRows.OrderItems.discount_percent := SilverRows.OrderItems.discount_percent r;
     SilverRows.OrderItems.discount_amount := SilverRows.OrderItems.discount_amount r;
     SilverRows.OrderItems.line_total := SilverRows.OrderItems.line_total r;
     SilverRows.OrderItems.calculated_line_total :=
       SilverRows.OrderItems.calculated_line_total r;
     SilverRows.OrderItems.is_line_total_valid :=
       SilverRows.OrderItems.is_line_total_valid r;
     SilverRows.OrderItems._source_file := SilverRows.OrderItems._source_file r;
     SilverRows.OrderItems._ingested_at := SilverRows.OrderItems._ingested_at r;
     SilverRows.OrderItems._processed_at := Some now |}.

Definition transform_order_items (df : list Bronze.OrderItems.row)
  : list SilverRows.OrderItems.row :=
  let df := map order_items_clean df in
  (* Step 5: deduplicate by order_item_id *)
  let df := deduplicate SilverRows.OrderItems.order_item_id
              SilverRows.OrderItems._ingested_at df in
  map order_items_finish df.

End Transformers.

End Silver.

(* ------------------------------------------------------------------ *)
(** * [src/glue_jobs/bronze/ingest_raw_data.py]

    The Bronze job reads each raw table with its explicit schema, stamps
    the rows with lineage columns and appends them to the Bronze table.
    The lake is the state it works on: the four raw tables it reads and
    the four Bronze tables it appends to.  The partitioning of the files
    by [_ingestion_date] is physical layout and is not modelled; a raw row
    is a Bronze row whose three lineage columns are not yet set. *)

Module Ingest.
Import Spark.
Local Open Scope list_scope.

Inductive schema : Type :=
| CUSTOMERS_SCHEMA
| PRODUCTS_SCHEMA
| ORDERS_SCHEMA
| ORDER_ITEMS_SCHEMA.

(** Table names and their schemas. *)
Definition SCHEMAS : list (string * schema) :=
  [ ("customers", CUSTOMERS_SCHEMA);
    ("products", PRODUCTS_SCHEMA);
    ("orders", ORDERS_SCHEMA);
    ("order_items", ORDER_ITEMS_SCHEMA) ].

(** [dict.get(key)] *)
Fixpoint get {V : Type} (d : list (string * V)) (key : string) : option V :=
  match d with
  | [] => None
  | (k, v) :: d' => if String.eqb k key then Some v else get d' key
  end.

(** Frames that take the three lineage columns. *)
Class Lineage (A : Type) : Type := {
  withMetadata : timestamp -> string -> SparkDate.date -> A -> A
}.

#[global] Instance customers_lineage : Lineage Bronze.Customers.row := {
  withMetadata ingested_at source_file ingestion_date r :=
    {| Bronze.Customers.customer_id := Bronze.Customers.customer_id r;
       Bronze.Customers.email := Bronze.Customers.email r;
       Bronze.Customers.first_name := Bronze.Customers.first_name r;
       Bronze.Customers.last_name := Bronze.Customers.last_name r;
       Bronze.Customers.phone := Bronze.Customers.phone r;
       Bronze.Customers.country := Bronze.Customers.country r;
       Bronze.Customers.city := Bronze.Customers.city r;
       Bronze.Customers.address := Bronze.Customers.address r;
       Bronze.Customers.created_at := Bronze.Customers.created_at r;
       Bronze.Customers.updated_at := Bronze.Customers.updated_at r;
       Bronze.Customers._ingested_at := Some ingested_at;
       Bronze.Customers._source_file := Some source_file;
       Bronze.Customers._ingestion_date := Some ingestion_date |}
}.

#[global] Instance products_lineage : Lineage Bronze.Products.row := {
  withMetadata ingested_at source_file ingestion_date r :=
    {| Bronze.Products.product_id := Bronze.Products.product_id r;
       Bronze.Products.sku := Bronze.Products.sku r;
       Bronze.Products.name := Bronze.Products.name r;
       Bronze.Products.description := Bronze.Products.description r;
       Bronze.Products.category := Bronze.Products.category r;
       Bronze.Products.subcategory := Bronze.Products.subcategory r;
       Bronze.Products.brand := Bronze.Products.brand r;
       Bronze.Products.price := Bronze.Products.price r;
       Bronze.Products.cost := Bronze.Products.cost r;
       Bronze.Products.stock_quantity := Bronze.Products.stock_quantity r;
       Bronze.Products.is_active := Bronze.Products.is_active r;
       Bronze.Products.created_at := Bronze.Products.created_at r;
       Bronze.Products._ingested_at := Some ingested_at;
       Bronze.Products._source_file := Some source_file;
       Bronze.Products._ingestion_date := Some ingestion_date |}
}.

#[global] Instance orders_lineage : Lineage Bronze.Orders.row := {
  withMetadata ingested_at source_file ingestion_date r :=
    {| Bronze.Orders.order_id := Bronze.Orders.order_id r;
       Bronze.Orders.customer_id := Bronze.Orders.customer_id r;
       Bronze.Orders.order_date := Bronze.Orders.order_date r;
       Bronze.Orders.status := Bronze.Orders.status r;
       Bronze.Orders.payment_method := Bronze.Orders.payment_method r;
       Bronze.Orders.subtotal := Bronze.Orders.subtotal r;
       Bronze.Orders.tax_amount := Bronze.Orders.tax_amount r;
       Bronze.Orders.shipping_amount := Bronze.Orders.shipping_amount r;
       Bronze.Orders.discount_amount := Bronze.Orders.discount_amount r;
       Bronze.Orders.total_amount := Bronze.Orders.total_amount r;
       Bronze.Orders.currency := Bronze.Orders.currency r;
       Bronze.Orders.shipping_country := Bronze.Orders.shipping_country r;
       Bronze.Orders.shipping_city := Bronze.Orders.shipping_city r;
       Bronze.Orders._ingested_at := Some ingested_at;
       Bronze.Orders._source_file := Some source_file;
       Bronze.Orders._ingestion_date := Some ingestion_date |}
}.

#[global] Instance order_items_lineage : Lineage Bronze.OrderItems.row := {
  withMetadata ingested_at source_file ingestion_date r :=
    {| Bronze.OrderItems.order_item_id := Bronze.OrderItems.order_item_id r;
       Bronze.OrderItems.order_id := Bronze.OrderItems.order_id r;
       Bronze.OrderItems.product_id := Bronze.OrderItems.product_id r;
       Bronze.OrderItems.quantity := Bronze.OrderItems.quantity r;
       Bronze.OrderItems.unit_price := Bronze.OrderItems.unit_price r;
       Bronze.OrderItems.discount_percent := Bronze.OrderItems.discount_percent r;
       Bronze.OrderItems.line_total := Bronze.OrderItems.line_total r;
       Bronze.OrderItems._ingested_at := Some ingested_at;
       Bronze.OrderItems._source_file := Some source_file;
       Bronze.OrderItems._ingestion_date := Some ingestion_date |}
}.

(** [add_bronze_metadata(df, source_path)]: [_ingested_at] is the clock
    reading, [_source_file] the path, [_ingestion_date] the clock's day. *)
Definition add_bronze_metadata {A : Type} `{Lineage A} (now : timestamp)
    (df : list A) (source_path : string) : list A :=
  map (withMetadata now source_path (SparkDate.to_date now)) df.

(** The four tables of a layer. *)
Record tables : Type := {
  customers : list Bronze.Customers.row;
  products : list Bronze.Products.row;
  orders : list Bronze.Orders.row;
  order_items : list Bronze.OrderItems.row
}.

(** [.write.mode("append")] to one table of the layer. *)
Definition append_customers (t : tables) (df : list Bronze.Customers.row) : tables :=
  {| customers := customers t ++ df; products := products t;
     orders := orders t; order_items := order_items t |}.

Definition append_products (t : tables) (df : list Bronze.Products.row) : tables :=
  {| customers := customers t; products := products t ++ df;
     orders := orders t; order_items := order_items t |}.

Definition append_orders (t : tables) (df : list Bronze.Orders.row) : tables :=
  {| customers := customers t; products := products t;
     orders := orders t ++ df; order_items := order_items t |}.

Definition append_order_items (t : tables) (df : list Bronze.OrderItems.row) : tables :=
  {| customers := customers t; products := products t;
     orders := orders t; order_items := order_items t ++ df |}.

Definition source_path (source_bucket table_name : string) : string :=
  ("s3://" ++ source_bucket ++ "/raw/" ++ table_name ++ "/")%string.

(** Reads one raw frame, and appends it, stamped, unless it is empty. *)
Definition ingest_frame {A : Type} `{Lineage A} (now : timestamp)
    (df : list A) (path : string) (write : list A -> tables) (bronze : tables)
  : tables :=
  let record_count := Z.of_nat (List.length df) in
  if record_count =? 0 then bronze
  else write (add_bronze_metadata now df path).

(** [ingest_table(glue_context, source_bucket, target_bucket, table_name)]
    on the raw tables [raw] of the source bucket and the Bronze tables
    [bronze] of the target bucket.  [None] is the [ValueError] raised for
    a table without schema; nothing is written then. *)
Definition ingest_table (now : timestamp) (source_bucket : string)
    (raw bronze : tables) (table_name : string) : option tables :=
  let path := source_path source_bucket table_name in
  match get SCHEMAS table_name with
  | None => None
  | Some CUSTOMERS_SCHEMA =>
      Some (ingest_frame now (customers raw) path (append_customers bronze) bronze)
  | Some PRODUCTS_SCHEMA =>
      Some (ingest_frame now (products raw) path (append_products bronze) bronze)
  | Some ORDERS_SCHEMA =>
      Some (ingest_frame now (orders raw) path (append_orders bronze) bronze)
  | Some ORDER_ITEMS_SCHEMA =>
      Some (ingest_frame now (order_items raw) path (append_order_items bronze) bronze)
  end.

(** How a run of the job ends, with the Bronze tables it leaves. *)
Inductive outcome : Type :=
| Committed (bronze : tables)
| Failed (bronze : tables).

(** The loop of [main] over the parsed table names: the first exception
    is logged and raised again, which ends the job before [job.commit()].
    [clock i] is the clock reading during the [i]-th ingestion. *)
Fixpoint process_tables (clock : nat -> timestamp) (i : nat) (source_bucket : string)
    (raw : tables) (table_names : list string) (bronze : tables) : outcome :=
  match table_names with
  | [] => Committed bronze
  | table_name :: rest =>
      match ingest_table (clock i) source_bucket raw bronze table_name with
      | None => Failed bronze
      | Some bronze' => process_tables clock (S i) source_bucket raw rest bronze'
      end
  end.

Definition main (clock : nat -> timestamp) (source_bucket : string)
    (raw : tables) (table_names : list string) (bronze : tables) : outcome :=
  process_tables clock 0 source_bucket raw table_names bronze.

End Ingest.

(* ------------------------------------------------------------------ *)
(** * Gold tables *)

Module GoldRows.

Module DimCustomer.
Record row : Type := {
  customer_key : Z;
  customer_id : option string;
  email : option string;
  full_name : option string;
  first_name : option string;
  last_name : option string;
  phone : option string;
  country : option string;
  city : option string;
  segment : option string;
  value_tier : string;
  customer_status : string;
  is_valid_email : Spark.sqlbool;
  total_orders : option Z;
  total_spend : option Spark.double;
  first_order_date : option Spark.timestamp;
  last_order_date : option Spark.timestamp;
  avg_order_value : option Spark.double;
  days_since_last_order : option Z;
  effective_from : option Spark.timestamp;
  effective_to : option Spark.timestamp;
  is_current : bool;
  _created_at : Spark.timestamp
}.
End DimCustomer.

Module DimProduct.
Record row : Type := {
  product_key : Z;
  product_id : option string;
  sku : option string;
  name : option string;
  description : option string;
  brand : option string;
  category : option string;
  subcategory : option string;
  price : option Spark.double;
  cost : option Spark.double;
  margin_percent : option Spark.double;
  price_tier : string;
  is_high_margin : Spark.sqlbool;
  stock_quantity : option Z;
  stock_status : string;
  is_active : Spark.sqlbool;
  effective_from : option Spark.timestamp;
  effective_to : option Spark.timestamp;
  is_current : bool;
  _created_at : Spark.timestamp
}.
End DimProduct.

Module DimDate.
Record row : Type := {
  date : SparkDate.date;
  date_key : Z;
  day_of_month : Z;
  day_of_week : Z;
  day_of_year : Z;
  week_of_year : Z;
  month : Z;
  quarter : Z;
  year : Z;
  day_name : string;
  day_name_short : string;
  month_name : string;
  month_name_short : string;
  year_month : string;
  year_quarter : string;
  year_week : string;
  is_weekend : bool;
  is_weekday : bool;
  is_month_start : bool;
  is_month_end : bool;
  is_quarter_start : bool;
  is_quarter_end : bool;
  is_year_start : bool;
  is_year_end : bool;
  fiscal_year : Z;
  fiscal_quarter : Z;
  _created_at : Spark.timestamp
}.
End DimDate.

Module FactSales.
Record row : Type := {
  sale_key : Z;
  date_key : option Z;
  customer_key : Z;
  product_key : Z;
  order_id : option string;
  order_item_id : option string;
  order_date : option Spark.timestamp;
  status : option string;
  payment_method : option string;
  shipping_country : option string;
  quantity : option Z;
  unit_price : option Spark.double;
  discount_percent : option Spark.double;
  gross_revenue : option Spark.double;
  discount_amount : option Spark.double;
  net_revenue : option Spark.double;
  cost_of_goods : option Spark.double;
  profit : option Spark.double;
  profit_margin_pct : option Spark.double;
  allocated_tax : option Spark.double;
  allocated_shipping : option Spark.double;
  _created_at : Spark.timestamp
}.
End FactSales.

End GoldRows.

(* ------------------------------------------------------------------ *)
(** * Relational operators used by the Gold jobs *)

Module Relational.
Import Spark.
Local Open Scope list_scope.

(** The join condition on a string key: TRUE only for equal non-NULL keys. *)
Definition key_match (a b : option string) : bool :=
  is_true (sql_eq String.eqb a b).

(** [l.join(r, key, "inner")] *)
Definition join_inner {A B : Type} (kl : A -> option string) (kr : B -> option string)
    (l : list A) (r : list B) : list (A * B) :=
  flat_map (fun a => map (pair a) (filter (fun b => key_match (kl a) (kr b)) r)) l.

(** [l.join(r, key, "left")]: a left row without match is kept once. *)
Definition join_left {A B : Type} (kl : A -> option string) (kr : B -> option string)
    (l : list A) (r : list B) : list (A * option B) :=
  flat_map (fun a =>
              match filter (fun b => key_match (kl a) (kr b)) r with
              | [] => [(a, None)]
              | ms => map (fun b => (a, Some b)) ms
              end) l.

(** [.distinct()] for an equality test [eqb]: first occurrences, in order. *)
Fixpoint distinct_by {A : Type} (eqb : A -> A -> bool) (l : list A) : list A :=
  match l with
  | [] => []
  | x :: l' => x :: filter (fun y => negb (eqb x y)) (distinct_by eqb l')
  end.

(** Grouping equality: NULL groups with NULL. *)
Definition group_eqb (a b : option string) : bool :=
  match a, b with
  | None, None => true
  | Some x, Some y => String.eqb x y
  | _, _ => false
  end.

Definition group_deqb (a b : option double) : bool :=
  match a, b with
  | None, None => true
  | Some x, Some y => Qeq_bool x y
  | _, _ => false
  end.

(** The non-NULL values of a column. *)
Fixpoint present {A : Type} (l : list (option A)) : list A :=
  match l with
  | [] => []
  | Some x :: l' => x :: present l'
  | None :: l' => present l'
  end.

(** [F.count(c)]: number of non-NULL values. *)
Definition agg_count {A : Type} (l : list (option A)) : Z :=
  Z.of_nat (List.length (present l)).

(** [F.sum(c)]: NULL when the group holds no value. *)
Definition agg_sum (l : list (option double)) : option double :=
  match present l with
  | [] => None
  | x :: xs => Some (fold_left Qplus xs x)
  end.

(** [F.avg(c)] *)
Definition agg_avg (l : list (option double)) : option double :=
  match present l with
  | [] => None
  | x :: xs => Some (fold_left Qplus xs x / inject_Z (Z.of_nat (List.length (x :: xs))))%Q
  end.

(** [F.min(c)], [F.max(c)] on timestamps. *)
Definition agg_min (l : list (option timestamp)) : option timestamp :=
  match present l with
  | [] => None
  | x :: xs => Some (fold_left Z.min xs x)
  end.

Definition agg_max (l : list (option timestamp)) : option timestamp :=
  match present l with
  | [] => None
  | x :: xs => Some (fold_left Z.max xs x)
  end.

(** Integer comparison [a > b] on a nullable column. *)
Definition igt (a : option Z) (b : Z) : sqlbool := lift1 (fun x => b <? x) a.
Definition ilt (a : option Z) (b : Z) : sqlbool := lift1 (fun x => x <? b) a.
Definition ieq (a : option Z) (b : Z) : sqlbool := lift1 (fun x => x =? b) a.

(** Sequencing of computations that may raise. *)
Definition bind {A B : Type} (m : option A) (k : A -> option B) : option B :=
  match m with Some x => k x | None => None end.

Fixpoint mapM {A B : Type} (f : A -> option B) (l : list A) : option (list B) :=
  match l with
  | [] => Some []
  | x :: l' =>
      bind (f x) (fun y => bind (mapM f l') (fun ys => Some (y :: ys)))
  end.

End Relational.

(* ------------------------------------------------------------------ *)
(** * [src/glue_jobs/gold/dim_tables.py] *)

Module DimTables.
Import Spark Relational.
Local Open Scope list_scope.

(** Window.orderBy(natural_key) with row_number(): each row paired with
    its surrogate key. *)
Definition generate_surrogate_key {A : Type} (natural_key : A -> option string)
    (df : list A) : list (A * Z) :=
  row_number (orderBy (fun a b => str_leb (natural_key a) (natural_key b)) df).

(** ** dim_customer *)

(** One row of [customer_metrics]. *)
Record metrics : Type := {
  m_customer_id : option string;
  m_total_orders : Z;
  m_total_spend : option double;
  m_first_order_date : option timestamp;
  m_last_order_date : option timestamp;
  m_avg_order_value : option double
}.

(** [orders.groupBy("customer_id").agg(...)] *)
Definition customer_metrics (orders : list SilverRows.Orders.row) : list metrics :=
  map (fun k =>
         let g := filter (fun o => group_eqb (SilverRows.Orders.customer_id o) k) orders in
         {| m_customer_id := k;
            m_total_orders := agg_count (map SilverRows.Orders.order_id g);
            m_total_spend := agg_sum (map SilverRows.Orders.total_amount g);
            m_first_order_date := agg_min (map SilverRows.Orders.order_date g);
            m_last_order_date := agg_max (map SilverRows.Orders.order_date g);
            m_avg_order_value := agg_avg (map SilverRows.Orders.total_amount g) |})
      (distinct_by group_eqb (map SilverRows.Orders.customer_id orders)).

(** The columns of the joined frame that come from the metrics side; all
    NULL for a customer without orders. *)
Definition joined_metric {B : Type} (f : metrics -> option B) (m : option metrics)
  : option B :=
  match m with Some x => f x | None => None end.

(** The derived columns and the final [select] for one joined row and its
    surrogate key. *)
Definition dim_customer_row (now : timestamp)
    (j : SilverRows.Customers.row * option metrics * Z) : GoldRows.DimCustomer.row :=
  let '(c, m, key) := j in
  let total_orders := joined_metric (fun x => Some (m_total_orders x)) m in
  let total_spend := joined_metric m_total_spend m in
  let last_order_date := joined_metric m_last_order_date m in
  let value_tier :=
    when_otherwise (dge total_spend (Some 1000%Q)) "platinum"
      (when_otherwise (dge total_spend (Some 500%Q)) "gold"
         (when_otherwise (dge total_spend (Some 100%Q)) "silver" "bronze")) in
  let days_since_last_order :=
    SparkDate.datediff (Some (SparkDate.to_date now))
      (lift1 SparkDate.to_date last_order_date) in
  let customer_status :=
    match total_orders with
    | None => "prospect"
    | Some _ =>
        when_otherwise (igt days_since_last_order 365) "churned"
          (when_otherwise (igt days_since_last_order 90) "at_risk" "active")
    end in
  {| GoldRows.DimCustomer.customer_key := key;
     GoldRows.DimCustomer.customer_id := SilverRows.Customers.customer_id c;
     GoldRows.DimCustomer.email := SilverRows.Customers.email c;
     GoldRows.DimCustomer.full_name := SilverRows.Customers.full_name c;
     GoldRows.DimCustomer.first_name := SilverRows.Customers.first_name c;
     GoldRows.DimCustomer.last_name := SilverRows.Customers.last_name c;
     GoldRows.DimCustomer.phone := SilverRows.Customers.phone c;
     GoldRows.DimCustomer.country := SilverRows.Customers.country c;
     GoldRows.DimCustomer.city := SilverRows.Customers.city c;
     GoldRows.DimCustomer.segment := SilverRows.Customers.segment c;
     GoldRows.DimCustomer.value_tier := value_tier;
     GoldRows.DimCustomer.customer_status := customer_status;
     GoldRows.DimCustomer.is_valid_email := SilverRows.Customers.is_valid_email c;
     GoldRows.DimCustomer.total_orders := coalesce total_orders (Some 0);
     GoldRows.DimCustomer.total_spend := coalesce total_spend (Some 0%Q);
     GoldRows.DimCustomer.first_order_date := joined_metric m_first_order_date m;
     GoldRows.DimCustomer.last_order_date := last_order_date;
     GoldRows.DimCustomer.avg_order_value := joined_metric m_avg_order_value m;
     GoldRows.DimCustomer.days_since_last_order := days_since_last_order;
     (* SCD Type 2 columns *)
     GoldRows.DimCustomer.effective_from := SilverRows.Customers.created_at c;
     GoldRows.DimCustomer.effective_to := None;
     GoldRows.DimCustomer.is_current := true;
     GoldRows.DimCustomer._created_at := now |}.

(** The table written to [gold/dim_customer/]. *)
Definition build_dim_customer (now : timestamp)
    (customers : list SilverRows.Customers.row) (orders : list SilverRows.Orders.row)
  : list GoldRows.DimCustomer.row :=
  let joined :=
    join_left SilverRows.Customers.customer_id m_customer_id
      customers (customer_metrics orders) in
  let keyed :=
    generate_surrogate_key (fun j => SilverRows.Customers.customer_id (fst j)) joined in
  map (dim_customer_row now) keyed.

(** ** dim_product *)

Definition dim_product_row (now : timestamp) (j : SilverRows.Products.row * Z)
  : GoldRows.DimProduct.row :=
  let '(p, key) := j in
  let price := SilverRows.Products.price p in
  let stock := SilverRows.Products.stock_quantity p in
  let price_tier :=
    when_otherwise (dge price (Some 500%Q)) "premium"
      (when_otherwise (dge price (Some 100%Q)) "mid_range"
         (when_otherwise (dge price (Some 25%Q)) "budget" "economy")) in
  let is_high_margin := dge (SilverRows.Products.margin_percent p) (Some 40%Q) in
  let stock_status :=
    when_otherwise (ieq stock 0) "out_of_stock"
      (when_otherwise (ilt stock 10) "low_stock"
         (when_otherwise (ilt stock 50) "normal" "well_stocked")) in
  {| GoldRows.DimProduct.product_key := key;
     GoldRows.DimProduct.product_id := SilverRows.Products.product_id p;
     GoldRows.DimProduct.sku := SilverRows.Products.sku p;
     GoldRows.DimProduct.name := SilverRows.Products.name p;
     GoldRows.DimProduct.description := SilverRows.Products.description p;
     GoldRows.DimProduct.brand := SilverRows.Products.brand p;
     GoldRows.DimProduct.category := SilverRows.Products.category p;
     GoldRows.DimProduct.subcategory := SilverRows.Products.subcategory p;
     GoldRows.DimProduct.price := price;
     GoldRows.DimProduct.cost := SilverRows.Products.cost p;
     GoldRows.DimProduct.margin_percent := SilverRows.Products.margin_percent p;
     GoldRows.DimProduct.price_tier := price_tier;
     GoldRows.DimProduct.is_high_margin := is_high_margin;
     GoldRows.DimProduct.stock_quantity := stock;
     GoldRows.DimProduct.stock_status := stock_status;
     GoldRows.DimProduct.is_active := SilverRows.Products.is_active p;
     GoldRows.DimProduct.effective_from := SilverRows.Products.created_at p;
     GoldRows.DimProduct.effective_to := None;
     GoldRows.DimProduct.is_current := true;
     GoldRows.DimProduct._created_at := now |}.

(** The table written to [gold/dim_product/]. *)
Definition build_dim_product (now : timestamp) (products : list SilverRows.Products.row)
  : list GoldRows.DimProduct.row :=
  map (dim_product_row now)
      (generate_surrogate_key SilverRows.Products.product_id products).

(** ** dim_date *)

(** An integer cast to text, as [F.concat] and [F.lpad] do. *)
Definition int_to_string (z : Z) : string :=
  DecimalString.NilZero.string_of_int (Z.to_int z).

(** [F.lpad(s, len, pad)] for a one-character pad: pads on the left up to
    [len] characters, and cuts a longer text to its first [len]. *)
Definition lpad (s : string) (len : nat) (pad : string) : string :=
  let n := String.length s in
  if Nat.leb len n then String.substring 0 len s
  else (String.concat "" (repeat pad (len - n)) ++ s)%string.

(** [F.date_format(date, "EEEE")] and ["EEE"], by [dayofweek]. *)
Definition format_EEEE (d : SparkDate.date) : string :=
  nth (Z.to_nat (SparkDate.dayofweek d - 1))
    ["Sunday"; "Monday"; "Tuesday"; "Wednesday"; "Thursday"; "Friday"; "Saturday"]
    ""%string.

Definition format_EEE (d : SparkDate.date) : string :=
  nth (Z.to_nat (SparkDate.dayofweek d - 1))
    ["Sun"; "Mon"; "Tue"; "Wed"; "Thu"; "Fri"; "Sat"] ""%string.

(** [F.date_format(date, "MMMM")] and ["MMM"]. *)
Definition format_MMMM (d : SparkDate.date) : string :=
  nth (Z.to_nat (SparkDate.month d - 1))
    ["January"; "February"; "March"; "April"; "May"; "June"; "July"; "August";
     "September"; "October"; "November"; "December"] ""%string.

Definition format_MMM (d : SparkDate.date) : string :=
  nth (Z.to_nat (SparkDate.month d - 1))
    ["Jan"; "Feb"; "Mar"; "Apr"; "May"; "Jun"; "Jul"; "Aug"; "Sep"; "Oct"; "Nov"; "Dec"]
    ""%string.

(** [F.date_format(date, "yyyy-MM")] *)
Definition format_yyyy_MM (d : SparkDate.date) : string :=
  (lpad (int_to_string (SparkDate.year d)) 4 "0" ++ "-"
   ++ lpad (int_to_string (SparkDate.month d)) 2 "0")%string.

Definition isin (x : Z) (vs : list Z) : bool := existsb (Z.eqb x) vs.

(** All the date attributes of one day. *)
Definition dim_date_row (now : timestamp) (d : SparkDate.date) : GoldRows.DimDate.row :=
  {| GoldRows.DimDate.date := d;
     (* Date key (YYYYMMDD) *)
     GoldRows.DimDate.date_key :=
       SparkDate.year d * 10000 + SparkDate.month d * 100 + SparkDate.dayofmonth d;
     (* Basic components *)
     GoldRows.DimDate.day_of_month := SparkDate.dayofmonth d;
     GoldRows.DimDate.day_of_week := SparkDate.dayofweek d;
     GoldRows.DimDate.day_of_year := SparkDate.dayofyear d;
     GoldRows.DimDate.week_of_year := SparkDate.weekofyear d;
     GoldRows.DimDate.month := SparkDate.month d;
     GoldRows.DimDate.quarter := SparkDate.quarter d;
     GoldRows.DimDate.year := SparkDate.year d;
     (* Names *)
     GoldRows.DimDate.day_name := format_EEEE d;
     GoldRows.DimDate.day_name_short := format_EEE d;
     GoldRows.DimDate.month_name := format_MMMM d;
     GoldRows.DimDate.month_name_short := format_MMM d;
     (* Period labels *)
     GoldRows.DimDate.year_month := format_yyyy_MM d;
     GoldRows.DimDate.year_quarter :=
       (int_to_string (SparkDate.year d) ++ "-Q"
        ++ int_to_string (SparkDate.quarter d))%string;
     GoldRows.DimDate.year_week :=
       (int_to_string (SparkDate.year d) ++ "-W"
        ++ lpad (int_to_string (SparkDate.weekofyear d)) 2 "0")%string;
     (* Flags *)
     GoldRows.DimDate.is_weekend := isin (SparkDate.dayofweek d) [1; 7];
     GoldRows.DimDate.is_weekday := negb (isin (SparkDate.dayofweek d) [1; 7]);
     GoldRows.DimDate.is_month_start := SparkDate.dayofmonth d =? 1;
     GoldRows.DimDate.is_month_end :=
       SparkDate.dayofmonth d =? SparkDate.dayofmonth (SparkDate.last_day d);
     GoldRows.DimDate.is_quarter_start :=
       isin (SparkDate.month d) [1; 4; 7; 10] && (SparkDate.dayofmonth d =? 1);
     GoldRows.DimDate.is_quarter_end :=
       isin (SparkDate.month d) [3; 6; 9; 12]
       && (SparkDate.dayofmonth d =? SparkDate.dayofmonth (SparkDate.last_day d));
     GoldRows.DimDate.is_year_start :=
       (SparkDate.month d =? 1) && (SparkDate.dayofmonth d =? 1);
     GoldRows.DimDate.is_year_end :=
       (SparkDate.month d =? 12) && (SparkDate.dayofmonth d =? 31);
     (* Fiscal periods (fiscal year = calendar year) *)
     GoldRows.DimDate.fiscal_year := SparkDate.year d;
     GoldRows.DimDate.fiscal_quarter := SparkDate.quarter d;
     GoldRows.DimDate._created_at := now |}.

(** The date sequence: [start_date + timedelta(days=i)] for [i] in
    [range(num_days)]; [None] when a [datetime] operation raises. *)
Definition date_sequence (start_year end_year : Z) : option (list PyDatetime.datetime) :=
  bind (PyDatetime.new start_year 1 1) (fun start_date =>
  bind (PyDatetime.new end_year 12 31) (fun end_date =>
  let num_days := PyDatetime.sub_days end_date start_date + 1 in
  mapM (fun i => PyDatetime.add_days start_date i) (PyDatetime.range num_days))).

(** The table written to [gold/dim_date/].  It takes no input table. *)
Definition build_dim_date (now : timestamp) (start_year end_year : Z)
  : option (list GoldRows.DimDate.row) :=
  bind (date_sequence start_year end_year) (fun date_data =>
  let dates_df := map SparkDate.toInternal date_data in
  Some (map (dim_date_row now) dates_df)).

End DimTables.

(* ------------------------------------------------------------------ *)
(** * [src/glue_jobs/gold/fact_sales.py] *)

Module FactSales.
Import Spark Relational.
Local Open Scope list_scope.

(** [generate_surrogate_keys(df, key_column, partition_column)]: rows are
    numbered in ascending order of [partition_column]; without one, in the
    order [monotonically_increasing_id()] gives them, which is the frame's
    current order. *)
Definition generate_surrogate_keys {A : Type}
    (partition_column : option (A -> option string)) (df : list A) : list (A * Z) :=
  match partition_column with
  | Some c => row_number (orderBy (fun a b => str_leb (c a) (c b)) df)
  | None => row_number df
  end.

(** [create_date_key(date_column)]: YYYYMMDD.  The value fits the
    [IntegerType] it is cast to for every year Spark supports. *)
Definition create_date_key (date_column : option timestamp) : option Z :=
  lift1 (fun t =>
           let d := SparkDate.to_date t in
           SparkDate.year d * 10000 + SparkDate.month d * 100 + SparkDate.dayofmonth d)
        date_column.

(** The customer lookup: [customers.select("customer_id").distinct()] with
    its [customer_key]. *)
Definition customer_lookup (customers : list SilverRows.Customers.row)
  : list (option string * Z) :=
  generate_surrogate_keys (Some (fun k : option string => k))
    (distinct_by group_eqb (map SilverRows.Customers.customer_id customers)).

(** The product lookup: [products.select("product_id", "cost").distinct()]
    with its [product_key]. *)
Definition product_lookup (products : list SilverRows.Products.row)
  : list (option string * option double * Z) :=
  generate_surrogate_keys (Some (fun pc : option string * option double => fst pc))
    (distinct_by (fun a b => group_eqb (fst a) (fst b) && group_deqb (snd a) (snd b))
       (map (fun p => (SilverRows.Products.product_id p, SilverRows.Products.cost p))
            products)).

(** A row of [fact_base]: an order item with its order, its customer
    lookup row and its product lookup row. *)
Definition joined : Type :=
  SilverRows.OrderItems.row * SilverRows.Orders.row
  * (option string * Z) * (option string * option double * Z).

Definition j_item (j : joined) : SilverRows.OrderItems.row := fst (fst (fst j)).
Definition j_order (j : joined) : SilverRows.Orders.row := snd (fst (fst j)).
Definition j_customer (j : joined) : option string * Z := snd (fst j).
Definition j_product (j : joined) : option string * option double * Z := snd j.

(** [order_items.join(orders, "order_id", "inner")
       .join(dim_customer, "customer_id", "inner")
       .join(dim_product, "product_id", "inner")] *)
Definition fact_base (order_items : list SilverRows.OrderItems.row)
    (orders : list SilverRows.Orders.row)
    (dim_customer : list (option string * Z))
    (dim_product : list (option string * option double * Z)) : list joined :=
  join_inner (fun j => SilverRows.OrderItems.product_id (fst (fst j)))
             (fun p => fst (fst p))
    (join_inner (fun j => SilverRows.Orders.customer_id (snd j)) fst
       (join_inner SilverRows.OrderItems.order_id SilverRows.Orders.order_id
          order_items orders)
       dim_customer)
    dim_product.

(** The measures and the final [select] for one joined row and its
    [sale_key].  Both the item and the order carry a [discount_amount];
    the one listed among the line measures is the item's. *)
Definition fact_row (now : timestamp) (jk : joined * Z) : GoldRows.FactSales.row :=
  let '(j, sale_key) := jk in
  let item := j_item j in
  let order := j_order j in
  let quantity := SilverRows.OrderItems.quantity item in
  let unit_price := SilverRows.OrderItems.unit_price item in
  let line_total := SilverRows.OrderItems.line_total item in
  let cost := snd (fst (j_product j)) in
  let subtotal := SilverRows.Orders.subtotal order in
  (* Measures *)
  let gross_revenue := dround2 (dmul (of_int quantity) unit_price) in
  let net_revenue := dround2 line_total in
  let cost_of_goods := dround2 (dmul (of_int quantity) cost) in
  let profit := dround2 (dsub net_revenue cost_of_goods) in
  let profit_margin_pct :=
    when_otherwise (dgt net_revenue (Some 0%Q))
      (dround2 (dmul (ddiv profit net_revenue) (Some 100%Q)))
      (Some 0%Q) in
  (* Order-level amounts allocated to line items proportionally *)
  let allocated_tax :=
    dround2 (ddiv (dmul (SilverRows.Orders.tax_amount order) line_total) subtotal) in
  let allocated_shipping :=
    dround2 (ddiv (dmul (SilverRows.Orders.shipping_amount order) line_total) subtotal) in
  {| GoldRows.FactSales.sale_key := sale_key;
     GoldRows.FactSales.date_key := create_date_key (SilverRows.Orders.order_date order);
     GoldRows.FactSales.customer_key := snd (j_customer j);
     GoldRows.FactSales.product_key := snd (j_product j);
     GoldRows.FactSales.order_id := SilverRows.OrderItems.order_id item;
     GoldRows.FactSales.order_item_id := SilverRows.OrderItems.order_item_id item;
     GoldRows.FactSales.order_date := SilverRows.Orders.order_date order;
     GoldRows.FactSales.status := SilverRows.Orders.status order;
     GoldRows.FactSales.payment_method := SilverRows.Orders.payment_method order;
     GoldRows.FactSales.shipping_country := SilverRows.Orders.shipping_country order;
     GoldRows.FactSales.quantity := quantity;
     GoldRows.FactSales.unit_price := unit_price;
     GoldRows.FactSales.discount_percent := SilverRows.OrderItems.discount_percent item;
     GoldRows.FactSales.gross_revenue := gross_revenue;
     GoldRows.FactSales.discount_amount := SilverRows.OrderItems.discount_amount item;
     GoldRows.FactSales.net_revenue := net_revenue;
     GoldRows.FactSales.cost_of_goods := cost_of_goods;
     GoldRows.FactSales.profit := profit;
     GoldRows.FactSales.profit_margin_pct := profit_margin_pct;
     GoldRows.FactSales.allocated_tax := allocated_tax;
     GoldRows.FactSales.allocated_shipping := allocated_shipping;
     GoldRows.FactSales._created_at := now |}.

(** The joined rows with their [sale_key], in ascending [order_item_id]. *)
Definition keyed_fact_base (orders : list SilverRows.Orders.row)
    (order_items : list SilverRows.OrderItems.row)
    (products : list SilverRows.Products.row)
    (customers : list SilverRows.Customers.row) : list (joined * Z) :=
  let dim_customer := customer_lookup customers in
  let dim_product := product_lookup products in
  generate_surrogate_keys
    (Some (fun j : joined => SilverRows.OrderItems.order_item_id (j_item j)))
    (fact_base order_items orders dim_customer dim_product).

(** The table written to [gold/fact_sales/] and returned. *)
Definition build_fact_sales (now : timestamp)
    (orders : list SilverRows.Orders.row)
    (order_items : list SilverRows.OrderItems.row)
    (products : list SilverRows.Products.row)
    (customers : list SilverRows.Customers.row) : list GoldRows.FactSales.row :=
  map (fact_row now) (keyed_fact_base orders order_items products customers).

End FactSales.

(* ------------------------------------------------------------------ *)
(** * [src/glue_jobs/gold/fact_sales.py]: the daily aggregate

    [build_daily_sales_summary] reads the fact table back and groups it by
    day and shipping country. *)

Module AggRows.

(** [gold/agg_daily_sales/] *)
Module DailySales.
Record row : Type := {
  date_key : option Z;
  shipping_country : option string;
  total_orders : Z;
  total_items_sold : option Z;
  gross_revenue : option Spark.double;
  net_revenue : option Spark.double;
  total_profit : option Spark.double;
  avg_profit_margin : option Spark.double;
  unique_customers : Z;
  avg_order_value : option Spark.double;
  items_per_order : option Spark.double;
  _created_at : Spark.timestamp
}.
End DailySales.

End AggRows.

Module FactAggregates.
Import Spark Relational.
Local Open Scope list_scope.

(** Grouping equality on an integer column: NULL groups with NULL. *)
Definition group_zeqb (a b : option Z) : bool :=
  match a, b with
  | None, None => true
  | Some x, Some y => x =? y
  | _, _ => false
  end.

(** The grouping columns of the daily summary. *)
Definition day_country (f : GoldRows.FactSales.row) : option Z * option string :=
  (GoldRows.FactSales.date_key f, GoldRows.FactSales.shipping_country f).

Definition same_day_country (a b : option Z * option string) : bool :=
  group_zeqb (fst a) (fst b) && group_eqb (snd a) (snd b).

(** [F.sum(c)] on an integer column: NULL when the group holds no value. *)
Definition agg_sum_int (l : list (option Z)) : option Z :=
  match present l with
  | [] => None
  | x :: xs => Some (fold_left Z.add xs x)
  end.

(** [F.countDistinct(c)]: the number of distinct non-NULL values. *)
Definition countDistinct_str (l : list (option string)) : Z :=
  Z.of_nat (List.length (nodup string_dec (present l))).

Definition countDistinct_int (l : list (option Z)) : Z :=
  Z.of_nat (List.length (nodup Z.eq_dec (present l))).

(** The rows of one day and country. *)
Definition sales_of (fact_sales : list GoldRows.FactSales.row)
    (k : option Z * option string) : list GoldRows.FactSales.row :=
  filter (fun f => same_day_country (day_country f) k) fact_sales.

(** The aggregates and the two derived ratios of one group. *)
Definition daily_row (now : timestamp) (k : option Z * option string)
    (g : list GoldRows.FactSales.row) : AggRows.DailySales.row :=
  let total_orders := countDistinct_str (map GoldRows.FactSales.order_id g) in
  let total_items_sold := agg_sum_int (map GoldRows.FactSales.quantity g) in
  let net_revenue := agg_sum (map GoldRows.FactSales.net_revenue g) in
  {| AggRows.DailySales.date_key := fst k;
     AggRows.DailySales.shipping_country := snd k;
     AggRows.DailySales.total_orders := total_orders;
     AggRows.DailySales.total_items_sold := total_items_sold;
     AggRows.DailySales.gross_revenue :=
       agg_sum (map GoldRows.FactSales.gross_revenue g);
     AggRows.DailySales.net_revenue := net_revenue;
     AggRows.DailySales.total_profit := agg_sum (map GoldRows.FactSales.profit g);
     AggRows.DailySales.avg_profit_margin :=
       agg_avg (map GoldRows.FactSales.profit_margin_pct g);
     AggRows.DailySales.unique_customers :=
       countDistinct_int (map (fun f => Some (GoldRows.FactSales.customer_key f)) g);
     AggRows.DailySales.avg_order_value :=
       dround2 (ddiv net_revenue (of_int (Some total_orders)));
     AggRows.DailySales.items_per_order :=
       dround2 (ddiv (of_int total_items_sold) (of_int (Some total_orders)));
     AggRows.DailySales._created_at := now |}.

(** The table written to [gold/agg_daily_sales/], from the fact table read
    at [gold/fact_sales/]:
    [fact_sales.groupBy("date_key", "shipping_country").agg(...)] and the
    two [withColumn]s. *)
Definition build_daily_sales_summary (now : timestamp)
    (fact_sales : list GoldRows.FactSales.row) : list AggRows.DailySales.row :=
  map (fun k => daily_row now k (sales_of fact_sales k))
      (distinct_by same_day_country (map day_country fact_sales)).

End FactAggregates.

(* ------------------------------------------------------------------ *)
(** * Concrete tables used in examples *)

Module Fixtures.
Import Spark Validators.

(** A customers frame without an [email] column. *)
Definition customers_without_email : DataFrame :=
  {| columns := ["customer_id"];
     rows := [fun c => if String.eqb c "customer_id"
                       then Some (VStr "CUST-001") else None] |}.

(** An orders frame whose only order has no customer. *)
Definition orders_null_customer : DataFrame :=
  {| columns := ["order_id"; "customer_id"];
     rows := [fun c => if String.eqb c "order_id"
                       then Some (VStr "ORD-001") else None] |}.

(** A customers frame holding a row without identifier. *)
Definition customers_null_id : DataFrame :=
  {| columns := ["customer_id"; "email"];
     rows := [fun c => if String.eqb c "email"
                       then Some (VStr "a@example.com") else None] |}.

(** Two orders of the same known customer. *)
Definition orders_of_cust1 : DataFrame :=
  {| columns := ["order_id"; "customer_id"];
     rows := [fun c => if String.eqb c "order_id" then Some (VStr "ORD-001")
                       else if String.eqb c "customer_id" then Some (VStr "CUST-001")
                       else None;
              fun c => if String.eqb c "order_id" then Some (VStr "ORD-002")
                       else if String.eqb c "customer_id" then Some (VStr "CUST-001")
                       else None] |}.

End Fixtures.

(** An implementation of Spark's text functions for plain ASCII input,
    used to run the transformers on examples.  Numbers are read in plain
    decimal notation, timestamps as [YYYY-MM-DDTHH:MM:SS]; the two pattern
    functions cover the patterns the job uses.  The theorems below do not
    depend on it: they hold for every [Silver.Functions]. *)
Module AsciiFunctions.
Import Spark.
Local Open Scope list_scope.

Definition is_space (c : ascii) : bool := Ascii.eqb c " "%char.

Fixpoint ltrim (s : string) : string :=
  match s with
  | String c s' => if is_space c then ltrim s' else s
  | EmptyString => EmptyString
  end.

Fixpoint rev_string (s acc : string) : string :=
  match s with
  | String c s' => rev_string s' (String c acc)
  | EmptyString => acc
  end.

Definition trim (s : string) : string :=
  rev_string (ltrim (rev_string (ltrim s) "")) "".

Definition in_range (lo hi : N) (c : ascii) : bool :=
  (N.leb lo (N_of_ascii c) && N.leb (N_of_ascii c) hi)%bool.

Definition is_upper (c : ascii) : bool := in_range 65 90 c.
Definition is_lower (c : ascii) : bool := in_range 97 122 c.
Definition is_digit (c : ascii) : bool := in_range 48 57 c.
Definition is_alpha (c : ascii) : bool := (is_upper c || is_lower c)%bool.

Definition lower_char (c : ascii) : ascii :=
  if is_upper c then ascii_of_N (N_of_ascii c + 32) else c.
Definition upper_char (c : ascii) : ascii :=
  if is_lower c then ascii_of_N (N_of_ascii c - 32) else c.

Fixpoint map_string (f : ascii -> ascii) (s : string) : string :=
  match s with
  | String c s' => String (f c) (map_string f s')
  | EmptyString => EmptyString
  end.

Definition lower : string -> string := map_string lower_char.
Definition upper : string -> string := map_string upper_char.

(** First letter of each word in upper case, the rest in lower case. *)
Fixpoint initcap_from (start : bool) (s : string) : string :=
  match s with
  | String c s' =>
      String (if start then upper_char c else lower_char c)
             (initcap_from (is_space c) s')
  | EmptyString => EmptyString
  end.

Definition initcap : string -> string := initcap_from true.

Fixpoint forall_chars (p : ascii -> bool) (s : string) : bool :=
  match s with
  | String c s' => (p c && forall_chars p s')%bool
  | EmptyString => true
  end.

(** The text after the first occurrence of [c], if any. *)
Fixpoint after_first (c : ascii) (s : string) : option string :=
  match s with
  | String d s' => if Ascii.eqb c d then Some s' else after_first c s'
  | EmptyString => None
  end.

(** The text before the first occurrence of [c] (all of it if none). *)
Fixpoint before_first (c : ascii) (s : string) : string :=
  match s with
  | String d s' => if Ascii.eqb c d then EmptyString else String d (before_first c s')
  | EmptyString => EmptyString
  end.

(** Group 1 of the pattern "@(.+)$". *)
Definition regexp_extract (s pattern : string) (idx : Z) : string :=
  match after_first "@"%char s with
  | Some (String c rest) => String c rest
  | _ => EmptyString
  end.

Definition is_local_char (c : ascii) : bool :=
  (is_alpha c || is_digit c
   || existsb (Ascii.eqb c) ["."%char; "_"%char; "%"%char; "+"%char; "-"%char])%bool.

Definition is_domain_char (c : ascii) : bool :=
  (is_alpha c || is_digit c || Ascii.eqb c "."%char || Ascii.eqb c "-"%char)%bool.

(** The e-mail pattern: local part, "@", domain, ".", two letters or more. *)
Definition rlike (s pattern : string) : bool :=
  let loc := before_first "@"%char s in
  match after_first "@"%char s with
  | None => false
  | Some dom =>
      let rdom := rev_string dom "" in
      let tld := before_first "."%char rdom in
      match after_first "."%char rdom with
      | None => false
      | Some host =>
          (Nat.leb 1 (String.length loc) && forall_chars is_local_char loc
           && Nat.leb 1 (String.length host) && forall_chars is_domain_char host
           && Nat.leb 2 (String.length tld) && forall_chars is_alpha tld)%bool
      end
  end.

(** The value of a non-empty run of digits. *)
Fixpoint digits_from (acc : Z) (s : string) : option Z :=
  match s with
  | String c s' =>
      if is_digit c then digits_from (acc * 10 + Z.of_N (N_of_ascii c - 48)) s'
      else None
  | EmptyString => Some acc
  end.

Definition digits (s : string) : option Z :=
  match s with
  | EmptyString => None
  | _ => digits_from 0 s
  end.

Definition unsigned_decimal (s : string) : option Q :=
  match after_first "."%char s with
  | None => lift1 inject_Z (digits s)
  | Some frac =>
      match digits (before_first "."%char s), digits frac with
      | Some i, Some f =>
          let scale := Pos.pow 10 (Pos.of_nat (String.length frac)) in
          Some (Qmake (i * Zpos scale + f) scale)
      | _, _ => None
      end
  end.

Definition cast_double (s : string) : option double :=
  match s with
  | String "-"%char s' => lift1 Qopp (unsigned_decimal s')
  | _ => unsigned_decimal s
  end.

Definition cast_int (s : string) : option Z :=
  match s with
  | String "-"%char s' => lift1 Z.opp (digits s')
  | _ => digits s
  end.

(** [YYYY-MM-DDTHH:MM:SS] *)
Definition to_timestamp (s : string) : option timestamp :=
  match digits (substring 0 4 s), digits (substring 5 2 s), digits (substring 8 2 s),
        digits (substring 11 2 s), digits (substring 14 2 s), digits (substring 17 2 s)
  with
  | Some y, Some m, Some d, Some hh, Some mm, Some ss =>
      if Nat.eqb (String.length s) 19 then
        Some (((PyDatetime._ymd2ord y m d - SparkDate.EPOCH_ORDINAL) * 86400
               + hh * 3600 + mm * 60 + ss) * 1000000)
      else None
  | _, _, _, _, _, _ => None
  end.

Definition functions : Silver.Functions :=
  {| Silver.trim := trim;
     Silver.lower := lower;
     Silver.upper := upper;
     Silver.initcap := initcap;
     Silver.regexp_extract := regexp_extract;
     Silver.rlike := rlike;
     Silver.to_timestamp := to_timestamp;
     Silver.cast_double := cast_double;
     Silver.cast_int := cast_int |}.

End AsciiFunctions.

(** Bronze rows for the examples. *)
Module BronzeExamples.
Local Open Scope list_scope.

Definition customer (id email first last country created : string)
    (ingested : Z) : Bronze.Customers.row :=
  {| Bronze.Customers.customer_id := Some id;
     Bronze.Customers.email := Some email;
     Bronze.Customers.first_name := Some first;
     Bronze.Customers.last_name := Some last;
     Bronze.Customers.phone := None;
     Bronze.Customers.country := Some country;
     Bronze.Customers.city := Some "Berlin";
     Bronze.Customers.address := Some "123 Main St";
     Bronze.Customers.created_at := Some created;
     Bronze.Customers.updated_at := None;
     Bronze.Customers._ingested_at := Some ingested;
     Bronze.Customers._source_file := Some "customers.csv";
     Bronze.Customers._ingestion_date := None |}.

(** Two ingestions of CUST-001 and one of CUST-002. *)
Definition customers : list Bronze.Customers.row :=
  [ customer "CUST-001" "JOHN.DOE@EXAMPLE.COM" " john" "doe " "de"
      "2023-01-15T10:30:00" 1000;
    customer "CUST-002" "jane.smith@example.com" "Jane" "Smith" "FR"
      "2023-06-20T15:45:00" 1000;
    customer "CUST-001" "updated@example.com" "John" "Doe" "DE"
      "2023-01-15T10:30:00" 2000 ].

Definition product (id price cost : string) : Bronze.Products.row :=
  {| Bronze.Products.product_id := Some id;
     Bronze.Products.sku := Some "sam-ele-0001";
     Bronze.Products.name := Some "Samsung Galaxy Phone";
     Bronze.Products.description := None;
     Bronze.Products.category := Some "Electronics";
     Bronze.Products.subcategory := Some "Smartphone";
     Bronze.Products.brand := Some "Samsung";
     Bronze.Products.price := Some price;
     Bronze.Products.cost := Some cost;
     Bronze.Products.stock_quantity := Some "100";
     Bronze.Products.is_active := Some "true";
     Bronze.Products.created_at := Some "2023-01-01T00:00:00";
     Bronze.Products._ingested_at := Some 1000;
     Bronze.Products._source_file := Some "products.csv";
     Bronze.Products._ingestion_date := None |}.

Definition products : list Bronze.Products.row :=
  [ product "PROD-001" "599.99" "350.00"; product "PROD-002" "0" "1.00" ].

Definition order (id customer subtotal tax shipping discount total : string)
  : Bronze.Orders.row :=
  {| Bronze.Orders.order_id := Some id;
     Bronze.Orders.customer_id := Some customer;
     Bronze.Orders.order_date := Some "2023-12-15T09:15:00";
     Bronze.Orders.status := Some "SHIPPED";
     Bronze.Orders.payment_method := Some "paypal";
     Bronze.Orders.subtotal := Some subtotal;
     Bronze.Orders.tax_amount := Some tax;
     Bronze.Orders.shipping_amount := Some shipping;
     Bronze.Orders.discount_amount := Some discount;
     Bronze.Orders.total_amount := Some total;
     Bronze.Orders.currency := Some "EUR";
     Bronze.Orders.shipping_country := Some "fr";
     Bronze.Orders.shipping_city := Some "Paris";
     Bronze.Orders._ingested_at := Some 1000;
     Bronze.Orders._source_file := Some "orders.csv";
     Bronze.Orders._ingestion_date := None |}.

Definition orders : list Bronze.Orders.row :=
  [ order "ORD-002" "CUST-002" "129.99" "24.70" "5.99" "10.00" "150.68" ].

Definition order_item (id order product quantity unit_price discount_percent
    line_total : string) : Bronze.OrderItems.row :=
  {| Bronze.OrderItems.order_item_id := Some id;
     Bronze.OrderItems.order_id := Some order;
     Bronze.OrderItems.product_id := Some product;
     Bronze.OrderItems.quantity := Some quantity;
     Bronze.OrderItems.unit_price := Some unit_price;
     Bronze.OrderItems.discount_percent := Some discount_percent;
     Bronze.OrderItems.line_total := Some line_total;
     Bronze.OrderItems._ingested_at := Some 1000;
     Bronze.OrderItems._source_file := Some "order_items.csv";
     Bronze.OrderItems._ingestion_date := None |}.

(** Scenario 1 of the specification. *)
Definition item_599 : Bronze.OrderItems.row :=
  order_item "ITEM-001" "ORD-001" "PROD-001" "1" "599.99" "0" "599.99".


End BronzeExamples.

(** Silver tables for the examples, obtained by running the transformers. *)
Module SilverExamples.
Local Open Scope list_scope.

Definition run_time : Spark.timestamp := 1700000000000000.

Definition customers : list SilverRows.Customers.row :=
  Silver.transform_customers AsciiFunctions.functions run_time BronzeExamples.customers.

Definition products : list SilverRows.Products.row :=
  Silver.transform_products AsciiFunctions.functions run_time
    [ BronzeExamples.product "PROD-001" "599.99" "350.00";
      BronzeExamples.product "PROD-002" "129.99" "65.00";
      BronzeExamples.product "PROD-003" "10.00" "4.00" ].

(** ORD-003 is made of one fully discounted line: its subtotal is 0. *)
Definition orders : list SilverRows.Orders.row :=
  Silver.transform_orders AsciiFunctions.functions run_time
    [ BronzeExamples.order "ORD-002" "CUST-002" "129.99" "24.70" "5.99" "10.00" "150.68";
      BronzeExamples.order "ORD-003" "CUST-001" "0.00" "0.00" "5.99" "0.00" "5.99";
      BronzeExamples.order "ORD-004" "CUST-404" "10.00" "1.90" "0.00" "0.00" "11.90" ].

(** ITEM-003 belongs to the order whose subtotal is 0; ITEM-004 to an
    order of an unknown customer; ITEM-005 to no order; ITEM-006 names an
    unknown product. *)
Definition order_items : list SilverRows.OrderItems.row :=
  Silver.transform_order_items AsciiFunctions.functions run_time
    [ BronzeExamples.order_item "ITEM-002" "ORD-002" "PROD-002" "1" "129.99" "0" "129.99";
      BronzeExamples.order_item "ITEM-003" "ORD-003" "PROD-003" "1" "10.00" "100" "0.00";
      BronzeExamples.order_item "ITEM-004" "ORD-004" "PROD-003" "1" "10.00" "0" "10.00";
      BronzeExamples.order_item "ITEM-005" "ORD-999" "PROD-003" "1" "10.00" "0" "10.00";
      BronzeExamples.order_item "ITEM-006" "ORD-002" "PROD-999" "1" "10.00" "0" "10.00" ].

End SilverExamples.

(* ------------------------------------------------------------------ *)
(** * Specification-side definitions

    Notions the statements below are phrased with; none of them is part of
    the pipeline. *)

Module ValidatorsSpec.
Import Spark Validators.

(** A result makes the aggregate fail when it did not pass and its
    severity is counted. *)
Definition blocking (include_warnings : bool) (r : QualityCheckResult) : bool :=
  negb (passed r) &&
  (CheckSeverity_eqb (severity r) ERROR
   || (include_warnings && CheckSeverity_eqb (severity r) WARNING)).

(** What one iteration of the loop contributes to the returned list. *)
Definition column_result (self : DataQualityValidator) (sev : CheckSeverity)
    (col_name : string) : QualityCheckResult :=
  if has_column (df self) col_name
  then null_check_result col_name sev
         (count (filter isNull (select_col (df self) col_name)))
         (fst (validator_total_count self))
  else missing_column_result col_name.

(** Set difference of two columns, NULL being a value like any other. *)
Definition set_difference (l r : list cell) : list cell :=
  filter (fun a => if in_dec cell_eq_dec a r then false else true) l.

(** The non-NULL cells of a column. *)
Definition non_null (l : list cell) : list cell :=
  filter (fun x => negb (isNull x)) l.

End ValidatorsSpec.

Module SortingSpec.
Import Spark.
Local Open Scope list_scope.

Section Sorted.
Context {A : Type} (leb : A -> A -> bool).

(** Every element sorts no earlier than the head. *)
Definition head_first (l : list A) : Prop :=
  match l with
  | [] => True
  | h :: t => forall x, In x t -> leb h x = true
  end.

Inductive sorted : list A -> Prop :=
| sorted_nil : sorted []
| sorted_cons h t : head_first (h :: t) -> sorted t -> sorted (h :: t).

End Sorted.

Section Partitions.
Context {A : Type} (key : A -> option string).

(** The key of a partition: that of its first row. *)
Definition pkey (p : list A) : option (option string) :=
  option_map key (hd_error p).

(** Partitions are non-empty, each holds rows of one key, and no two
    partitions have the same key. *)
Definition well_partitioned (ps : list (list A)) : Prop :=
  Forall (fun p => p <> [] /\ forall x, In x p -> Some (key x) = pkey p) ps
  /\ NoDup (map pkey ps).

End Partitions.

End SortingSpec.

Module SilverSpec.
Import Spark Relational.
Local Open Scope list_scope.

(** [out] holds, for every key present in [df], exactly one row; that row
    is the image of an input row of that key, and its ingestion timestamp
    is no earlier than that of any input row of the key (a missing
    timestamp counting as earliest).  Every row of [out] is the image of
    an input row. *)
Definition latest_per_key {B S : Type}
    (bkey : B -> option string) (bts : B -> option timestamp)
    (skey : S -> option string) (sts : S -> option timestamp)
    (image : B -> S) (df : list B) (out : list S) : Prop :=
  (forall r, In r df ->
     exists s,
       filter (fun x => group_eqb (skey x) (bkey r)) out = [s]
       /\ skey s = bkey r
       /\ (exists r0, In r0 df /\ bkey r0 = bkey r /\ s = image r0)
       /\ (forall r', In r' df -> bkey r' = bkey r ->
           ts_geb (sts s) (bts r') = true))
  /\ (forall s, In s out -> exists r, In r df /\ s = image r).


End SilverSpec.

Module CalendarSpec.
Import PyDatetime.
Local Open Scope list_scope.

(** A day of the proleptic Gregorian calendar. *)
Definition valid_date (y m d : Z) : Prop :=
  1 <= m <= 12 /\ 1 <= d <= _days_in_month y m.

(** 365 days, 366 in a leap year. *)
Definition days_in_year (y : Z) : Z := if _is_leap y then 366 else 365.

(** The integers from [lo], [k] of them. *)
Definition zrange (lo : Z) (k : nat) : list Z :=
  map (fun i => lo + Z.of_nat i) (seq 0 k).

(** The years from [sy] through [ey]. *)
Definition years (sy ey : Z) : list Z := zrange sy (Z.to_nat (ey - sy + 1)).

(** Number of days in the years from [sy] through [ey]. *)
Definition days_in_years (sy ey : Z) : Z :=
  fold_right Z.add 0 (map days_in_year (years sy ey)).

(** Month and day of the [n]-th day (from 0) of a year: the last steps of
    [_ord2ymd]. *)
Definition month_day (n : Z) (leapyear : bool) : Z * Z :=
  let month := Z.shiftr (n + 50) 5 in
  let preceding :=
    nth (Z.to_nat month) _DAYS_BEFORE_MONTH 0
    + (if (2 <? month) && leapyear then 1 else 0) in
  if n <? preceding then
    let month := month - 1 in
    let preceding :=
      preceding
      - (nth (Z.to_nat month) _DAYS_IN_MONTH 0
         + (if (month =? 2) && leapyear then 1 else 0)) in
    (month, n - preceding + 1)
  else (month, n - preceding + 1).

(** Month lengths and offsets as functions of the leap flag. *)
Definition dim_of (leap : bool) (m : Z) : Z :=
  if (m =? 2) && leap then 29 else nth (Z.to_nat m) _DAYS_IN_MONTH 0.

Definition dbm_of (leap : bool) (m : Z) : Z :=
  nth (Z.to_nat m) _DAYS_BEFORE_MONTH 0 + (if (2 <? m) && leap then 1 else 0).

(** [month_day] answers a valid month and day at the right offset. *)
Definition month_day_ok (leap : bool) (n : Z) : bool :=
  let '(m, d) := month_day n leap in
  (1 <=? m) && (m <=? 12) && (1 <=? d) && (d <=? dim_of leap m)
  && (dbm_of leap m + d =? n + 1).

(** [month_day] finds the month and day back from their offset. *)
Definition month_day_inv_ok (leap : bool) (m d : Z) : bool :=
  if d <=? dim_of leap m then
    let '(m', d') := month_day (dbm_of leap m + d - 1) leap in
    (m' =? m) && (d' =? d)
  else true.

(** The row that [build_dim_date] makes of the day with ordinal [n]. *)
Definition row_of_ordinal (now : Spark.timestamp) (n : Z) : GoldRows.DimDate.row :=
  DimTables.dim_date_row now (n - SparkDate.EPOCH_ORDINAL).

(** The row of a dimension table for the day [y]-[m]-[d]. *)
Definition is_day (y m d : Z) (r : GoldRows.DimDate.row) : bool :=
  (GoldRows.DimDate.year r =? y) && (GoldRows.DimDate.month r =? m)
  && (GoldRows.DimDate.day_of_month r =? d).

End CalendarSpec.

Module GoldSpec.
Import Spark Relational.
Local Open Scope list_scope.








End GoldSpec.

(** Notions used to state the properties of the remaining checks. *)
Module ChecksSpec.
Import Spark Validators ValidatorChecks.
Local Open Scope list_scope.

(** The count cache is empty or holds the frame's row count: what
    [__init__] establishes and every method keeps. *)
Definition cache_ok (self : DataQualityValidator) : Prop :=
  _total_count self = None \/ _total_count self = Some (count (rows (df self))).

(** [self'] is [self] after a check has recorded [r]: the frame is the
    same, [r] is the last result, the cache is still right. *)
Definition records (self : DataQualityValidator) (r : QualityCheckResult)
    (self' : DataQualityValidator) : Prop :=
  df self' = df self /\ results self' = results self ++ [r] /\ cache_ok self'.

(** A validator of the frame [d], which has no row, whose recorded
    results all passed. *)
Definition clean_on_empty (d : DataFrame) (self : DataQualityValidator) : Prop :=
  df self = d /\ rows d = [] /\ cache_ok self
  /\ Forall (fun r => passed r = true) (results self).

(** A present value that is not listed. *)
Definition unlisted (values : list cell) (x : cell) : bool :=
  match x with
  | Some _ => if in_dec cell_eq_dec x values then false else true
  | None => false
  end.

(** [x] lies within the bounds that are given. *)
Definition within (min_value max_value : option Q) (x : Q) : Prop :=
  (forall lo, min_value = Some lo -> (lo <= x)%Q)
  /\ (forall hi, max_value = Some hi -> (x <= hi)%Q).

(** A frame with the given columns and no row. *)
Definition empty_frame (cols : list string) : DataFrame :=
  {| columns := cols; rows := [] |}.

(** Plain formatters, for running the checks on examples. *)
Definition plain_formatting : Formatting :=
  {| str_int := fun _ => "n";
     str_bound := fun _ => "b";
     repr_columns := String.concat ", ";
     repr_values := fun _ => "[...]" |}.

(** Integers as numbers; other values are not numeric. *)
Definition int_to_double (v : value) : option Q :=
  match v with VInt z => Some (inject_Z z) | _ => None end.

(** Three customers, two of them with the same e-mail address and one
    without country. *)
Definition three_customers : DataFrame :=
  {| columns := ["customer_id"; "email"; "country"; "age"];
     rows :=
       [ (fun c => if String.eqb c "customer_id" then Some (VStr "CUST-001")
                   else if String.eqb c "email" then Some (VStr "a@example.com")
                   else if String.eqb c "country" then Some (VStr "DE")
                   else if String.eqb c "age" then Some (VInt 30) else None);
         (fun c => if String.eqb c "customer_id" then Some (VStr "CUST-002")
                   else if String.eqb c "email" then Some (VStr "a@example.com")
                   else if String.eqb c "country" then None
                   else if String.eqb c "age" then Some (VInt 17) else None);
         (fun c => if String.eqb c "customer_id" then Some (VStr "CUST-003")
                   else if String.eqb c "email" then Some (VStr "c@example.com")
                   else if String.eqb c "country" then Some (VStr "FR")
                   else None) ] |}.

End ChecksSpec.

(** Notions used to state the properties of the star schema. *)
Module StarSpec.
Import Spark Relational.
Local Open Scope list_scope.


(** The orders placed by the customer [k]; none for a NULL [k]. *)
Definition orders_of (orders : list SilverRows.Orders.row) (k : option string)
  : list SilverRows.Orders.row :=
  filter (fun o => key_match k (SilverRows.Orders.customer_id o)) orders.

End StarSpec.

(** Notions used to state what the Silver transformers keep. *)
Module CleaningSpec.
Import Spark.
Local Open Scope list_scope.

(** A transformer with input [df] and output [out] loses rows only to
    repeated keys: it never adds a row, it keeps as many rows as it was
    given exactly when no key of [df] is repeated, and then [out] is, up
    to the order of rows, the image of every input row. *)
Definition loses_rows_only_to_repeated_keys {B S : Type}
    (bkey : B -> option string) (image : B -> S)
    (df : list B) (out : list S) : Prop :=
  (List.length out <= List.length df)%nat
  /\ (List.length out = List.length df <-> NoDup (map bkey df))
  /\ (NoDup (map bkey df) -> Permutation out (map image df)).

(** Three orders with three identifiers. *)
Definition three_orders : list Bronze.Orders.row :=
  [ BronzeExamples.order "ORD-002" "CUST-002" "129.99" "24.70" "5.99" "10.00" "150.68";
    BronzeExamples.order "ORD-003" "CUST-001" "0.00" "0.00" "5.99" "0.00" "5.99";
    BronzeExamples.order "ORD-004" "CUST-404" "10.00" "1.90" "0.00" "0.00" "11.90" ].

End CleaningSpec.

(** Notions used to state the properties of the daily aggregate. *)
Module AggregateSpec.
Import Spark Relational.
Local Open Scope list_scope.

(** The total of a nullable integer column, NULLs left out. *)
Definition total_int (l : list (option Z)) : Z :=
  fold_right Z.add 0 (present l).

(** The total of a nullable double column, NULLs left out. *)
Definition total_double (l : list (option double)) : Q :=
  fold_right Qplus 0%Q (present l).

(** The grouping columns of a row of the daily summary. *)
Definition summary_day_country (r : AggRows.DailySales.row) : option Z * option string :=
  (AggRows.DailySales.date_key r, AggRows.DailySales.shipping_country r).

End AggregateSpec.

(** Notions used to state the properties of the Bronze job. *)
Module IngestSpec.
Import Spark Relational.
Local Open Scope list_scope.

(** The table names that have a schema. *)
Definition known_table (table_name : string) : Prop :=
  In table_name ["customers"; "products"; "orders"; "order_items"].

(** [b] holds the rows of [a], in place, and possibly more after them. *)
Definition extends (a b : Ingest.tables) : Prop :=
  (exists more, Ingest.customers b = Ingest.customers a ++ more)
  /\ (exists more, Ingest.products b = Ingest.products a ++ more)
  /\ (exists more, Ingest.orders b = Ingest.orders a ++ more)
  /\ (exists more, Ingest.order_items b = Ingest.order_items a ++ more).

(** A batch stamped by [stamp] at [now] and cleaned into [out] together
    with the older rows [old] wins over them: provided every older row was
    ingested before [now] (or carries no ingestion time), each key of the
    batch has exactly one row in [out], and that row is the image of a row
    of the batch with that key, stamped. *)
Definition later_batch_wins {B S : Type}
    (bkey : B -> option string) (bts : B -> option timestamp)
    (skey : S -> option string) (sts : S -> option timestamp)
    (image : B -> S) (stamp : B -> B) (now : timestamp)
    (old batch : list B) (out : list S) : Prop :=
  (forall r, In r old -> ts_geb (bts r) (Some now) = false) ->
  forall r, In r batch ->
    exists s r',
      filter (fun x => group_eqb (skey x) (bkey r)) out = [s]
      /\ In r' batch /\ bkey r' = bkey r
      /\ s = image (stamp r')
      /\ sts s = Some now.

(** The example customers, as a first load already in Bronze. *)
Definition first_load : Ingest.tables :=
  {| Ingest.customers := BronzeExamples.customers;
     Ingest.products := [];
     Ingest.orders := [];
     Ingest.order_items := [] |}.

(** A second delivery: CUST-001 with a new address, and a new customer. *)
Definition second_delivery : Ingest.tables :=
  {| Ingest.customers :=
       [ BronzeExamples.customer "CUST-001" "john@example.org" "John" "Doe" "DE"
           "2023-01-15T10:30:00" 0;
         BronzeExamples.customer "CUST-003" "ada@example.org" "Ada" "Byron" "GB"
           "2024-02-01T08:00:00" 0 ];
     Ingest.products := [];
     Ingest.orders := [];
     Ingest.order_items := [] |}.

End IngestSpec.

(* ================================================================== *)
(** * Properties of the quality validator *)

Module ValidatorsFacts.
Import Spark Validators ValidatorsSpec Fixtures.
Local Open Scope list_scope.

Lemma value_eqb_eq (x y : value) : value_eqb x y = true <-> x = y.
Proof.
  destruct x, y; simpl; split; intros H; try discriminate; try congruence.
  - apply String.eqb_eq in H. congruence.
  - injection H as ->. apply String.eqb_refl.
  - apply Z.eqb_eq in H. congruence.
  - injection H as ->. apply Z.eqb_refl.
  - apply Bool.eqb_prop in H. congruence.
  - injection H as ->. apply Bool.eqb_reflx.
Qed.

Lemma CheckSeverity_eqb_eq a b : CheckSeverity_eqb a b = true <-> a = b.
Proof. destruct a, b; simpl; split; congruence. Qed.

Lemma count_nil_iff {A : Type} (l : list A) : (count l =? 0) = true <-> l = [].
Proof.
  unfold count. rewrite Z.eqb_eq. destruct l; simpl; split; intros H;
    try reflexivity; try discriminate; lia.
Qed.

(** ** all_passed *)

Lemma all_passed_loop_forallb rs iw :
  all_passed_loop rs iw = forallb (fun r => negb (blocking iw r)) rs.
Proof.
  induction rs as [|r rs IH]; simpl; [reflexivity|].
  unfold blocking at 1.
  destruct (passed r); simpl; [exact IH|].
  destruct (CheckSeverity_eqb (severity r) ERROR); simpl; [reflexivity|].
  destruct (iw && CheckSeverity_eqb (severity r) WARNING); simpl;
    [reflexivity | exact IH].
Qed.

Lemma blocking_false_iff iw r :
  blocking iw r = false <->
  (severity r = ERROR -> passed r = true) /\
  (iw = true -> severity r = WARNING -> passed r = true).
Proof.
  unfold blocking.
  destruct (passed r), (severity r), iw; simpl; split;
    try (intros; split; intros; congruence);
    try (intros [H1 H2]; try reflexivity;
         try (specialize (H1 eq_refl); discriminate);
         try (specialize (H2 eq_refl eq_refl); discriminate)).
Qed.

(** C5.  [all_passed(include_warnings)] is true exactly when no recorded
    result of severity error has failed and, if warnings are included, no
    recorded result of severity warning has failed; results of severity
    info have no influence: dropping them from the record leaves the
    answer unchanged. *)
Theorem all_passed_iff_no_counted_failure
    (self : DataQualityValidator) (include_warnings : bool) :
  (all_passed self include_warnings = true <->
     (forall r, In r (results self) -> severity r = ERROR -> passed r = true) /\
     (include_warnings = true ->
      forall r, In r (results self) -> severity r = WARNING -> passed r = true))
  /\
  all_passed_loop
    (filter (fun r => negb (CheckSeverity_eqb (severity r) INFO)) (results self))
    include_warnings
  = all_passed self include_warnings.
Proof.
  unfold all_passed. split.
  - rewrite all_passed_loop_forallb, forallb_forall. split.
    + intros H. split.
      * intros r Hin Hsev. specialize (H r Hin).
        apply negb_true_iff, blocking_false_iff in H. tauto.
      * intros Hiw r Hin Hsev. specialize (H r Hin).
        apply negb_true_iff, blocking_false_iff in H. tauto.
    + intros [HE HW] r Hin. apply negb_true_iff, blocking_false_iff.
      split; [apply HE; assumption | intros Hiw; apply HW; assumption].
  - rewrite !all_passed_loop_forallb.
    induction (results self) as [|r rs IH]; simpl; [reflexivity|].
    destruct (CheckSeverity_eqb (severity r) INFO) eqn:E; simpl.
    + apply CheckSeverity_eqb_eq in E.
      assert (Hb : blocking include_warnings r = false).
      { unfold blocking. rewrite E. simpl.
        rewrite andb_false_r. apply andb_false_r. }
      rewrite IH, Hb. reflexivity.
    + rewrite IH. reflexivity.
Qed.

(** ** check_not_null *)

Lemma validator_total_count_df self :
  df (snd (validator_total_count self)) = df self.
Proof. unfold validator_total_count. destruct (_total_count self); reflexivity. Qed.

Lemma validator_total_count_results self :
  results (snd (validator_total_count self)) = results self.
Proof. unfold validator_total_count. destruct (_total_count self); reflexivity. Qed.

Lemma validator_total_count_cached self :
  fst (validator_total_count (snd (validator_total_count self)))
  = fst (validator_total_count self).
Proof.
  unfold validator_total_count.
  destruct (_total_count self) eqn:E; simpl; [rewrite E|]; reflexivity.
Qed.

Lemma validator_total_count_record self r :
  fst (validator_total_count (record_result self r))
  = fst (validator_total_count self).
Proof. unfold validator_total_count, record_result; simpl.
       destruct (_total_count self); reflexivity. Qed.

Lemma column_result_step self sev r c :
  column_result (record_result (snd (validator_total_count self)) r) sev c
  = column_result self sev c.
Proof.
  unfold column_result. simpl.
  rewrite validator_total_count_record, validator_total_count_cached,
    validator_total_count_df.
  reflexivity.
Qed.

(** The returned list holds one result per named column, in order; the
    validator's own record receives only those of the columns that
    exist. *)
Lemma check_not_null_loop_spec cols : forall sev acc self,
  fst (check_not_null_loop cols sev acc self)
    = acc ++ map (column_result self sev) cols
  /\ results (snd (check_not_null_loop cols sev acc self))
    = results self
      ++ map (column_result self sev) (filter (has_column (df self)) cols)
  /\ df (snd (check_not_null_loop cols sev acc self)) = df self.
Proof.
  induction cols as [|c cols IH]; intros sev acc self; simpl.
  - rewrite !app_nil_r. auto.
  - destruct (has_column (df self) c) eqn:Hc; simpl.
    + destruct (validator_total_count self) as [total self1] eqn:Ht.
      assert (Hs1 : self1 = snd (validator_total_count self)) by (rewrite Ht; reflexivity).
      assert (Htot : total = fst (validator_total_count self)) by (rewrite Ht; reflexivity).
      set (r := null_check_result c sev _ total).
      destruct (IH sev (acc ++ [r]) (record_result self1 r)) as (H1 & H2 & H3).
      assert (Hcr : column_result self sev c = r).
      { unfold column_result. rewrite Hc, <- Htot. reflexivity. }
      assert (Hmap : forall l, map (column_result (record_result self1 r) sev) l
                               = map (column_result self sev) l).
      { intros l. apply map_ext. intros a. rewrite Hs1. apply column_result_step. }
      assert (Hdf : df (record_result self1 r) = df self).
      { simpl. rewrite Hs1. apply validator_total_count_df. }
      rewrite H1, H2, H3, Hdf, !Hmap, Hcr. simpl.
      rewrite Hs1, validator_total_count_results, <- !app_assoc. simpl. auto.
    + destruct (IH sev (acc ++ [missing_column_result c]) self) as (H1 & H2 & H3).
      rewrite H1, H2, H3.
      unfold column_result at 2. rewrite Hc, <- app_assoc. simpl. auto.
Qed.

(** C10.  [check_not_null(["email", "customer_id"], WARNING)] on a frame
    that has no [email] column does not raise and returns a failed
    error-severity result for [email] followed by the null check of
    [customer_id]; but the result for the missing column is appended to
    the returned list only: the validator's record holds the null check
    of [customer_id] alone, and [all_passed] still answers true. *)
Theorem check_not_null_missing_column_not_recorded :
  fst (check_not_null (init customers_without_email "customers")
         ["email"; "customer_id"] WARNING)
    = [missing_column_result "email";
       null_check_result "customer_id" WARNING 0 1]
  /\ results (snd (check_not_null (init customers_without_email "customers")
                     ["email"; "customer_id"] WARNING))
    = [null_check_result "customer_id" WARNING 0 1]
  /\ passed (missing_column_result "email") = false
  /\ severity (missing_column_result "email") = ERROR
  /\ all_passed (snd (check_not_null (init customers_without_email "customers")
                        ["email"; "customer_id"] WARNING)) true = true.
Proof. vm_compute. repeat split; reflexivity. Qed.

(** The general shape behind the example: every named column gets a
    result in the returned list; only existing columns reach the record. *)
Lemma check_not_null_returned self cols sev :
  fst (check_not_null self cols sev) = map (column_result self sev) cols.
Proof. unfold check_not_null. apply (check_not_null_loop_spec cols sev [] self). Qed.

Lemma check_not_null_recorded self cols sev :
  results (snd (check_not_null self cols sev))
  = results self ++ map (column_result self sev) (filter (has_column (df self)) cols).
Proof. unfold check_not_null. apply (check_not_null_loop_spec cols sev [] self). Qed.

(** ** check_referential_integrity *)

Lemma left_anti_match (a : cell) (pk : list cell) :
  existsb (fun b => is_true (sql_eq value_eqb a b)) pk = true
  <-> In a (non_null pk).
Proof.
  unfold non_null. rewrite existsb_exists, filter_In. split.
  - intros (b & Hb & Heq). destruct a as [x|], b as [y|]; simpl in Heq;
      try discriminate.
    destruct (value_eqb x y) eqn:E; [|discriminate].
    apply value_eqb_eq in E. subst y. split; [assumption | reflexivity].
  - intros [Hin Hnn]. destruct a as [x|]; [|discriminate].
    exists (Some x). split; [assumption|]. simpl.
    assert (H : value_eqb x x = true) by (apply value_eqb_eq; reflexivity).
    rewrite H. reflexivity.
Qed.

Lemma left_anti_set_difference (fk pk : list cell) :
  left_anti fk pk = set_difference fk (non_null pk).
Proof.
  unfold left_anti, set_difference. apply filter_ext. intros a.
  destruct (in_dec cell_eq_dec a (non_null pk)) as [Hin|Hnin].
  - apply left_anti_match in Hin. rewrite Hin. reflexivity.
  - destruct (existsb (fun b => is_true (sql_eq value_eqb a b)) pk) eqn:E;
      [|reflexivity].
    apply left_anti_match in E. contradiction.
Qed.

(** C6 (as the code has it).  When both columns exist, the check returns a
    result, records it, and: it passes exactly when the set difference
    between the distinct foreign-key values and the distinct non-NULL
    values of the reference key column is empty; [failed_count] is the
    number of distinct foreign-key values in that difference (a NULL
    foreign key is one such value), not a number of rows. *)
Theorem check_referential_integrity_set_difference
    (self : DataQualityValidator) (column : string)
    (reference_df : DataFrame) (reference_column : string) (sev : CheckSeverity) :
  has_column (df self) column = true ->
  has_column reference_df reference_column = true ->
  exists result self',
    check_referential_integrity self column reference_df reference_column sev
      = Some (result, self')
    /\ results self' = results self ++ [result]
    /\ severity result = sev
    /\ failed_count result
       = count (set_difference
                  (distinct (select_col (df self) column))
                  (non_null (distinct (select_col reference_df reference_column))))
    /\ (passed result = true <->
        set_difference
          (distinct (select_col (df self) column))
          (non_null (distinct (select_col reference_df reference_column))) = []).
Proof.
  intros Hc Hr. unfold check_referential_integrity. rewrite Hc, Hr. simpl.
  destruct (validator_total_count self) as [total self1] eqn:Ht.
  eexists. eexists. split; [reflexivity|]. simpl.
  assert (Hres : results self1 = results self).
  { replace self1 with (snd (validator_total_count self)) by (rewrite Ht; reflexivity).
    apply validator_total_count_results. }
  rewrite Hres, left_anti_set_difference.
  repeat split; try reflexivity.
  - apply count_nil_iff.
  - apply count_nil_iff.
Qed.

Lemma check_referential_integrity_set_difference_witness :
  has_column (df (init orders_of_cust1 "orders")) "customer_id" = true
  /\ has_column customers_without_email "customer_id" = true
  /\ exists result self',
    check_referential_integrity (init orders_of_cust1 "orders") "customer_id"
      customers_without_email "customer_id" ERROR = Some (result, self')
    /\ results self' = results (init orders_of_cust1 "orders") ++ [result]
    /\ severity result = ERROR
    /\ failed_count result
       = count (set_difference
                  (distinct (select_col (df (init orders_of_cust1 "orders")) "customer_id"))
                  (non_null (distinct (select_col customers_without_email "customer_id"))))
    /\ (passed result = true <->
        set_difference
          (distinct (select_col (df (init orders_of_cust1 "orders")) "customer_id"))
          (non_null (distinct (select_col customers_without_email "customer_id"))) = []).
Proof.
  split; [reflexivity|]. split; [reflexivity|].
  apply (check_referential_integrity_set_difference
           (init orders_of_cust1 "orders") "customer_id"
           customers_without_email "customer_id" ERROR); reflexivity.
Defined.

(** C6 fails as stated: an order without customer checked against a
    customers table that holds a row without identifier.  The distinct
    foreign-key values are {NULL}, the distinct reference values are
    {NULL}, their set difference is empty; the check nevertheless fails
    with one orphan, because the anti-join condition NULL == NULL is not
    TRUE. *)
Lemma check_referential_integrity_null_counterexample :
  set_difference
    (distinct (select_col orders_null_customer "customer_id"))
    (distinct (select_col customers_null_id "customer_id")) = []
  /\ exists result self',
    check_referential_integrity (init orders_null_customer "orders") "customer_id"
      customers_null_id "customer_id" ERROR = Some (result, self')
    /\ passed result = false
    /\ failed_count result = 1.
Proof.
  split; [reflexivity|].
  eexists. eexists. split; [reflexivity|]. split; reflexivity.
Qed.

End ValidatorsFacts.

(* ================================================================== *)
(** * Ordering, numbering and deduplication *)

Module SparkFacts.
Import Spark SortingSpec.
Local Open Scope list_scope.

Section SortingFacts.
Context {A : Type} (leb : A -> A -> bool).

Lemma insert_perm (x : A) (l : list A) : Permutation (insert leb x l) (x :: l).
Proof.
  induction l as [|y l IH]; simpl; [reflexivity|].
  destruct (leb y x); [|reflexivity].
  rewrite IH. apply perm_swap.
Qed.

Lemma fold_insert_perm (l acc : list A) :
  Permutation (fold_left (fun acc x => insert leb x acc) l acc) (acc ++ l).
Proof.
  revert acc. induction l as [|x l IH]; intros acc; simpl.
  - rewrite app_nil_r. reflexivity.
  - rewrite IH, insert_perm. apply Permutation_middle.
Qed.

Lemma orderBy_perm (l : list A) : Permutation (orderBy leb l) l.
Proof. unfold orderBy. apply (fold_insert_perm l []). Qed.

Lemma orderBy_In (l : list A) (x : A) : In x (orderBy leb l) <-> In x l.
Proof.
  split; apply Permutation_in; [|symmetry]; apply orderBy_perm.
Qed.

Lemma orderBy_length (l : list A) : List.length (orderBy leb l) = List.length l.
Proof. apply Permutation_length, orderBy_perm. Qed.

Hypothesis leb_total : forall a b, leb a b = true \/ leb b a = true.
Hypothesis leb_trans : forall a b c, leb a b = true -> leb b c = true -> leb a c = true.

Lemma insert_sorted (x : A) (l : list A) : sorted leb l -> sorted leb (insert leb x l).
Proof.
  induction 1 as [|h t Hh Ht IH]; simpl.
  - constructor; [intros y []|constructor].
  - destruct (leb h x) eqn:E.
    + constructor; [|exact IH].
      intros y Hy. apply (Permutation_in _ (insert_perm x t)) in Hy.
      destruct Hy as [<-|Hy]; [exact E | apply Hh, Hy].
    + constructor; [|constructor; assumption].
      assert (Hxh : leb x h = true).
      { destruct (leb_total x h) as [H|H]; [exact H | congruence]. }
      intros y [<-|Hy]; [exact Hxh|].
      apply leb_trans with h; [exact Hxh | apply Hh, Hy].
Qed.

Lemma fold_insert_sorted (l acc : list A) :
  sorted leb acc -> sorted leb (fold_left (fun acc x => insert leb x acc) l acc).
Proof.
  revert acc. induction l as [|x l IH]; intros acc Hacc; simpl; [exact Hacc|].
  apply IH, insert_sorted, Hacc.
Qed.

Lemma orderBy_sorted (l : list A) : sorted leb (orderBy leb l).
Proof. apply fold_insert_sorted. constructor. Qed.

(** The first row of an ordered non-empty frame sorts no later than any
    row of the frame. *)
Lemma orderBy_head (l : list A) (h : A) (t : list A) :
  orderBy leb l = h :: t ->
  forall x, In x l -> leb h x = true.
Proof.
  intros E x Hx. apply orderBy_In in Hx. rewrite E in Hx.
  pose proof (orderBy_sorted l) as Hs. rewrite E in Hs.
  inversion Hs as [|? ? Hh _]; subst.
  destruct Hx as [<-|Hx]; [|apply Hh, Hx].
  destruct (leb_total h h); assumption.
Qed.

End SortingFacts.

Section NumberingFacts.
Context {A : Type}.

Lemma number_from_fst (l : list A) : forall n, map fst (number_from n l) = l.
Proof. induction l as [|x l IH]; intros n; simpl; [|rewrite IH]; reflexivity. Qed.

Lemma number_from_ge (l : list A) : forall n p, In p (number_from n l) -> n <= snd p.
Proof.
  induction l as [|x l IH]; intros n p; simpl; [intros []|].
  intros [<-|H]; simpl; [lia|]. apply IH in H. lia.
Qed.


Lemma number_from_nth (l : list A) : forall n i d,
  (i < List.length l)%nat ->
  nth i (number_from n l) d = (nth i l (fst d), n + Z.of_nat i).
Proof.
  induction l as [|x l IH]; intros n i d Hi; simpl in *; [lia|].
  destruct i as [|i].
  - f_equal. lia.
  - rewrite IH by lia. f_equal. lia.
Qed.

Lemma row_number_fst (l : list A) : map fst (row_number l) = l.
Proof. apply number_from_fst. Qed.

(** Filtering on row number 1 keeps exactly the first row. *)
Lemma filter_row_number_one (x : A) (l : list A) :
  filter (fun rn => snd rn =? 1) (row_number (x :: l)) = [(x, 1)].
Proof.
  unfold row_number. simpl. f_equal.
  assert (H : forall p, In p (number_from 2 l) -> (snd p =? 1) = false).
  { intros p Hp. apply number_from_ge in Hp. apply Z.eqb_neq. lia. }
  induction (number_from 2 l) as [|p q IH]; simpl; [reflexivity|].
  rewrite (H p) by (left; reflexivity). apply IH.
  intros p' Hp'. apply H. right. exact Hp'.
Qed.

End NumberingFacts.

(** ** The orderings used by the jobs *)

Lemma ts_geb_total (a b : option timestamp) : ts_geb a b = true \/ ts_geb b a = true.
Proof.
  destruct a as [x|], b as [y|]; simpl; auto.
  destruct (Z.leb_spec y x); [left; reflexivity | right; apply Z.leb_le; lia].
Qed.

Lemma ts_geb_trans (a b c : option timestamp) :
  ts_geb a b = true -> ts_geb b c = true -> ts_geb a c = true.
Proof.
  destruct a as [x|], b as [y|], c as [z|]; simpl; try congruence.
  rewrite !Z.leb_le. lia.
Qed.

End SparkFacts.

Module DedupFacts.
Import Spark Silver SortingSpec SparkFacts Relational.
Local Open Scope list_scope.

Lemma group_eqb_eq (a b : option string) : group_eqb a b = true <-> a = b.
Proof.
  destruct a as [x|], b as [y|]; simpl; split; intros H;
    try discriminate; try reflexivity.
  - apply String.eqb_eq in H. congruence.
  - injection H as ->. apply String.eqb_refl.
Qed.

Lemma NoDup_map_In_inj {A B : Type} (f : A -> B) (l : list A) :
  NoDup (map f l) -> forall a b, In a l -> In b l -> f a = f b -> a = b.
Proof.
  induction l as [|x l IH]; simpl; intros Hnd a b Ha Hb Hf; [contradiction|].
  inversion Hnd as [|? ? Hx Hl]; subst.
  destruct Ha as [<-|Ha], Hb as [<-|Hb]; try reflexivity.
  - exfalso. apply Hx. rewrite Hf. apply in_map, Hb.
  - exfalso. apply Hx. rewrite <- Hf. apply in_map, Ha.
  - apply IH; assumption.
Qed.

(** In a list without two rows of the same key, the rows of a present
    key are that one row. *)
Lemma filter_key_singleton {A : Type} (key : A -> option string) (l : list A) :
  NoDup (map key l) -> forall s, In s l ->
  filter (fun x => group_eqb (key x) (key s)) l = [s].
Proof.
  induction l as [|x l IH]; simpl; intros Hnd s Hs; [contradiction|].
  inversion Hnd as [|? ? Hx Hl]; subst.
  assert (Hnone : forall k, ~ In k (map key l) ->
                  filter (fun y => group_eqb (key y) k) l = []).
  { intros k Hk. clear - Hk. induction l as [|y l IH]; simpl; [reflexivity|].
    destruct (group_eqb (key y) k) eqn:E.
    - apply group_eqb_eq in E. exfalso. apply Hk. left. exact E.
    - apply IH. intros H. apply Hk. right. exact H. }
  destruct Hs as [<-|Hs].
  - assert (E : group_eqb (key x) (key x) = true) by (apply group_eqb_eq; reflexivity).
    rewrite E, (Hnone _ Hx). reflexivity.
  - destruct (group_eqb (key x) (key s)) eqn:E.
    + apply group_eqb_eq in E. exfalso. apply Hx. rewrite E. apply in_map, Hs.
    + apply IH; assumption.
Qed.

Section Dedup.
Context {A : Type} (key : A -> option string) (ts : A -> option timestamp).

Lemma same_key_eq (a b : A) : same_key key a b = true <-> key a = key b.
Proof.
  unfold same_key. destruct (key a) as [x|], (key b) as [y|]; split; intros H;
    try discriminate; try reflexivity.
  - apply String.eqb_eq in H. congruence.
  - injection H as ->. apply String.eqb_refl.
Qed.

Lemma add_to_partition_perm (x : A) (ps : list (list A)) :
  Permutation (List.concat (add_to_partition key x ps)) (x :: List.concat ps).
Proof.
  induction ps as [|p ps IH]; simpl; [reflexivity|].
  destruct p as [|y t].
  - simpl. exact IH.
  - destruct (same_key key y x).
    + change (Permutation (((y :: t) ++ [x]) ++ List.concat ps)
                          (x :: (y :: t) ++ List.concat ps)).
      rewrite <- app_assoc. symmetry. apply Permutation_middle.
    + change (Permutation ((y :: t) ++ List.concat (add_to_partition key x ps))
                          (x :: (y :: t) ++ List.concat ps)).
      rewrite IH. symmetry. apply Permutation_middle.
Qed.

Lemma add_to_partition_keys (x : A) (ps : list (list A)) (k : option (option string)) :
  In k (map (pkey key) (add_to_partition key x ps)) ->
  In k (map (pkey key) ps) \/ k = Some (key x).
Proof.
  induction ps as [|p ps IH]; simpl.
  - intros [<-|[]]. right. reflexivity.
  - destruct p as [|y t]; simpl.
    + intros [<-|H]; [left; left; reflexivity|].
      destruct (IH H); [left; right; assumption | right; assumption].
    + destruct (same_key key y x); simpl.
      * intros [<-|H]; [left; left; reflexivity | left; right; exact H].
      * intros [<-|H]; [left; left; reflexivity|].
        destruct (IH H); [left; right; assumption | right; assumption].
Qed.

Lemma add_to_partition_wp (x : A) (ps : list (list A)) :
  well_partitioned key ps -> well_partitioned key (add_to_partition key x ps).
Proof.
  unfold well_partitioned. induction ps as [|p ps IH]; intros [HF HN]; simpl.
  - split.
    + constructor; [|constructor]. split; [discriminate|].
      intros y [<-|[]]. reflexivity.
    + constructor; [intros []|constructor].
  - inversion HF as [|? ? [Hne Hp] HF']; subst.
    inversion HN as [|? ? Hnotin HN']; subst.
    destruct p as [|y t]; [contradiction Hne; reflexivity|].
    destruct (same_key key y x) eqn:E.
    + apply same_key_eq in E. split.
      * constructor; [|exact HF']. split.
        { destruct t; discriminate. }
        intros z Hz. simpl. apply in_app_or in Hz.
        destruct Hz as [Hz|[<-|[]]].
        { apply (Hp z Hz). }
        { unfold pkey. simpl. congruence. }
      * simpl. exact HN.
    + destruct (IH (conj HF' HN')) as [HF2 HN2]. split.
      * constructor; [split; assumption | exact HF2].
      * simpl. constructor; [|exact HN2].
        intros Hin. apply add_to_partition_keys in Hin.
        destruct Hin as [Hin|Hin]; [apply Hnotin, Hin|].
        unfold pkey in Hin. simpl in Hin. injection Hin as Hin.
        apply same_key_eq in Hin. congruence.
Qed.

Lemma fold_add_to_partition (l : list A) : forall ps,
  well_partitioned key ps ->
  well_partitioned key (fold_left (fun ps x => add_to_partition key x ps) l ps)
  /\ Permutation (List.concat (fold_left (fun ps x => add_to_partition key x ps) l ps))
       (List.concat ps ++ l).
Proof.
  induction l as [|x l IH]; intros ps Hwp; simpl.
  - rewrite app_nil_r. split; [exact Hwp | reflexivity].
  - destruct (IH _ (add_to_partition_wp x ps Hwp)) as [H1 H2].
    split; [exact H1|].
    rewrite H2, add_to_partition_perm. simpl. apply Permutation_middle.
Qed.

Lemma partitionBy_wp (l : list A) : well_partitioned key (partitionBy key l).
Proof.
  apply fold_add_to_partition. split; constructor.
Qed.

Lemma partitionBy_perm (l : list A) : Permutation (List.concat (partitionBy key l)) l.
Proof.
  apply (fold_add_to_partition l []). split; constructor.
Qed.

(** What a partition contributes: its first row in window order. *)
Lemma keep_first_with_row_num (p : list A) :
  keep_first (with_row_num ts p) = firstn 1 (orderBy (by_ingested_desc ts) p).
Proof.
  unfold keep_first, with_row_num.
  destruct (orderBy (by_ingested_desc ts) p) as [|h t]; [reflexivity|].
  rewrite filter_row_number_one. reflexivity.
Qed.

Lemma by_ingested_desc_total (a b : A) :
  by_ingested_desc ts a b = true \/ by_ingested_desc ts b a = true.
Proof. apply ts_geb_total. Qed.

Lemma by_ingested_desc_trans (a b c : A) :
  by_ingested_desc ts a b = true -> by_ingested_desc ts b c = true ->
  by_ingested_desc ts a c = true.
Proof. apply ts_geb_trans. Qed.

(** The survivor of a non-empty partition. *)
Lemma partition_survivor (p : list A) :
  p <> [] ->
  exists h, keep_first (with_row_num ts p) = [h] /\ In h p
            /\ forall x, In x p -> ts_geb (ts h) (ts x) = true.
Proof.
  intros Hne. rewrite keep_first_with_row_num.
  destruct (orderBy (by_ingested_desc ts) p) as [|h t] eqn:E.
  - exfalso. apply Hne. apply length_zero_iff_nil.
    rewrite <- (orderBy_length (by_ingested_desc ts)), E. reflexivity.
  - exists h. split; [reflexivity|]. split.
    + apply (orderBy_In (by_ingested_desc ts)). rewrite E. left. reflexivity.
    + intros x Hx.
      apply (orderBy_head (by_ingested_desc ts)
               by_ingested_desc_total by_ingested_desc_trans p h t E x Hx).
Qed.

Lemma survivors_keys (ps : list (list A)) :
  Forall (fun p => p <> [] /\ forall x, In x p -> Some (key x) = pkey key p) ps ->
  map Some (map key (flat_map (fun p => keep_first (with_row_num ts p)) ps))
  = map (pkey key) ps.
Proof.
  induction 1 as [|p ps [Hne Hp] _ IH]; simpl; [reflexivity|].
  destruct (partition_survivor p Hne) as (h & Hh & Hin & _).
  rewrite Hh. simpl. rewrite IH, (Hp h Hin). reflexivity.
Qed.

Lemma deduplicate_In (l : list A) (s : A) : In s (deduplicate key ts l) -> In s l.
Proof.
  unfold deduplicate. rewrite in_flat_map. intros (p & Hp & Hs).
  apply (Permutation_in _ (partitionBy_perm l)).
  apply in_concat. exists p. split; [exact Hp|].
  rewrite keep_first_with_row_num in Hs.
  apply (orderBy_In (by_ingested_desc ts)).
  destruct (orderBy (by_ingested_desc ts) p) as [|h t]; simpl in Hs;
    [contradiction|].
  destruct Hs as [<-|[]]. left. reflexivity.
Qed.

Lemma deduplicate_NoDup (l : list A) : NoDup (map key (deduplicate key ts l)).
Proof.
  destruct (partitionBy_wp l) as [HF HN].
  apply (NoDup_map_inv Some). unfold deduplicate.
  rewrite (survivors_keys _ HF). exact HN.
Qed.

Lemma deduplicate_latest (l : list A) (r : A) :
  In r l ->
  exists s, In s (deduplicate key ts l) /\ key s = key r
            /\ forall r', In r' l -> key r' = key r -> ts_geb (ts s) (ts r') = true.
Proof.
  intros Hr. destruct (partitionBy_wp l) as [HF HN].
  assert (Hfind : forall x, In x l ->
            exists p, In p (partitionBy key l) /\ In x p).
  { intros x Hx. apply (Permutation_in _ (Permutation_sym (partitionBy_perm l))) in Hx.
    apply in_concat in Hx. exact Hx. }
  destruct (Hfind r Hr) as (p & Hp & Hrp).
  rewrite Forall_forall in HF. destruct (HF p Hp) as [Hne Hkeys].
  destruct (partition_survivor p Hne) as (h & Hh & Hhp & Hmax).
  exists h. split; [|split].
  - unfold deduplicate. apply in_flat_map. exists p. split; [exact Hp|].
    rewrite Hh. left. reflexivity.
  - pose proof (Hkeys h Hhp) as H1. pose proof (Hkeys r Hrp) as H2. congruence.
  - intros r' Hr' Hk. destruct (Hfind r' Hr') as (p' & Hp' & Hrp').
    assert (p' = p).
    { apply (NoDup_map_In_inj (pkey key) _ HN); try assumption.
      destruct (HF p' Hp') as [_ Hkeys'].
      rewrite <- (Hkeys' r' Hrp'), <- (Hkeys r Hrp). congruence. }
    subst p'. apply Hmax, Hrp'.
Qed.

End Dedup.

(** ** Deduplication inside a transformer

    A transformer cleans each row, deduplicates, and finishes each row;
    cleaning and finishing leave the key and the ingestion timestamp
    alone. *)
Section Transformer.
Context {B S : Type}
        (bkey : B -> option string) (bts : B -> option timestamp)
        (skey : S -> option string) (sts : S -> option timestamp)
        (clean : B -> S) (finish : S -> S).
Hypothesis clean_key : forall r, skey (clean r) = bkey r.
Hypothesis clean_ts : forall r, sts (clean r) = bts r.
Hypothesis finish_key : forall s, skey (finish s) = skey s.
Hypothesis finish_ts : forall s, sts (finish s) = sts s.

Lemma transformer_dedup (df : list B) :
  let out := map finish (deduplicate skey sts (map clean df)) in
  (forall r, In r df ->
     exists s,
       filter (fun x => group_eqb (skey x) (bkey r)) out = [s]
       /\ skey s = bkey r
       /\ (exists r0, In r0 df /\ bkey r0 = bkey r /\ s = finish (clean r0))
       /\ (forall r', In r' df -> bkey r' = bkey r ->
           ts_geb (sts s) (bts r') = true))
  /\ (forall s, In s out -> exists r, In r df /\ s = finish (clean r)).
Proof.
  intros out.
  assert (Hnd : NoDup (map skey out)).
  { unfold out. rewrite map_map.
    rewrite (map_ext _ skey finish_key). apply deduplicate_NoDup. }
  split.
  - intros r Hr.
    destruct (deduplicate_latest skey sts (map clean df) (clean r)
                (in_map clean df r Hr)) as (s & Hs & Hk & Hmax).
    assert (Hin : In (finish s) out) by (apply in_map, Hs).
    exists (finish s). split; [|split; [|split]].
    + rewrite <- (filter_key_singleton skey out Hnd (finish s) Hin).
      apply filter_ext. intros x. rewrite finish_key, Hk, clean_key. reflexivity.
    + rewrite finish_key, Hk. apply clean_key.
    + apply deduplicate_In in Hs. apply in_map_iff in Hs.
      destruct Hs as (r0 & <- & Hr0). exists r0. split; [exact Hr0|].
      split; [|reflexivity].
      rewrite <- (clean_key r0), <- (clean_key r). exact Hk.
    + intros r' Hr' Hk'. rewrite finish_ts, <- clean_ts.
      apply Hmax; [apply in_map, Hr'|]. rewrite !clean_key. exact Hk'.
  - intros s Hs. unfold out in Hs. apply in_map_iff in Hs.
    destruct Hs as (s0 & <- & Hs0). apply deduplicate_In in Hs0.
    apply in_map_iff in Hs0. destruct Hs0 as (r & <- & Hr).
    exists r. split; [exact Hr | reflexivity].
Qed.

End Transformer.

End DedupFacts.

(* ================================================================== *)
(** * Properties of the Silver transformers *)

Module SilverFacts.
Import Spark Silver SilverSpec Relational SparkFacts DedupFacts.
Local Open Scope list_scope.

(** C1.  Each of the four transformers keeps, for every natural key of
    its input (customer_id, product_id, order_id, order_item_id), exactly
    one row; the survivor is an input row of that key, cleaned, and its
    [_ingested_at] is the maximum among the input rows of the key. *)
Theorem silver_keeps_latest_row_per_key
    (fn : Functions) (now : timestamp)
    (customers : list Bronze.Customers.row) (products : list Bronze.Products.row)
    (orders : list Bronze.Orders.row) (order_items : list Bronze.OrderItems.row) :
  latest_per_key Bronze.Customers.customer_id Bronze.Customers._ingested_at
    SilverRows.Customers.customer_id SilverRows.Customers._ingested_at
    (fun r => customers_finish now (customers_clean fn r))
    customers (transform_customers fn now customers)
  /\ latest_per_key Bronze.Products.product_id Bronze.Products._ingested_at
    SilverRows.Products.product_id SilverRows.Products._ingested_at
    (fun r => products_finish now (products_clean fn r))
    products (transform_products fn now products)
  /\ latest_per_key Bronze.Orders.order_id Bronze.Orders._ingested_at
    SilverRows.Orders.order_id SilverRows.Orders._ingested_at
    (fun r => orders_finish now (orders_clean fn r))
    orders (transform_orders fn now orders)
  /\ latest_per_key Bronze.OrderItems.order_item_id Bronze.OrderItems._ingested_at
    SilverRows.OrderItems.order_item_id SilverRows.OrderItems._ingested_at
    (fun r => order_items_finish now (order_items_clean fn r))
    order_items (transform_order_items fn now order_items).
Proof.
  split; [|split; [|split]].
  - exact (transformer_dedup Bronze.Customers.customer_id Bronze.Customers._ingested_at
             SilverRows.Customers.customer_id SilverRows.Customers._ingested_at
             (customers_clean fn) (customers_finish now)
             (fun _ => eq_refl) (fun _ => eq_refl) (fun _ => eq_refl) (fun _ => eq_refl)
             customers).
  - exact (transformer_dedup Bronze.Products.product_id Bronze.Products._ingested_at
             SilverRows.Products.product_id SilverRows.Products._ingested_at
             (products_clean fn) (products_finish now)
             (fun _ => eq_refl) (fun _ => eq_refl) (fun _ => eq_refl) (fun _ => eq_refl)
             products).
  - exact (transformer_dedup Bronze.Orders.order_id Bronze.Orders._ingested_at
             SilverRows.Orders.order_id SilverRows.Orders._ingested_at
             (orders_clean fn) (orders_finish now)
             (fun _ => eq_refl) (fun _ => eq_refl) (fun _ => eq_refl) (fun _ => eq_refl)
             orders).
  - exact (transformer_dedup Bronze.OrderItems.order_item_id Bronze.OrderItems._ingested_at
             SilverRows.OrderItems.order_item_id SilverRows.OrderItems._ingested_at
             (order_items_clean fn) (order_items_finish now)
             (fun _ => eq_refl) (fun _ => eq_refl) (fun _ => eq_refl) (fun _ => eq_refl)
             order_items).
Qed.


(** Scenario 3: of two ingestions of CUST-001 the later one survives. *)
Lemma silver_keeps_latest_row_per_key_witness :
  In (BronzeExamples.customer "CUST-001" "JOHN.DOE@EXAMPLE.COM" " john" "doe " "de"
        "2023-01-15T10:30:00" 1000) BronzeExamples.customers
  /\ exists s,
      filter (fun x => group_eqb (SilverRows.Customers.customer_id x) (Some "CUST-001"))
        (transform_customers AsciiFunctions.functions 0 BronzeExamples.customers) = [s]
      /\ SilverRows.Customers.customer_id s = Some "CUST-001"
      /\ (exists r0, In r0 BronzeExamples.customers
            /\ Bronze.Customers.customer_id r0 = Some "CUST-001"
            /\ s = customers_finish 0 (customers_clean AsciiFunctions.functions r0))
      /\ (forall r', In r' BronzeExamples.customers ->
           Bronze.Customers.customer_id r' = Some "CUST-001" ->
           ts_geb (SilverRows.Customers._ingested_at s)
                  (Bronze.Customers._ingested_at r') = true).
Proof.
  split; [left; reflexivity|].
  apply (proj1 (proj1 (silver_keeps_latest_row_per_key AsciiFunctions.functions 0
                         BronzeExamples.customers [] [] []))
           (BronzeExamples.customer "CUST-001" "JOHN.DOE@EXAMPLE.COM" " john" "doe " "de"
              "2023-01-15T10:30:00" 1000)).
  left. reflexivity.
Defined.

Example scenario_3_later_ingestion_survives :
  map SilverRows.Customers.email
    (filter (fun x => group_eqb (SilverRows.Customers.customer_id x) (Some "CUST-001"))
       (transform_customers AsciiFunctions.functions 0 BronzeExamples.customers))
  = [Some "updated@example.com"].
Proof. vm_compute. reflexivity. Qed.

(** ** Membership in a transformer's output *)



(** ** Comparisons and rounding *)










(** ** Product margin *)



(** Boundary of the specification: a product priced 0 has margin 0. *)
Example zero_price_zero_margin :
  map SilverRows.Products.margin_percent
    (transform_products AsciiFunctions.functions 0
       [BronzeExamples.product "PROD-002" "0" "1.00"])
  = [Some 0%Q].
Proof. vm_compute. reflexivity. Qed.

(** ** Line totals *)




Example scenario_1_line_total :
  map (fun s => (SilverRows.OrderItems.gross_amount s,
                 SilverRows.OrderItems.discount_amount s,
                 SilverRows.OrderItems.calculated_line_total s,
                 SilverRows.OrderItems.is_line_total_valid s))
    (transform_order_items AsciiFunctions.functions 0 [BronzeExamples.item_599])
  = [(Some (59999 # 100)%Q, Some (0 # 100)%Q, Some (59999 # 100)%Q, Some true)].
Proof. vm_compute. reflexivity. Qed.

End SilverFacts.

(* ================================================================== *)
(** * Properties of the calendar and of the date dimension *)

Module CalendarFacts.
Import Spark PyDatetime CalendarSpec Relational.
Local Open Scope list_scope.

(** ** Years *)

Lemma days_before_next_year (y : Z) :
  _days_before_year (y + 1) = _days_before_year y + days_in_year y.
Proof.
  unfold _days_before_year, days_in_year, _is_leap.
  replace (y + 1 - 1) with y by lia.
  destruct (y mod 4 =? 0) eqn:E4; destruct (y mod 100 =? 0) eqn:E100;
    destruct (y mod 400 =? 0) eqn:E400; simpl;
    rewrite ?Z.eqb_eq, ?Z.eqb_neq in *;
    Z.div_mod_to_equations; lia.
Qed.

Lemma days_before_year_mono (y y' : Z) :
  y <= y' -> _days_before_year y <= _days_before_year y'.
Proof.
  intros H. unfold _days_before_year. Z.div_mod_to_equations. lia.
Qed.

Lemma days_in_year_pos (y : Z) : 365 <= days_in_year y <= 366.
Proof. unfold days_in_year. destruct (_is_leap y); lia. Qed.

(** The year numbering of [_ord2ymd]: 400-, 100-, 4- and 1-year cycles. *)
Lemma days_before_year_cycles (a b c e : Z) :
  0 <= b <= 3 -> 0 <= c <= 24 -> 0 <= e <= 3 ->
  _days_before_year (400 * a + 100 * b + 4 * c + e + 1)
  = 146097 * a + 36524 * b + 1461 * c + 365 * e.
Proof.
  intros Hb Hc He. unfold _days_before_year.
  replace (400 * a + 100 * b + 4 * c + e + 1 - 1)
    with (400 * a + 100 * b + 4 * c + e) by lia.
  Z.div_mod_to_equations. lia.
Qed.

Lemma is_leap_cycles (a b c e : Z) :
  0 <= b <= 3 -> 0 <= c <= 24 -> 0 <= e <= 3 ->
  _is_leap (400 * a + 100 * b + 4 * c + e + 1)
  = (e =? 3) && (negb (c =? 24) || (b =? 3)).
Proof.
  intros Hb Hc He. unfold _is_leap.
  set (Y := 400 * a + 100 * b + 4 * c + e + 1).
  assert (H4 : Y mod 4 = 0 <-> e = 3).
  { unfold Y. split; intros H; Z.div_mod_to_equations; lia. }
  assert (H100 : Y mod 100 = 0 <-> c = 24 /\ e = 3).
  { unfold Y. split; intros H; Z.div_mod_to_equations; lia. }
  assert (H400 : Y mod 400 = 0 <-> b = 3 /\ c = 24 /\ e = 3).
  { unfold Y. split; intros H; Z.div_mod_to_equations; lia. }
  destruct (Z.eqb_spec (Y mod 4) 0) as [E4|E4];
    destruct (Z.eqb_spec (Y mod 100) 0) as [E100|E100];
    destruct (Z.eqb_spec (Y mod 400) 0) as [E400|E400];
    destruct (Z.eqb_spec e 3); destruct (Z.eqb_spec c 24); destruct (Z.eqb_spec b 3);
    simpl; try reflexivity; exfalso; tauto.
Qed.

(** ** Months *)

Lemma zrange_In (lo : Z) (k : nat) (n : Z) :
  lo <= n < lo + Z.of_nat k -> In n (zrange lo k).
Proof.
  intros H. unfold zrange. apply in_map_iff.
  exists (Z.to_nat (n - lo)). split; [lia|]. apply in_seq. lia.
Qed.

Lemma zrange_In_inv (lo : Z) (k : nat) (n : Z) :
  In n (zrange lo k) -> lo <= n < lo + Z.of_nat k.
Proof.
  unfold zrange. rewrite in_map_iff. intros (i & <- & Hi).
  apply in_seq in Hi. lia.
Qed.

Lemma zrange_length (lo : Z) (k : nat) : List.length (zrange lo k) = k.
Proof. unfold zrange. rewrite length_map, length_seq. reflexivity. Qed.

Lemma zrange_NoDup (lo : Z) (k : nat) : NoDup (zrange lo k).
Proof.
  unfold zrange. apply Finite.Injective_map_NoDup; [|apply seq_NoDup].
  intros i j H. lia.
Qed.

Lemma days_in_month_of (y m : Z) : _days_in_month y m = dim_of (_is_leap y) m.
Proof. reflexivity. Qed.

Lemma days_before_month_of (y m : Z) :
  _days_before_month y m = dbm_of (_is_leap y) m.
Proof. reflexivity. Qed.

Lemma month_day_ok_all :
  forallb (fun leap => forallb (month_day_ok leap)
                         (zrange 0 (if leap then 366 else 365)))
    [true; false] = true.
Proof. vm_compute. reflexivity. Qed.

Lemma month_day_valid (leap : bool) (n : Z) :
  0 <= n < (if leap then 366 else 365) ->
  month_day_ok leap n = true.
Proof.
  intros H. pose proof month_day_ok_all as Hall.
  rewrite forallb_forall in Hall.
  assert (Hl : In leap [true; false]) by (destruct leap; simpl; auto).
  specialize (Hall leap Hl). rewrite forallb_forall in Hall.
  apply Hall. apply zrange_In. destruct leap; simpl; lia.
Qed.

Lemma month_day_inv_ok_all :
  forallb (fun leap =>
             forallb (fun m => forallb (month_day_inv_ok leap m) (zrange 1 31))
               (zrange 1 12))
    [true; false] = true.
Proof. vm_compute. reflexivity. Qed.

Lemma dim_of_le_31 (leap : bool) (m : Z) : 1 <= m <= 12 -> dim_of leap m <= 31.
Proof.
  intros H.
  assert (Hm : In m (zrange 1 12)) by (apply zrange_In; simpl; lia).
  simpl in Hm.
  repeat (destruct Hm as [<-|Hm]; [destruct leap; vm_compute; discriminate|]).
  contradiction.
Qed.

Lemma month_day_of_valid (leap : bool) (m d : Z) :
  1 <= m <= 12 -> 1 <= d <= dim_of leap m ->
  month_day (dbm_of leap m + d - 1) leap = (m, d).
Proof.
  intros Hm Hd. pose proof month_day_inv_ok_all as Hall.
  rewrite forallb_forall in Hall.
  assert (Hl : In leap [true; false]) by (destruct leap; simpl; auto).
  specialize (Hall leap Hl). rewrite forallb_forall in Hall.
  specialize (Hall m (zrange_In 1 12 m ltac:(simpl; lia))).
  rewrite forallb_forall in Hall.
  pose proof (dim_of_le_31 leap m Hm) as H31.
  specialize (Hall d (zrange_In 1 31 d ltac:(simpl; lia))).
  unfold month_day_inv_ok in Hall.
  destruct (Z.leb_spec d (dim_of leap m)); [|lia].
  destruct (month_day (dbm_of leap m + d - 1) leap) as [m' d'].
  apply andb_true_iff in Hall. destruct Hall as [H1 H2].
  apply Z.eqb_eq in H1, H2. congruence.
Qed.

(** Replaces month lengths and offsets of known months by their values. *)
Ltac eval_months :=
  repeat match goal with
    | |- context [dbm_of ?l ?m] =>
        let v := eval vm_compute in (dbm_of l m) in change (dbm_of l m) with v
    | |- context [dim_of ?l ?m] =>
        let v := eval vm_compute in (dim_of l m) in change (dim_of l m) with v
    | H : context [dbm_of ?l ?m] |- _ =>
        let v := eval vm_compute in (dbm_of l m) in change (dbm_of l m) with v in H
    | H : context [dim_of ?l ?m] |- _ =>
        let v := eval vm_compute in (dim_of l m) in change (dim_of l m) with v in H
    end.

(** The position of a valid day in its year. *)
Lemma day_of_year_bounds (leap : bool) (m d : Z) :
  1 <= m <= 12 -> 1 <= d <= dim_of leap m ->
  1 <= dbm_of leap m + d <= (if leap then 366 else 365).
Proof.
  intros Hm Hd.
  assert (Hin : In m (zrange 1 12)) by (apply zrange_In; simpl; lia).
  simpl in Hin.
  repeat (destruct Hin as [<-|Hin]; [destruct leap; eval_months; lia|]).
  contradiction.
Qed.

(** ** Ordinals *)

Lemma ymd2ord_last_day (y : Z) : _ymd2ord y 12 31 = _days_before_year (y + 1).
Proof.
  unfold _ymd2ord. rewrite days_before_next_year, days_before_month_of.
  unfold days_in_year. destruct (_is_leap y); eval_months; lia.
Qed.

Lemma ymd2ord_first_day (y : Z) : _ymd2ord y 1 1 = _days_before_year y + 1.
Proof.
  unfold _ymd2ord. rewrite days_before_month_of.
  destruct (_is_leap y); eval_months; lia.
Qed.

(** [_ord2ymd] through its cycle counts. *)
Lemma ord2ymd_unfold (n : Z) :
  _ord2ymd n =
  let n0 := n - 1 in
  let a := n0 / 146097 in
  let r1 := n0 mod 146097 in
  let b := r1 / 36524 in
  let r2 := r1 mod 36524 in
  let c := r2 / 1461 in
  let r3 := r2 mod 1461 in
  let e := r3 / 365 in
  let r4 := r3 mod 365 in
  let year := a * 400 + 1 + (b * 100 + c * 4 + e) in
  if (e =? 4) || (b =? 4) then (year - 1, 12, 31)
  else
    let md := month_day r4 ((e =? 3) && (negb (c =? 24) || (b =? 3))) in
    (year, fst md, snd md).
Proof.
  unfold _ord2ymd, month_day, _DI400Y, _DI100Y, _DI4Y. cbv zeta.
  destruct (_ || _); [reflexivity|].
  destruct (_ <? _); reflexivity.
Qed.

(** Every ordinal from 1 on is a valid date, and [_ymd2ord] finds the
    ordinal back. *)
Lemma ord2ymd_valid (n : Z) :
  1 <= n ->
  1 <= fst (fst (_ord2ymd n))
  /\ valid_date (fst (fst (_ord2ymd n))) (snd (fst (_ord2ymd n))) (snd (_ord2ymd n))
  /\ _ymd2ord (fst (fst (_ord2ymd n))) (snd (fst (_ord2ymd n))) (snd (_ord2ymd n)) = n.
Proof.
  intros Hn. rewrite ord2ymd_unfold. cbv zeta.
  set (n0 := n - 1).
  set (a := n0 / 146097). set (r1 := n0 mod 146097).
  set (b := r1 / 36524). set (r2 := r1 mod 36524).
  set (c := r2 / 1461). set (r3 := r2 mod 1461).
  set (e := r3 / 365). set (r4 := r3 mod 365).
  assert (H1 : n0 = 146097 * a + r1 /\ 0 <= r1 < 146097).
  { unfold a, r1. split; [apply Z.div_mod; lia | apply Z.mod_pos_bound; lia]. }
  assert (H2 : r1 = 36524 * b + r2 /\ 0 <= r2 < 36524).
  { unfold b, r2. split; [apply Z.div_mod; lia | apply Z.mod_pos_bound; lia]. }
  assert (H3 : r2 = 1461 * c + r3 /\ 0 <= r3 < 1461).
  { unfold c, r3. split; [apply Z.div_mod; lia | apply Z.mod_pos_bound; lia]. }
  assert (H4 : r3 = 365 * e + r4 /\ 0 <= r4 < 365).
  { unfold e, r4. split; [apply Z.div_mod; lia | apply Z.mod_pos_bound; lia]. }
  assert (Hn0 : n0 = n - 1) by reflexivity.
  clearbody n0 a r1 b r2 c r3 e r4.
  assert (Ha : 0 <= a) by lia.
  assert (Hb : 0 <= b <= 4) by lia.
  assert (Hc : 0 <= c <= 24) by lia.
  assert (He : 0 <= e <= 4) by lia.
  destruct (Z.eqb_spec e 4) as [E4|E4]; [|destruct (Z.eqb_spec b 4) as [B4|B4]];
    cbn [orb fst snd].
  - (* the last day of a 4-year cycle *)
    assert (Hc' : c <= 23) by lia.
    assert (Hb' : b <= 3) by lia.
    replace (a * 400 + 1 + (b * 100 + c * 4 + e) - 1)
      with (400 * a + 100 * b + 4 * c + 4) by lia.
    rewrite ymd2ord_last_day.
    replace (400 * a + 100 * b + 4 * c + 4 + 1)
      with (400 * a + 100 * b + 4 * (c + 1) + 0 + 1) by lia.
    rewrite days_before_year_cycles by lia.
    split; [lia|]. split; [|lia].
    unfold valid_date. rewrite days_in_month_of.
    destruct (_is_leap _); eval_months; lia.
  - (* the last day of a 400-year cycle *)
    replace (a * 400 + 1 + (b * 100 + c * 4 + e) - 1)
      with (400 * a + 400) by lia.
    rewrite ymd2ord_last_day.
    replace (400 * a + 400 + 1)
      with (400 * (a + 1) + 100 * 0 + 4 * 0 + 0 + 1) by lia.
    rewrite days_before_year_cycles by lia.
    split; [lia|]. split; [|lia].
    unfold valid_date. rewrite days_in_month_of.
    destruct (_is_leap _); eval_months; lia.
  - (* any other day *)
    replace (a * 400 + 1 + (b * 100 + c * 4 + e))
      with (400 * a + 100 * b + 4 * c + e + 1) by lia.
    set (Y := 400 * a + 100 * b + 4 * c + e + 1).
    assert (Hleap : _is_leap Y = (e =? 3) && (negb (c =? 24) || (b =? 3))).
    { apply is_leap_cycles; lia. }
    assert (Hdby : _days_before_year Y = 146097 * a + 36524 * b + 1461 * c + 365 * e).
    { apply days_before_year_cycles; lia. }
    rewrite <- Hleap.
    assert (Hok : month_day_ok (_is_leap Y) r4 = true).
    { apply month_day_valid. destruct (_is_leap Y); lia. }
    unfold month_day_ok in Hok.
    destruct (month_day r4 (_is_leap Y)) as [m d]. cbn [fst snd].
    rewrite !andb_true_iff in Hok.
    destruct Hok as ((((Hm1 & Hm2) & Hd1) & Hd2) & Hoff).
    rewrite Z.leb_le in Hm1, Hm2, Hd1, Hd2. rewrite Z.eqb_eq in Hoff.
    split; [unfold Y; lia|]. split.
    + unfold valid_date. rewrite days_in_month_of. lia.
    + unfold _ymd2ord. rewrite days_before_month_of, Hdby. lia.
Qed.

(** [_ymd2ord] is injective on valid dates. *)
Lemma ymd2ord_bounds (y m d : Z) :
  valid_date y m d ->
  _days_before_year y + 1 <= _ymd2ord y m d <= _days_before_year (y + 1).
Proof.
  intros [Hm Hd]. rewrite days_in_month_of in Hd.
  pose proof (day_of_year_bounds (_is_leap y) m d Hm Hd) as H.
  rewrite days_before_next_year. unfold _ymd2ord, days_in_year.
  rewrite days_before_month_of. destruct (_is_leap y); lia.
Qed.

Lemma ymd2ord_inj (y m d y' m' d' : Z) :
  valid_date y m d -> valid_date y' m' d' ->
  _ymd2ord y m d = _ymd2ord y' m' d' ->
  (y, m, d) = (y', m', d').
Proof.
  intros Hv Hv' Heq.
  pose proof (ymd2ord_bounds y m d Hv) as Hb.
  pose proof (ymd2ord_bounds y' m' d' Hv') as Hb'.
  assert (Hy : y = y').
  { destruct (Z.lt_trichotomy y y') as [Hlt|[Heq'|Hgt]]; [|exact Heq'|].
    - pose proof (days_before_year_mono (y + 1) y' ltac:(lia)). lia.
    - pose proof (days_before_year_mono (y' + 1) y ltac:(lia)). lia. }
  subst y'. destruct Hv as [Hm Hd], Hv' as [Hm' Hd'].
  rewrite days_in_month_of in Hd, Hd'.
  pose proof (month_day_of_valid (_is_leap y) m d Hm Hd) as H1.
  pose proof (month_day_of_valid (_is_leap y) m' d' Hm' Hd') as H2.
  unfold _ymd2ord in Heq. rewrite !days_before_month_of in Heq.
  replace (dbm_of (_is_leap y) m' + d' - 1)
    with (dbm_of (_is_leap y) m + d - 1) in H2 by lia.
  congruence.
Qed.

(** An ordinal built from a valid date gives that date back. *)
Lemma ord2ymd_ymd2ord (y m d : Z) :
  1 <= y -> valid_date y m d -> _ord2ymd (_ymd2ord y m d) = (y, m, d).
Proof.
  intros Hy Hv.
  pose proof (ymd2ord_bounds y m d Hv) as Hb.
  pose proof (days_before_year_mono 1 y Hy) as H0.
  change (_days_before_year 1) with 0 in H0.
  destruct (ord2ymd_valid (_ymd2ord y m d) ltac:(lia)) as (_ & Hv' & Heq).
  destruct (_ord2ymd (_ymd2ord y m d)) as [[y' m'] d']. cbn [fst snd] in *.
  apply ymd2ord_inj; assumption.
Qed.

(** The year of an ordinal, from the ordinals of the year's first and
    last day. *)
Lemma ord2ymd_year_range (n sy ey : Z) :
  1 <= n ->
  _days_before_year sy + 1 <= n <= _days_before_year (ey + 1) ->
  sy <= fst (fst (_ord2ymd n)) <= ey.
Proof.
  intros Hn Hr. destruct (ord2ymd_valid n Hn) as (_ & Hv & Heq).
  set (y := fst (fst (_ord2ymd n))) in *.
  pose proof (ymd2ord_bounds _ _ _ Hv) as Hb. rewrite Heq in Hb.
  split.
  - destruct (Z.le_gt_cases sy y) as [H|H]; [exact H|].
    pose proof (days_before_year_mono (y + 1) sy ltac:(lia)). lia.
  - destruct (Z.le_gt_cases y ey) as [H|H]; [exact H|].
    pose proof (days_before_year_mono (ey + 1) y ltac:(lia)). lia.
Qed.

(** ** The date dimension *)

Lemma zrange_S (lo : Z) (k : nat) : zrange lo (S k) = lo :: zrange (lo + 1) k.
Proof.
  unfold zrange. simpl. f_equal; [lia|].
  rewrite <- seq_shift, map_map. apply map_ext. intros i. lia.
Qed.

Lemma days_in_zrange (k : nat) : forall sy,
  fold_right Z.add 0 (map days_in_year (zrange sy k))
  = _days_before_year (sy + Z.of_nat k) - _days_before_year sy.
Proof.
  induction k as [|k IH]; intros sy.
  - simpl. replace (sy + 0) with sy by lia. lia.
  - rewrite zrange_S. simpl fold_right. rewrite IH, days_before_next_year.
    replace (sy + 1 + Z.of_nat k) with (sy + Z.of_nat (S k)) by lia. lia.
Qed.

Lemma days_in_years_ordinals (sy ey : Z) :
  days_in_years sy ey
  = Z.of_nat (Z.to_nat (_days_before_year (ey + 1) - _days_before_year sy)).
Proof.
  unfold days_in_years, years. rewrite days_in_zrange.
  destruct (Z.le_gt_cases sy (ey + 1)) as [H|H].
  - rewrite Z2Nat.id by lia. replace (sy + (ey - sy + 1)) with (ey + 1) by lia.
    pose proof (days_before_year_mono sy (ey + 1) H). lia.
  - replace (Z.to_nat (ey - sy + 1)) with 0%nat by lia.
    pose proof (days_before_year_mono (ey + 1) sy ltac:(lia)).
    replace (sy + Z.of_nat 0) with sy by lia. lia.
Qed.

Lemma mapM_Some {A B : Type} (f : A -> option B) (g : A -> B) (l : list A) :
  (forall x, In x l -> f x = Some (g x)) -> mapM f l = Some (map g l).
Proof.
  induction l as [|x l IH]; intros H; simpl; [reflexivity|].
  rewrite (H x (or_introl eq_refl)). simpl.
  rewrite IH by (intros y Hy; apply H; right; exact Hy). reflexivity.
Qed.

Lemma toordinal_fromordinal (n : Z) : 1 <= n -> toordinal (fromordinal n) = n.
Proof.
  intros Hn. destruct (ord2ymd_valid n Hn) as (_ & _ & H).
  unfold toordinal, fromordinal.
  destruct (_ord2ymd n) as [[y m] d]. exact H.
Qed.

(** The dates created are those of the ordinals from January 1st of
    [start_year] through December 31st of [end_year]. *)
Lemma build_dim_date_rows (now : timestamp) (sy ey : Z) :
  1 <= sy <= 9999 -> 1 <= ey <= 9999 ->
  DimTables.build_dim_date now sy ey
  = Some (map (row_of_ordinal now)
            (zrange (_days_before_year sy + 1)
               (Z.to_nat (_days_before_year (ey + 1) - _days_before_year sy)))).
Proof.
  intros Hsy Hey. unfold DimTables.build_dim_date, DimTables.date_sequence.
  assert (Hs : new sy 1 1 = Some {| year := sy; month := 1; day := 1 |}).
  { unfold new, MINYEAR, MAXYEAR. rewrite days_in_month_of.
    replace (1 <=? sy) with true by (symmetry; apply Z.leb_le; lia).
    replace (sy <=? 9999) with true by (symmetry; apply Z.leb_le; lia).
    destruct (_is_leap sy); reflexivity. }
  assert (He : new ey 12 31 = Some {| year := ey; month := 12; day := 31 |}).
  { unfold new, MINYEAR, MAXYEAR. rewrite days_in_month_of.
    replace (1 <=? ey) with true by (symmetry; apply Z.leb_le; lia).
    replace (ey <=? 9999) with true by (symmetry; apply Z.leb_le; lia).
    destruct (_is_leap ey); reflexivity. }
  rewrite Hs, He. cbn [bind].
  unfold sub_days, toordinal. cbn [year month day].
  rewrite ymd2ord_last_day, ymd2ord_first_day.
  replace (_days_before_year (ey + 1) - (_days_before_year sy + 1) + 1)
    with (_days_before_year (ey + 1) - _days_before_year sy) by lia.
  set (N := _days_before_year (ey + 1) - _days_before_year sy).
  set (o1 := _days_before_year sy + 1).
  pose proof (days_before_year_mono 1 sy ltac:(lia)) as H0.
  change (_days_before_year 1) with 0 in H0.
  pose proof (days_before_year_mono (ey + 1) 10000 ltac:(lia)) as Hmax.
  change (_days_before_year 10000) with 3652059 in Hmax.
  rewrite (mapM_Some _ (fun i => fromordinal (o1 + i))).
  - cbn [bind]. f_equal. unfold range, zrange. rewrite !map_map.
    apply map_ext_in. intros i Hi. apply in_seq in Hi.
    unfold row_of_ordinal, SparkDate.toInternal. f_equal.
    rewrite toordinal_fromordinal by (unfold o1; lia). reflexivity.
  - intros i Hi. unfold range in Hi. apply in_map_iff in Hi.
    destruct Hi as (k & <- & Hk). apply in_seq in Hk.
    unfold add_days, toordinal, _MAXORDINAL. cbn [year month day].
    rewrite ymd2ord_first_day. fold o1.
    replace (0 <? o1 + Z.of_nat k) with true
      by (symmetry; apply Z.ltb_lt; unfold o1; lia).
    replace (o1 + Z.of_nat k <=? 3652059) with true
      by (symmetry; apply Z.leb_le; unfold o1, N in *; lia).
    reflexivity.
Qed.

Lemma row_of_ordinal_ymd (now : timestamp) (n : Z) :
  (GoldRows.DimDate.year (row_of_ordinal now n),
   GoldRows.DimDate.month (row_of_ordinal now n),
   GoldRows.DimDate.day_of_month (row_of_ordinal now n)) = _ord2ymd n.
Proof.
  unfold row_of_ordinal, DimTables.dim_date_row. cbn [GoldRows.DimDate.year
    GoldRows.DimDate.month GoldRows.DimDate.day_of_month].
  unfold SparkDate.year, SparkDate.month, SparkDate.dayofmonth, SparkDate.ymd.
  replace (n - SparkDate.EPOCH_ORDINAL + SparkDate.EPOCH_ORDINAL) with n by lia.
  destruct (_ord2ymd n) as [[y m] d]. reflexivity.
Qed.

Lemma row_of_ordinal_date_key (now : timestamp) (n : Z) :
  GoldRows.DimDate.date_key (row_of_ordinal now n)
  = GoldRows.DimDate.year (row_of_ordinal now n) * 10000
    + GoldRows.DimDate.month (row_of_ordinal now n) * 100
    + GoldRows.DimDate.day_of_month (row_of_ordinal now n).
Proof. reflexivity. Qed.

Lemma filter_unique {A : Type} (p : A -> bool) (a : A) (l : list A) :
  NoDup l -> In a l -> (forall x, In x l -> (p x = true <-> x = a)) ->
  filter p l = [a].
Proof.
  induction l as [|x l IH]; intros Hnd Hin Hp; [contradiction|].
  inversion Hnd as [|? ? Hx Hl]; subst. simpl.
  assert (Hnone : ~ In a l -> filter p l = []).
  { intros Ha. clear IH Hnd Hl Hin Hx.
    induction l as [|z l IHl]; simpl; [reflexivity|].
    destruct (p z) eqn:E.
    - apply (Hp z (or_intror (or_introl eq_refl))) in E. subst z.
      exfalso. apply Ha. left. reflexivity.
    - apply IHl.
      + intros y Hy. apply Hp. destruct Hy as [->|Hy];
          [left; reflexivity | right; right; exact Hy].
      + intros H. apply Ha. right. exact H. }
  destruct Hin as [->|Hin].
  - assert (E : p a = true) by (apply Hp; [left|]; reflexivity).
    rewrite E, (Hnone Hx). reflexivity.
  - destruct (p x) eqn:E.
    + apply (Hp x (or_introl eq_refl)) in E. subst x. contradiction.
    + apply IH; [exact Hl | exact Hin|].
      intros y Hy. apply Hp. right. exact Hy.
Qed.

Lemma filter_map_comm {A B : Type} (f : A -> B) (p : B -> bool) (l : list A) :
  filter p (map f l) = map f (filter (fun x => p (f x)) l).
Proof.
  induction l as [|x l IH]; [reflexivity|].
  cbn [map filter]. destruct (p (f x)); cbn [map]; rewrite IH; reflexivity.
Qed.

Lemma is_day_ordinal (now : timestamp) (y m d n : Z) :
  is_day y m d (row_of_ordinal now n) = true <-> _ord2ymd n = (y, m, d).
Proof.
  unfold is_day. rewrite <- (row_of_ordinal_ymd now n), !andb_true_iff, !Z.eqb_eq.
  split; [intros [[-> ->] ->]; reflexivity | intros H; injection H; auto].
Qed.

(** C7.  For years that [datetime] accepts, [build_dim_date] returns a
    table in which every calendar day from January 1st of [start_year]
    through December 31st of [end_year] has exactly one row, whose
    [date_key] is year*10000 + month*100 + day; every row is such a day;
    and the number of rows is the number of days of those years, 365 per
    year and 366 per leap year.  The builder reads no table: its only
    inputs are the two years and the clock. *)
Theorem build_dim_date_one_row_per_day (now : timestamp) (start_year end_year : Z) :
  1 <= start_year <= 9999 -> 1 <= end_year <= 9999 ->
  exists rows,
    DimTables.build_dim_date now start_year end_year = Some rows
    /\ (forall y m d, start_year <= y <= end_year -> valid_date y m d ->
        exists r, filter (is_day y m d) rows = [r]
                  /\ GoldRows.DimDate.date_key r = y * 10000 + m * 100 + d)
    /\ (forall r, In r rows ->
        start_year <= GoldRows.DimDate.year r <= end_year
        /\ valid_date (GoldRows.DimDate.year r) (GoldRows.DimDate.month r)
             (GoldRows.DimDate.day_of_month r)
        /\ GoldRows.DimDate.date_key r
           = GoldRows.DimDate.year r * 10000 + GoldRows.DimDate.month r * 100
             + GoldRows.DimDate.day_of_month r)
    /\ Z.of_nat (List.length rows) = days_in_years start_year end_year.
Proof.
  intros Hsy Hey. eexists. split; [apply build_dim_date_rows; assumption|].
  set (o1 := _days_before_year start_year + 1).
  set (N := Z.to_nat (_days_before_year (end_year + 1) - _days_before_year start_year)).
  pose proof (days_before_year_mono 1 start_year ltac:(lia)) as H0.
  change (_days_before_year 1) with 0 in H0.
  split; [|split].
  - intros y m d Hy Hv.
    set (n := _ymd2ord y m d).
    pose proof (ymd2ord_bounds y m d Hv) as Hb. fold n in Hb.
    pose proof (days_before_year_mono start_year y ltac:(lia)) as H1.
    pose proof (days_before_year_mono (y + 1) (end_year + 1) ltac:(lia)) as H2.
    assert (Hround : _ord2ymd n = (y, m, d)) by (apply ord2ymd_ymd2ord; [lia | exact Hv]).
    exists (row_of_ordinal now n). split.
    + assert (Hf : filter (fun k => is_day y m d (row_of_ordinal now k)) (zrange o1 N) = [n]).
      { apply filter_unique.
        - apply zrange_NoDup.
        - apply zrange_In. unfold o1, N. lia.
        - intros k Hk. apply zrange_In_inv in Hk. rewrite is_day_ordinal. split.
          + intros Hk'. destruct (ord2ymd_valid k ltac:(unfold o1 in Hk; lia)) as (_ & _ & E).
            rewrite Hk' in E. cbn [fst snd] in E. symmetry. exact E.
          + intros ->. exact Hround. }
      rewrite filter_map_comm, Hf. reflexivity.
    + pose proof (row_of_ordinal_ymd now n) as E. rewrite Hround in E.
      rewrite row_of_ordinal_date_key.
      set (r := row_of_ordinal now n) in *. clearbody r.
      injection E as -> -> ->. reflexivity.
  - intros r Hr. apply in_map_iff in Hr. destruct Hr as (k & <- & Hk).
    apply zrange_In_inv in Hk.
    assert (Hk1 : 1 <= k) by (unfold o1 in Hk; lia).
    destruct (ord2ymd_valid k Hk1) as (_ & Hv & _).
    pose proof (ord2ymd_year_range k start_year end_year Hk1
                  ltac:(unfold o1, N in Hk; lia)) as Hyr.
    pose proof (row_of_ordinal_ymd now k) as E.
    rewrite row_of_ordinal_date_key.
    set (r := row_of_ordinal now k) in *. clearbody r.
    destruct (_ord2ymd k) as [[y m] d]. cbn [fst snd] in *.
    injection E as -> -> ->.
    split; [exact Hyr|]. split; [exact Hv | reflexivity].
  - rewrite length_map, zrange_length. unfold N.
    symmetry. apply days_in_years_ordinals.
Qed.

Lemma build_dim_date_one_row_per_day_witness :
  1 <= 2024 <= 9999 /\ 1 <= 2024 <= 9999
  /\ exists rows,
    DimTables.build_dim_date 0 2024 2024 = Some rows
    /\ (forall y m d, 2024 <= y <= 2024 -> valid_date y m d ->
        exists r, filter (is_day y m d) rows = [r]
                  /\ GoldRows.DimDate.date_key r = y * 10000 + m * 100 + d)
    /\ (forall r, In r rows ->
        2024 <= GoldRows.DimDate.year r <= 2024
        /\ valid_date (GoldRows.DimDate.year r) (GoldRows.DimDate.month r)
             (GoldRows.DimDate.day_of_month r)
        /\ GoldRows.DimDate.date_key r
           = GoldRows.DimDate.year r * 10000 + GoldRows.DimDate.month r * 100
             + GoldRows.DimDate.day_of_month r)
    /\ Z.of_nat (List.length rows) = days_in_years 2024 2024.
Proof.
  split; [lia|]. split; [lia|].
  apply (build_dim_date_one_row_per_day 0 2024 2024); lia.
Defined.

(** Scenario 5: a one-year range has 365 rows, 366 in a leap year. *)
Example dim_date_row_counts :
  option_map (@List.length _) (DimTables.build_dim_date 0 2023 2023) = Some 365%nat
  /\ option_map (@List.length _) (DimTables.build_dim_date 0 2024 2024) = Some 366%nat
  /\ days_in_years 2023 2023 = 365 /\ days_in_years 2024 2024 = 366.
Proof. vm_compute. repeat split; reflexivity. Qed.

Example dim_date_first_and_last_key :
  option_map (fun rows => (map GoldRows.DimDate.date_key (firstn 1 rows),
                           map GoldRows.DimDate.date_key (skipn 365 rows)))
    (DimTables.build_dim_date 0 2024 2024)
  = Some ([20240101], [20241231]).
Proof. vm_compute. reflexivity. Qed.

End CalendarFacts.

(* ================================================================== *)
(** * Properties of the Gold builders *)

Module GoldFacts.
Import Spark Relational GoldSpec SparkFacts.
Local Open Scope list_scope.

(** ** Joins, lookups and numbering keep to their inputs *)

Lemma row_number_In {A : Type} (l : list A) (p : A * Z) :
  In p (row_number l) -> In (fst p) l.
Proof.
  intros H. rewrite <- (row_number_fst l). apply in_map. exact H.
Qed.

Lemma generate_surrogate_keys_In {A : Type} (c : option (A -> option string))
    (l : list A) (p : A * Z) :
  In p (FactSales.generate_surrogate_keys c l) -> In (fst p) l.
Proof.
  unfold FactSales.generate_surrogate_keys. destruct c as [c|]; intros H.
  - apply row_number_In in H. apply orderBy_In in H. exact H.
  - apply row_number_In. exact H.
Qed.


Lemma join_inner_In {A B : Type} (kl : A -> option string) (kr : B -> option string)
    (l : list A) (r : list B) (a : A) (b : B) :
  In (a, b) (join_inner kl kr l r)
  <-> In a l /\ In b r /\ key_match (kl a) (kr b) = true.
Proof.
  unfold join_inner. rewrite in_flat_map. split.
  - intros (a' & Ha & Hb). apply in_map_iff in Hb.
    destruct Hb as (b' & E & Hb). injection E as -> ->.
    apply filter_In in Hb. tauto.
  - intros (Ha & Hb & Hk). exists a. split; [exact Ha|].
    apply in_map. apply filter_In. tauto.
Qed.



(** Every row of [fact_base] is an order item joined to an order, a
    customer lookup row and a product lookup row on equal, non-NULL keys. *)
Lemma fact_base_In (order_items : list SilverRows.OrderItems.row)
    (orders : list SilverRows.Orders.row)
    (dc : list (option string * Z))
    (dp : list (option string * option double * Z)) (j : FactSales.joined) :
  In j (FactSales.fact_base order_items orders dc dp) ->
  In (FactSales.j_item j) order_items
  /\ In (FactSales.j_order j) orders
  /\ In (FactSales.j_customer j) dc
  /\ In (FactSales.j_product j) dp
  /\ key_match (SilverRows.OrderItems.order_id (FactSales.j_item j))
       (SilverRows.Orders.order_id (FactSales.j_order j)) = true
  /\ key_match (SilverRows.Orders.customer_id (FactSales.j_order j))
       (fst (FactSales.j_customer j)) = true
  /\ key_match (SilverRows.OrderItems.product_id (FactSales.j_item j))
       (fst (fst (FactSales.j_product j))) = true.
Proof.
  destruct j as [[[item order] c] p]. unfold FactSales.fact_base.
  intros H. apply join_inner_In in H. destruct H as (H & Hp & Kp).
  apply join_inner_In in H. destruct H as (H & Hc & Kc).
  apply join_inner_In in H. destruct H as (Hi & Ho & Ko).
  unfold FactSales.j_item, FactSales.j_order, FactSales.j_customer,
    FactSales.j_product. cbn [fst snd] in *. tauto.
Qed.



(** On the example tables, the items of an unknown customer, of a missing
    order and of an unknown product are left out. *)
Example fact_sales_drops_unmatched_items :
  map GoldRows.FactSales.order_item_id
    (FactSales.build_fact_sales 0 SilverExamples.orders SilverExamples.order_items
       SilverExamples.products SilverExamples.customers)
  = [Some "ITEM-002"; Some "ITEM-003"].
Proof. vm_compute. reflexivity. Qed.

(** ** Allocation of order-level amounts *)

(** When the order's subtotal is 0 the two allocated amounts are NULL,
    whatever the other columns hold. *)
Lemma allocation_null_on_zero_subtotal (now : timestamp) (jk : FactSales.joined * Z)
    (q : Q) :
  SilverRows.Orders.subtotal (FactSales.j_order (fst jk)) = Some q -> (q == 0)%Q ->
  GoldRows.FactSales.allocated_tax (FactSales.fact_row now jk) = None
  /\ GoldRows.FactSales.allocated_shipping (FactSales.fact_row now jk) = None.
Proof.
  intros Hs Hq. destruct jk as [j k]. cbn [fst] in Hs.
  unfold FactSales.fact_row.
  cbn [GoldRows.FactSales.allocated_tax GoldRows.FactSales.allocated_shipping].
  rewrite Hs. apply Qeq_bool_iff in Hq. unfold dround2, ddiv, dmul, lift1, lift2.
  rewrite Hq.
  destruct (SilverRows.Orders.tax_amount (FactSales.j_order j)),
    (SilverRows.Orders.shipping_amount (FactSales.j_order j)),
    (SilverRows.OrderItems.line_total (FactSales.j_item j)); split; reflexivity.
Qed.


(** ** Rebuilding a table *)



End GoldFacts.

(* ================================================================== *)
(** * List facts shared by the proofs below *)

Module ListFacts.
Import Spark Relational.
Local Open Scope list_scope.

Lemma filter_nil_iff {A : Type} (f : A -> bool) (l : list A) :
  filter f l = [] <-> forall x, In x l -> f x = false.
Proof.
  induction l as [|a l IH]; simpl.
  - split; [intros _ x [] | reflexivity].
  - destruct (f a) eqn:E; split.
    + discriminate.
    + intros H. specialize (H a (or_introl eq_refl)). congruence.
    + intros H x [<-|Hx]; [assumption | apply IH; assumption].
    + intros H. apply IH. intros x Hx. apply H. right. assumption.
Qed.

Lemma filter_all {A : Type} (f : A -> bool) (l : list A) :
  (forall x, In x l -> f x = true) -> filter f l = l.
Proof.
  induction l as [|a l IH]; simpl; intros H; [reflexivity|].
  rewrite (H a (or_introl eq_refl)), IH; [reflexivity|].
  intros x Hx. apply H. right. assumption.
Qed.






Lemma nodup_length_le {A : Type} (dec : forall x y : A, {x = y} + {x <> y}) l :
  (List.length (nodup dec l) <= List.length l)%nat.
Proof.
  induction l as [|a l IH]; simpl; [lia|].
  destruct (in_dec dec a l); simpl; lia.
Qed.

Lemma nodup_length_eq {A : Type} (dec : forall x y : A, {x = y} + {x <> y}) l :
  List.length (nodup dec l) = List.length l <-> NoDup l.
Proof.
  split.
  - induction l as [|a l IH]; simpl; intros H; [constructor|].
    destruct (in_dec dec a l) as [Hin|Hnin].
    + pose proof (nodup_length_le dec l). lia.
    + simpl in H. constructor; [assumption | apply IH; lia].
  - intros H. rewrite (nodup_fixed_point dec H). reflexivity.
Qed.

(** ** Join conditions *)

Lemma key_match_eq (a b : option string) :
  key_match a b = true <-> exists s, a = Some s /\ b = Some s.
Proof.
  unfold key_match. destruct a as [x|], b as [y|]; simpl; split;
    try discriminate; try (intros (s & H1 & H2); discriminate).
  - destruct (String.eqb x y) eqn:E; [|discriminate].
    apply String.eqb_eq in E. subst y. intros _. exists x. auto.
  - intros (s & [= ->] & [= ->]). rewrite String.eqb_refl. reflexivity.
Qed.

Lemma key_match_group (k : option string) (s : string) :
  key_match (Some s) k = group_eqb k (Some s).
Proof.
  unfold key_match. destruct k as [y|]; simpl; [|reflexivity].
  rewrite String.eqb_sym. destruct (String.eqb y s); reflexivity.
Qed.

(** A key finds one row at most in a table whose keys are distinct. *)
Lemma filter_key_match_unique {B : Type} (kr : B -> option string) (r : list B)
    (k : option string) :
  NoDup (map kr r) ->
  (List.length (filter (fun b => key_match k (kr b)) r) <= 1)%nat.
Proof.
  induction r as [|x r IH]; simpl; intros Hnd; [lia|].
  inversion Hnd as [|? ? Hx Hr]; subst.
  destruct (key_match k (kr x)) eqn:E; [|apply IH; assumption].
  assert (Hnil : filter (fun b => key_match k (kr b)) r = []).
  { apply filter_nil_iff. intros y Hy.
    destruct (key_match k (kr y)) eqn:E'; [|reflexivity].
    exfalso. apply Hx.
    apply key_match_eq in E. destruct E as (s & -> & Es).
    apply key_match_eq in E'. destruct E' as (s' & [= <-] & Es').
    rewrite Es, <- Es'. apply in_map. assumption. }
  rewrite Hnil. simpl. lia.
Qed.

(** ** [distinct_by] *)

Section Distinct.
Context {A : Type} (eqb : A -> A -> bool).

Lemma distinct_by_subset (l : list A) (x : A) :
  In x (distinct_by eqb l) -> In x l.
Proof.
  induction l as [|y l IH]; simpl; [auto|].
  intros [->|H]; [left; reflexivity|].
  apply filter_In in H. right. apply IH. apply H.
Qed.

Lemma distinct_by_unique_keys {K : Type} (key : A -> K) (l : list A) :
  (forall x y, eqb x y = true -> key x = key y) ->
  NoDup (map key l) -> distinct_by eqb l = l.
Proof.
  intros Hkey. induction l as [|a l IH]; simpl; intros Hnd; [reflexivity|].
  inversion Hnd as [|? ? Ha Hl]; subst.
  rewrite (IH Hl). f_equal. apply filter_all. intros y Hy.
  destruct (eqb a y) eqn:E; [|reflexivity].
  exfalso. apply Ha. rewrite (Hkey a y E). apply in_map. assumption.
Qed.

Hypothesis eqb_eq : forall x y, eqb x y = true <-> x = y.

Lemma distinct_by_NoDup (l : list A) : NoDup (distinct_by eqb l).
Proof.
  induction l as [|a l IH]; simpl; constructor.
  - intros Hin. apply filter_In in Hin. destruct Hin as [_ Hn].
    rewrite (proj2 (eqb_eq a a) eq_refl) in Hn. discriminate.
  - apply NoDup_filter. assumption.
Qed.

Lemma distinct_by_In_iff (l : list A) (x : A) :
  In x (distinct_by eqb l) <-> In x l.
Proof.
  split; [apply distinct_by_subset|].
  induction l as [|a l IH]; simpl; [auto|].
  intros [->|H]; [left; reflexivity|].
  destruct (eqb a x) eqn:E.
  - left. apply eqb_eq. assumption.
  - right. apply filter_In. split; [apply IH; assumption|].
    rewrite E. reflexivity.
Qed.

End Distinct.

(** ** Joins against a table with distinct keys *)

Section Joins.
Context {A B : Type} (kl : A -> option string) (kr : B -> option string).

Lemma join_left_fst (l : list A) (r : list B) :
  (forall a, In a l ->
     (List.length (filter (fun b => key_match (kl a) (kr b)) r) <= 1)%nat) ->
  map fst (join_left kl kr l r) = l.
Proof.
  induction l as [|a l IH]; simpl; intros H; [reflexivity|].
  rewrite map_app, IH by (intros x Hx; apply H; right; assumption).
  pose proof (H a (or_introl eq_refl)) as Ha.
  destruct (filter (fun b => key_match (kl a) (kr b)) r) as [|b [|b' ms]];
    simpl in *; try reflexivity. lia.
Qed.

Lemma join_left_In (l : list A) (r : list B) (a : A) (m : option B) :
  In (a, m) (join_left kl kr l r) ->
  In a l
  /\ match m with
     | Some b => In b r /\ key_match (kl a) (kr b) = true
     | None => filter (fun b => key_match (kl a) (kr b)) r = []
     end.
Proof.
  unfold join_left. rewrite in_flat_map. intros (a' & Ha & Hin).
  destruct (filter (fun b => key_match (kl a') (kr b)) r) as [|b ms] eqn:E.
  - destruct Hin as [[= <- <-]|[]]. split; assumption.
  - apply in_map_iff in Hin. destruct Hin as (b' & [= <- <-] & Hb').
    split; [assumption|]. rewrite <- E in Hb'. apply filter_In in Hb'. exact Hb'.
Qed.


End Joins.

End ListFacts.

(* ================================================================== *)
(** * Properties of the remaining checks and of the suites *)

Module ChecksFacts.
Import Spark Validators ValidatorChecks ChecksSpec ListFacts.
Local Open Scope list_scope.

Lemma total_count_cache_ok self :
  cache_ok self ->
  fst (validator_total_count self) = count (rows (df self))
  /\ results (snd (validator_total_count self)) = results self
  /\ df (snd (validator_total_count self)) = df self
  /\ cache_ok (snd (validator_total_count self)).
Proof.
  unfold cache_ok, validator_total_count.
  intros [H|H]; rewrite H; simpl; repeat split; auto.
Qed.

(** [check_unique] on a validator whose named columns exist records one
    result; its [failed_count] is the number of rows minus the number of
    distinct rows over the named columns, never negative, and the check
    passes exactly when no two rows agree on all the named columns (two
    NULLs agreeing). *)
Theorem check_unique_passes_iff_no_duplicate
    (fmt : Formatting) (self : DataQualityValidator) (cols : list string)
    (sev : CheckSeverity) :
  cache_ok self ->
  cols <> [] ->
  has_columns (df self) cols = true ->
  exists result self',
    check_unique fmt self cols sev = Some (result, self')
    /\ results self' = results self ++ [result]
    /\ severity result = sev
    /\ total_count result = count (rows (df self))
    /\ failed_count result
       = count (rows (df self))
         - count (distinct_rows (select_cols (df self) cols))
    /\ 0 <= failed_count result
    /\ (passed result = true <-> NoDup (select_cols (df self) cols)).
Proof.
  intros Hc _ Hcols. unfold check_unique. rewrite Hcols. simpl.
  destruct (total_count_cache_ok self Hc) as (Ht & Hr & _ & _).
  destruct (validator_total_count self) as [total self1]. simpl in Ht, Hr.
  subst total.
  eexists. eexists. split; [reflexivity|]. simpl. rewrite Hr.
  assert (Hlen : List.length (select_cols (df self) cols)
                 = List.length (rows (df self))).
  { unfold select_cols. apply length_map. }
  pose proof (nodup_length_le tuple_eq_dec (select_cols (df self) cols)) as Hle.
  unfold distinct_rows, count in *.
  repeat split; try reflexivity.
  - lia.
  - intros H. apply Z.eqb_eq in H.
    apply (nodup_length_eq tuple_eq_dec). lia.
  - intros H. apply (nodup_length_eq tuple_eq_dec) in H.
    apply Z.eqb_eq. lia.
Qed.

Lemma check_unique_passes_iff_no_duplicate_witness :
  exists result self',
    check_unique plain_formatting (init three_customers "customers")
      ["email"] WARNING = Some (result, self')
    /\ results self' = results (init three_customers "customers") ++ [result]
    /\ severity result = WARNING
    /\ total_count result = count (rows (df (init three_customers "customers")))
    /\ failed_count result
       = count (rows (df (init three_customers "customers")))
         - count (distinct_rows
                    (select_cols (df (init three_customers "customers")) ["email"]))
    /\ 0 <= failed_count result
    /\ (passed result = true <->
        NoDup (select_cols (df (init three_customers "customers")) ["email"])).
Proof.
  apply (check_unique_passes_iff_no_duplicate plain_formatting
           (init three_customers "customers") ["email"] WARNING).
  - left. reflexivity.
  - discriminate.
  - reflexivity.
Defined.

Lemma isin_flagged (values : list cell) (x : cell) :
  ~ In None values ->
  is_true (sql_not (isin x values)) = unlisted values x.
Proof.
  intros Hnn. unfold isin, unlisted. destruct x as [v|]; [|reflexivity].
  destruct (in_dec cell_eq_dec (Some v) values) as [Hin|Hnin].
  - assert (E : existsb (fun w => is_true (sql_eq value_eqb (Some v) w)) values = true).
    { apply existsb_exists. exists (Some v). split; [assumption|]. simpl.
      replace (value_eqb v v) with true; [reflexivity|].
      symmetry. destruct v; simpl;
        [apply String.eqb_refl | apply Z.eqb_refl | apply Bool.eqb_reflx]. }
    rewrite E. reflexivity.
  - assert (E : existsb (fun w => is_true (sql_eq value_eqb (Some v) w)) values = false).
    { destruct (existsb (fun w => is_true (sql_eq value_eqb (Some v) w)) values)
        eqn:E; [|reflexivity].
      apply existsb_exists in E. destruct E as (w & Hw & Heq).
      destruct w as [w|]; [|discriminate]. simpl in Heq.
      destruct (value_eqb v w) eqn:Ev; [|discriminate].
      exfalso. apply Hnin.
      replace v with w; [assumption|].
      destruct v, w; simpl in Ev; try discriminate.
      - apply String.eqb_eq in Ev. congruence.
      - apply Z.eqb_eq in Ev. congruence.
      - apply Bool.eqb_prop in Ev. congruence. }
    rewrite E.
    assert (E2 : existsb isNull values = false).
    { destruct (existsb isNull values) eqn:E2; [|reflexivity].
      apply existsb_exists in E2. destruct E2 as (w & Hw & Hnull).
      destruct w; [discriminate|]. contradiction. }
    rewrite E2. reflexivity.
Qed.

Lemma isin_null_listed (values : list cell) (x : cell) :
  In None values -> is_true (sql_not (isin x values)) = false.
Proof.
  intros Hin. unfold isin. destruct x as [v|]; [|reflexivity].
  destruct (existsb (fun w => is_true (sql_eq value_eqb (Some v) w)) values);
    [reflexivity|].
  assert (E : existsb isNull values = true).
  { apply existsb_exists. exists None. split; [assumption | reflexivity]. }
  rewrite E. reflexivity.
Qed.

(** [check_values_in_set] on an existing column records one result.  A
    row is counted as invalid only when its value is present and not
    listed: a NULL value is never counted.  When the list of valid values
    itself holds a NULL, no row is counted and the check passes whatever
    the column holds. *)
Theorem check_values_in_set_never_counts_null
    (fmt : Formatting) (self : DataQualityValidator) (column : string)
    (valid_values : list cell) (sev : CheckSeverity) :
  has_column (df self) column = true ->
  exists result self',
    check_values_in_set fmt self column valid_values sev = Some (result, self')
    /\ results self' = results self ++ [result]
    /\ (In None valid_values ->
        failed_count result = 0 /\ passed result = true)
    /\ (~ In None valid_values ->
        failed_count result
        = count (filter (fun r => unlisted valid_values (r column)) (rows (df self)))
        /\ (passed result = true <->
            forall r v, In r (rows (df self)) -> r column = Some v ->
                        In (Some v) valid_values)).
Proof.
  intros Hc. unfold check_values_in_set. rewrite Hc. simpl.
  destruct (validator_total_count self) as [total self1] eqn:Ht.
  assert (Hr : results self1 = results self).
  { replace self1 with (snd (validator_total_count self)) by (rewrite Ht; reflexivity).
    unfold validator_total_count. destruct (_total_count self); reflexivity. }
  eexists. eexists. split; [reflexivity|]. simpl. rewrite Hr.
  split; [reflexivity|]. split.
  - intros Hin.
    assert (E : filter (fun r => is_true (sql_not (isin (r column) valid_values)))
                  (rows (df self)) = []).
    { apply filter_nil_iff. intros r _. apply isin_null_listed. assumption. }
    rewrite E. split; reflexivity.
  - intros Hnn.
    assert (E : filter (fun r => is_true (sql_not (isin (r column) valid_values)))
                  (rows (df self))
                = filter (fun r => unlisted valid_values (r column)) (rows (df self))).
    { apply filter_ext. intros r. apply isin_flagged. assumption. }
    rewrite E. split; [reflexivity|].
    rewrite ValidatorsFacts.count_nil_iff, filter_nil_iff. split.
    + intros H r v Hin Hv. specialize (H r Hin).
      unfold unlisted in H. rewrite Hv in H.
      destruct (in_dec cell_eq_dec (Some v) valid_values);
        [assumption | discriminate].
    + intros H r Hin. unfold unlisted.
      destruct (r column) as [v|] eqn:Hv; [|reflexivity].
      destruct (in_dec cell_eq_dec (Some v) valid_values) as [|Hn];
        [reflexivity|].
      exfalso. apply Hn. apply (H r v Hin Hv).
Qed.

Lemma check_values_in_set_never_counts_null_witness :
  exists result self',
    check_values_in_set plain_formatting (init three_customers "customers")
      "country" [Some (VStr "DE"); Some (VStr "IT")] ERROR = Some (result, self')
    /\ results self' = results (init three_customers "customers") ++ [result]
    /\ (In None [Some (VStr "DE"); Some (VStr "IT")] ->
        failed_count result = 0 /\ passed result = true)
    /\ (~ In None [Some (VStr "DE"); Some (VStr "IT")] ->
        failed_count result
        = count (filter (fun r => unlisted [Some (VStr "DE"); Some (VStr "IT")]
                                    (r "country"))
                   (rows (df (init three_customers "customers"))))
        /\ (passed result = true <->
            forall r v, In r (rows (df (init three_customers "customers"))) ->
                        r "country" = Some v ->
                        In (Some v) [Some (VStr "DE"); Some (VStr "IT")])).
Proof.
  apply (check_values_in_set_never_counts_null plain_formatting
           (init three_customers "customers") "country"
           [Some (VStr "DE"); Some (VStr "IT")] ERROR).
  reflexivity.
Defined.

Lemma within_bool (lo hi : option Q) (x : Q) :
  within lo hi x <->
  (match lo with Some l => Qle_bool l x | None => true end)
  && (match hi with Some h => Qle_bool x h | None => true end) = true.
Proof.
  unfold within. rewrite andb_true_iff. split.
  - intros [H1 H2]. split.
    + destruct lo as [l|]; [|reflexivity]. apply Qle_bool_iff, H1. reflexivity.
    + destruct hi as [h|]; [|reflexivity]. apply Qle_bool_iff, H2. reflexivity.
  - intros [H1 H2]. split.
    + intros l ->. apply Qle_bool_iff. assumption.
    + intros h ->. apply Qle_bool_iff. assumption.
Qed.

Lemma range_condition_flags (to_double : value -> option Q) (column : string)
    (lo hi : option Q) (r : Row) :
  is_true (sql_not (range_condition to_double column lo hi r)) = false
  <-> (forall x, number to_double (r column) = Some x -> within lo hi x).
Proof.
  unfold range_condition.
  destruct (number to_double (r column)) as [x|].
  - assert (E : is_true (sql_not
                   (match hi with
                    | Some h =>
                        sql_and
                          (match lo with
                           | Some l => sql_and (Some true) (dge (Some x) (Some l))
                           | None => Some true
                           end) (dle (Some x) (Some h))
                    | None =>
                        match lo with
                        | Some l => sql_and (Some true) (dge (Some x) (Some l))
                        | None => Some true
                        end
                    end))
                = negb ((match lo with Some l => Qle_bool l x | None => true end)
                        && (match hi with Some h => Qle_bool x h | None => true end))).
    { destruct lo as [l|], hi as [h|]; simpl;
        try destruct (Qle_bool l x); try destruct (Qle_bool x h); reflexivity. }
    rewrite E, negb_false_iff. split.
    + intros H y [= <-]. apply within_bool. assumption.
    + intros H. apply within_bool. apply H. reflexivity.
  - split; [discriminate|]. intros _.
    destruct lo, hi; reflexivity.
Qed.

(** [check_range] records one result whenever the column exists, and also
    when it does not if neither bound is given.  The check passes exactly
    when every value of the column that is a number lies within the given
    bounds: NULL values and values that are not numbers are not counted,
    and without bounds the check passes on every frame. *)
Theorem check_range_passes_iff_numbers_within_bounds
    (fmt : Formatting) (to_double : value -> option Q)
    (self : DataQualityValidator) (column : string)
    (min_value max_value : option Q) (sev : CheckSeverity) :
  (min_value = None /\ max_value = None) \/ has_column (df self) column = true ->
  exists result self',
    check_range fmt to_double self column min_value max_value sev
      = Some (result, self')
    /\ results self' = results self ++ [result]
    /\ (passed result = true <->
        forall r x, In r (rows (df self)) ->
                    number to_double (r column) = Some x ->
                    within min_value max_value x).
Proof.
  intros Hc. unfold check_range.
  assert (Hm : (match min_value, max_value with
                | None, None => false | _, _ => true end)
               && negb (has_column (df self) column) = false).
  { destruct Hc as [[-> ->]|Hc]; [reflexivity|].
    rewrite Hc. apply andb_false_r. }
  rewrite Hm.
  destruct (validator_total_count self) as [total self1] eqn:Ht.
  assert (Hr : results self1 = results self).
  { replace self1 with (snd (validator_total_count self)) by (rewrite Ht; reflexivity).
    unfold validator_total_count. destruct (_total_count self); reflexivity. }
  eexists. eexists. split; [reflexivity|]. simpl. rewrite Hr.
  split; [reflexivity|].
  rewrite ValidatorsFacts.count_nil_iff, filter_nil_iff. split.
  - intros H r x Hin Hx.
    apply (proj1 (range_condition_flags to_double column min_value max_value r)
             (H r Hin) x Hx).
  - intros H r Hin. apply range_condition_flags. intros x Hx.
    apply (H r x Hin Hx).
Qed.

Lemma check_range_passes_iff_numbers_within_bounds_witness :
  exists result self',
    check_range plain_formatting int_to_double (init three_customers "customers")
      "age" (Some 18%Q) None ERROR = Some (result, self')
    /\ results self' = results (init three_customers "customers") ++ [result]
    /\ (passed result = true <->
        forall r x, In r (rows (df (init three_customers "customers"))) ->
                    number int_to_double (r "age") = Some x ->
                    within (Some 18%Q) None x).
Proof.
  apply (check_range_passes_iff_numbers_within_bounds plain_formatting
           int_to_double (init three_customers "customers") "age"
           (Some 18%Q) None ERROR).
  right. reflexivity.
Defined.

(** ** The checks as steps *)

Lemma records_intro self r :
  cache_ok self ->
  records self r (record_result (snd (validator_total_count self)) r).
Proof.
  intros Hc. destruct (total_count_cache_ok self Hc) as (_ & Hr & Hd & Hc').
  unfold records, cache_ok in *. simpl. rewrite Hr, Hd.
  split; [reflexivity|]. split; [reflexivity|]. rewrite Hd in Hc'. exact Hc'.
Qed.

Lemma check_not_null_loop_cache cols : forall sev acc self,
  cache_ok self -> cache_ok (snd (check_not_null_loop cols sev acc self)).
Proof.
  induction cols as [|c cols IH]; intros sev acc self Hc; simpl; [assumption|].
  destruct (has_column (df self) c); simpl.
  - destruct (validator_total_count self) as [total self1] eqn:Ht.
    apply IH.
    replace self1 with (snd (validator_total_count self)) by (rewrite Ht; reflexivity).
    apply (records_intro self _ Hc).
  - apply IH. assumption.
Qed.

Lemma check_not_null_step self cols sev :
  cache_ok self ->
  df (snd (check_not_null self cols sev)) = df self
  /\ results (snd (check_not_null self cols sev))
     = results self
       ++ map (ValidatorsSpec.column_result self sev)
            (filter (has_column (df self)) cols)
  /\ cache_ok (snd (check_not_null self cols sev)).
Proof.
  intros Hc. split; [|split].
  - apply (ValidatorsFacts.check_not_null_loop_spec cols sev [] self).
  - apply ValidatorsFacts.check_not_null_recorded.
  - apply check_not_null_loop_cache. assumption.
Qed.

Lemma check_unique_step fmt self cols sev :
  cache_ok self ->
  has_columns (df self) cols = true ->
  exists r self',
    check_unique fmt self cols sev = Some (r, self')
    /\ records self r self'
    /\ check_name r = ("unique_" ++ String.concat "+" cols)%string
    /\ severity r = sev
    /\ passed r = (failed_count r =? 0)
    /\ total_count r = count (rows (df self))
    /\ failed_count r
       = count (rows (df self))
         - count (distinct_rows (select_cols (df self) cols)).
Proof.
  intros Hc Hcols. unfold check_unique. rewrite Hcols. simpl.
  pose proof (records_intro self) as Hrec.
  destruct (total_count_cache_ok self Hc) as (Ht & _).
  destruct (validator_total_count self) as [total self1]. simpl in *.
  subst total. eexists. eexists. split; [reflexivity|].
  split; [apply Hrec; assumption|]. repeat split; reflexivity.
Qed.

Lemma check_values_in_set_step fmt self column valid_values sev :
  cache_ok self ->
  has_column (df self) column = true ->
  exists r self',
    check_values_in_set fmt self column valid_values sev = Some (r, self')
    /\ records self r self'
    /\ check_name r = ("valid_values_" ++ column)%string
    /\ severity r = sev
    /\ passed r = (failed_count r =? 0)
    /\ failed_count r
       = count (filter (fun r => is_true (sql_not (isin (r column) valid_values)))
                  (rows (df self))).
Proof.
  intros Hc Hcol. unfold check_values_in_set. rewrite Hcol. simpl.
  pose proof (records_intro self) as Hrec.
  destruct (validator_total_count self) as [total self1]. simpl in *.
  eexists. eexists. split; [reflexivity|].
  split; [apply Hrec; assumption|]. repeat split; reflexivity.
Qed.

Lemma check_range_step fmt to_double self column lo hi sev :
  cache_ok self ->
  (lo = None /\ hi = None) \/ has_column (df self) column = true ->
  exists r self',
    check_range fmt to_double self column lo hi sev = Some (r, self')
    /\ records self r self'
    /\ check_name r = ("range_" ++ column)%string
    /\ severity r = sev
    /\ passed r = (failed_count r =? 0)
    /\ failed_count r
       = count (filter (fun r => is_true (sql_not
                                   (range_condition to_double column lo hi r)))
                  (rows (df self))).
Proof.
  intros Hc Hcol. unfold check_range.
  assert (Hm : (match lo, hi with None, None => false | _, _ => true end)
               && negb (has_column (df self) column) = false).
  { destruct Hcol as [[-> ->]|Hcol]; [reflexivity|].
    rewrite Hcol. apply andb_false_r. }
  rewrite Hm.
  pose proof (records_intro self) as Hrec.
  destruct (validator_total_count self) as [total self1]. simpl in *.
  eexists. eexists. split; [reflexivity|].
  split; [apply Hrec; assumption|]. repeat split; reflexivity.
Qed.

Lemma check_referential_integrity_step self column reference_df
    reference_column sev :
  cache_ok self ->
  has_column (df self) column = true ->
  has_column reference_df reference_column = true ->
  exists r self',
    check_referential_integrity self column reference_df reference_column sev
      = Some (r, self')
    /\ records self r self'
    /\ check_name r = ("ref_integrity_" ++ column)%string
    /\ severity r = sev
    /\ passed r = (failed_count r =? 0)
    /\ failed_count r
       = count (left_anti (distinct (select_col (df self) column))
                  (distinct (select_col reference_df reference_column))).
Proof.
  intros Hc Hcol Href. unfold check_referential_integrity.
  rewrite Hcol, Href. simpl.
  pose proof (records_intro self) as Hrec.
  destruct (validator_total_count self) as [total self1]. simpl in *.
  eexists. eexists. split; [reflexivity|].
  split; [apply Hrec; assumption|]. repeat split; reflexivity.
Qed.

Lemma check_row_count_step fmt self min_count max_count sev :
  cache_ok self ->
  exists r self',
    check_row_count fmt self min_count max_count sev = (r, self')
    /\ records self r self'
    /\ check_name r = "row_count"%string
    /\ severity r = sev
    /\ total_count r = count (rows (df self))
    /\ passed r
       = (min_count <=? count (rows (df self)))
         && match max_count with
            | Some m => count (rows (df self)) <=? m
            | None => true
            end
    /\ failed_count r = if passed r then 0 else 1.
Proof.
  intros Hc. unfold check_row_count.
  pose proof (records_intro self) as Hrec.
  destruct (total_count_cache_ok self Hc) as (Ht & _).
  destruct (validator_total_count self) as [total self1]. simpl in *.
  subst total. eexists. eexists. split; [reflexivity|].
  split; [apply Hrec; assumption|].
  destruct max_count; simpl; repeat split; try reflexivity.
  rewrite andb_true_r. reflexivity.
Qed.

(** ** The suites *)

Lemma clean_on_empty_step d self r self' :
  clean_on_empty d self -> records self r self' -> passed r = true ->
  clean_on_empty d self'.
Proof.
  intros (Hd & He & Hc & Hall) (Hd' & Hr & Hc') Hp.
  unfold clean_on_empty. rewrite Hd', Hr. repeat split; try assumption.
  apply Forall_app. split; [assumption|]. constructor; [assumption | constructor].
Qed.

Lemma and_then_clean d ov check :
  (exists v, ov = Some v /\ clean_on_empty d v) ->
  (forall s, clean_on_empty d s ->
     exists r s', check s = Some (r, s') /\ records s r s' /\ passed r = true) ->
  exists v', and_then ov check = Some v' /\ clean_on_empty d v'.
Proof.
  intros (v & -> & Hv) Hcheck.
  destruct (Hcheck v Hv) as (r & s' & E & Hrec & Hp).
  exists s'. simpl. rewrite E. split; [reflexivity|].
  apply (clean_on_empty_step d v r s'); assumption.
Qed.

Lemma check_not_null_clean cols name names sev :
  clean_on_empty (empty_frame cols)
    (snd (check_not_null (init (empty_frame cols) name) names sev)).
Proof.
  assert (Hc : cache_ok (init (empty_frame cols) name)) by (left; reflexivity).
  destruct (check_not_null_step (init (empty_frame cols) name) names sev Hc)
    as (Hd & Hr & Hc').
  unfold clean_on_empty. rewrite Hd, Hr. repeat split; try assumption.
  simpl. apply Forall_forall. intros r Hin.
  apply in_map_iff in Hin. destruct Hin as (c & <- & Hcin).
  apply filter_In in Hcin. destruct Hcin as [_ Hcol].
  unfold ValidatorsSpec.column_result. simpl in *. rewrite Hcol. reflexivity.
Qed.

Lemma check_unique_clean fmt d cols sev s :
  has_columns d cols = true -> clean_on_empty d s ->
  exists r s', check_unique fmt s cols sev = Some (r, s')
               /\ records s r s' /\ passed r = true.
Proof.
  intros Hcols (Hd & He & Hc & _). rewrite <- Hd in Hcols, He.
  destruct (check_unique_step fmt s cols sev Hc Hcols)
    as (r & s' & E & Hrec & _ & _ & Hp & _ & Hf).
  exists r, s'. split; [assumption|]. split; [assumption|].
  rewrite Hp, Hf. unfold select_cols. rewrite He. reflexivity.
Qed.

Lemma check_range_clean fmt to_double d column lo hi sev s :
  has_column d column = true -> clean_on_empty d s ->
  exists r s', check_range fmt to_double s column lo hi sev = Some (r, s')
               /\ records s r s' /\ passed r = true.
Proof.
  intros Hcol (Hd & He & Hc & _). rewrite <- Hd in Hcol, He.
  destruct (check_range_step fmt to_double s column lo hi sev Hc (or_intror Hcol))
    as (r & s' & E & Hrec & _ & _ & Hp & Hf).
  exists r, s'. split; [assumption|]. split; [assumption|].
  rewrite Hp, Hf, He. reflexivity.
Qed.

Lemma check_values_in_set_clean fmt d column values sev s :
  has_column d column = true -> clean_on_empty d s ->
  exists r s', check_values_in_set fmt s column values sev = Some (r, s')
               /\ records s r s' /\ passed r = true.
Proof.
  intros Hcol (Hd & He & Hc & _). rewrite <- Hd in Hcol, He.
  destruct (check_values_in_set_step fmt s column values sev Hc Hcol)
    as (r & s' & E & Hrec & _ & _ & Hp & Hf).
  exists r, s'. split; [assumption|]. split; [assumption|].
  rewrite Hp, Hf, He. reflexivity.
Qed.

Lemma check_referential_integrity_clean d column reference_df
    reference_column sev s :
  has_column d column = true ->
  has_column reference_df reference_column = true ->
  clean_on_empty d s ->
  exists r s',
    check_referential_integrity s column reference_df reference_column sev
      = Some (r, s')
    /\ records s r s' /\ passed r = true.
Proof.
  intros Hcol Href (Hd & He & Hc & _). rewrite <- Hd in Hcol, He.
  destruct (check_referential_integrity_step s column reference_df
              reference_column sev Hc Hcol Href)
    as (r & s' & E & Hrec & _ & _ & Hp & Hf).
  exists r, s'. split; [assumption|]. split; [assumption|].
  rewrite Hp, Hf. unfold select_col. rewrite He. reflexivity.
Qed.

Lemma all_passed_of_passed v include_warnings :
  Forall (fun r => passed r = true) (results v) ->
  all_passed v include_warnings = true.
Proof.
  intros H. unfold all_passed.
  rewrite ValidatorsFacts.all_passed_loop_forallb. apply forallb_forall.
  intros r Hin. rewrite Forall_forall in H.
  unfold ValidatorsSpec.blocking. rewrite (H r Hin). reflexivity.
Qed.

Ltac split_columns H :=
  unfold has_columns in H; simpl in H;
  repeat (apply andb_prop in H; let H1 := fresh "Hcol" in destruct H as [H1 H]).

Ltac has_columns_one := unfold has_columns; simpl; apply andb_true_iff; split;
                        [assumption | reflexivity].

(** An extract without rows fails the customers suite, whose last check
    requires one row at least, but passes the products, orders and order
    items suites, which have no such check: on an empty table each of
    these three returns a validator for which [all_passed] is true even
    with warnings included. *)
Theorem empty_table_fails_customers_suite_only
    (fmt : Formatting) (to_double : value -> option Q)
    (ccols pcols ocols icols : list string)
    (customers_df orders_df products_df : DataFrame) :
  has_columns (empty_frame ccols) ["customer_id"; "email"] = true ->
  has_columns (empty_frame pcols)
    ["product_id"; "sku"; "price"; "cost"; "margin_percent"] = true ->
  has_columns (empty_frame ocols)
    ["order_id"; "total_amount"; "subtotal"; "status"; "customer_id"] = true ->
  has_columns (empty_frame icols)
    ["order_item_id"; "quantity"; "unit_price"; "discount_percent";
     "order_id"; "product_id"] = true ->
  has_column customers_df "customer_id" = true ->
  has_column orders_df "order_id" = true ->
  has_column products_df "product_id" = true ->
  (exists v, validate_customers fmt (empty_frame ccols) = Some v
             /\ all_passed v false = false)
  /\ (exists v, validate_products fmt to_double (empty_frame pcols) = Some v
                /\ all_passed v true = true)
  /\ (exists v, validate_orders fmt to_double (empty_frame ocols) customers_df
                = Some v
                /\ all_passed v true = true)
  /\ (exists v, validate_order_items fmt to_double (empty_frame icols)
                  orders_df products_df = Some v
                /\ all_passed v true = true).
Proof.
  intros Hc Hp Ho Hi Hcd Hod Hpd.
  split_columns Hc. split_columns Hp. split_columns Ho. split_columns Hi.
  split; [|split; [|split]].
  - unfold validate_customers.
    destruct (and_then_clean (empty_frame ccols)
                (and_then
                   (Some (snd (check_not_null (init (empty_frame ccols) "customers")
                                 ["customer_id"; "email"; "country"] ERROR)))
                   (fun v => check_unique fmt v ["customer_id"] ERROR))
                (fun v => check_unique fmt v ["email"] WARNING))
      as (v & E & Hv).
    { apply and_then_clean.
      - eexists. split; [reflexivity | apply check_not_null_clean].
      - intros s Hs. apply (check_unique_clean fmt (empty_frame ccols));
          [has_columns_one | assumption]. }
    { intros s Hs. apply (check_unique_clean fmt (empty_frame ccols));
        [has_columns_one | assumption]. }
    rewrite E. destruct Hv as (Hd & He & Hcache & Hall).
    destruct (check_row_count_step fmt v 1 None ERROR Hcache)
      as (r & v' & E' & (_ & Hr & _) & _ & Hsev & _ & Hpass & _).
    exists v'. simpl. rewrite E'. split; [reflexivity|].
    unfold all_passed.
    rewrite ValidatorsFacts.all_passed_loop_forallb, Hr, forallb_app. simpl.
    unfold ValidatorsSpec.blocking at 2.
    rewrite Hpass, Hsev, Hd. simpl. apply andb_false_r.
  - unfold validate_products.
    assert (H : exists v, validate_products fmt to_double (empty_frame pcols) = Some v
                          /\ clean_on_empty (empty_frame pcols) v).
    { unfold validate_products. repeat apply and_then_clean.
      - eexists. split; [reflexivity | apply check_not_null_clean].
      - intros s Hs. apply (check_unique_clean fmt (empty_frame pcols));
          [has_columns_one | assumption].
      - intros s Hs. apply (check_unique_clean fmt (empty_frame pcols));
          [has_columns_one | assumption].
      - intros s Hs. apply (check_range_clean fmt to_double (empty_frame pcols));
          assumption.
      - intros s Hs. apply (check_range_clean fmt to_double (empty_frame pcols));
          assumption.
      - intros s Hs. apply (check_range_clean fmt to_double (empty_frame pcols));
          assumption. }
    destruct H as (v & E & _ & _ & _ & Hall). exists v.
    split; [assumption | apply all_passed_of_passed; assumption].
  - assert (H : exists v, validate_orders fmt to_double (empty_frame ocols)
                            customers_df = Some v
                          /\ clean_on_empty (empty_frame ocols) v).
    { unfold validate_orders. repeat apply and_then_clean.
      - eexists. split; [reflexivity | apply check_not_null_clean].
      - intros s Hs. apply (check_unique_clean fmt (empty_frame ocols));
          [has_columns_one | assumption].
      - intros s Hs. apply (check_range_clean fmt to_double (empty_frame ocols));
          assumption.
      - intros s Hs. apply (check_range_clean fmt to_double (empty_frame ocols));
          assumption.
      - intros s Hs. apply (check_values_in_set_clean fmt (empty_frame ocols));
          assumption.
      - intros s Hs.
        apply (check_referential_integrity_clean (empty_frame ocols));
          assumption. }
    destruct H as (v & E & _ & _ & _ & Hall). exists v.
    split; [assumption | apply all_passed_of_passed; assumption].
  - assert (H : exists v, validate_order_items fmt to_double (empty_frame icols)
                            orders_df products_df = Some v
                          /\ clean_on_empty (empty_frame icols) v).
    { unfold validate_order_items. repeat apply and_then_clean.
      - eexists. split; [reflexivity | apply check_not_null_clean].
      - intros s Hs. apply (check_unique_clean fmt (empty_frame icols));
          [has_columns_one | assumption].
      - intros s Hs. apply (check_range_clean fmt to_double (empty_frame icols));
          assumption.
      - intros s Hs. apply (check_range_clean fmt to_double (empty_frame icols));
          assumption.
      - intros s Hs. apply (check_range_clean fmt to_double (empty_frame icols));
          assumption.
      - intros s Hs.
        apply (check_referential_integrity_clean (empty_frame icols));
          assumption.
      - intros s Hs.
        apply (check_referential_integrity_clean (empty_frame icols));
          assumption. }
    destruct H as (v & E & _ & _ & _ & Hall). exists v.
    split; [assumption | apply all_passed_of_passed; assumption].
Qed.

Lemma empty_table_fails_customers_suite_only_witness :
  (exists v, validate_customers plain_formatting
               (empty_frame ["customer_id"; "email"]) = Some v
             /\ all_passed v false = false)
  /\ (exists v, validate_products plain_formatting int_to_double
                  (empty_frame ["product_id"; "sku"; "price"; "cost";
                                "margin_percent"]) = Some v
                /\ all_passed v true = true)
  /\ (exists v, validate_orders plain_formatting int_to_double
                  (empty_frame ["order_id"; "total_amount"; "subtotal";
                                "status"; "customer_id"]) three_customers
                = Some v
                /\ all_passed v true = true)
  /\ (exists v, validate_order_items plain_formatting int_to_double
                  (empty_frame ["order_item_id"; "quantity"; "unit_price";
                                "discount_percent"; "order_id"; "product_id"])
                  Fixtures.orders_of_cust1 (empty_frame ["product_id"]) = Some v
                /\ all_passed v true = true).
Proof.
  apply (empty_table_fails_customers_suite_only plain_formatting int_to_double
           ["customer_id"; "email"]
           ["product_id"; "sku"; "price"; "cost"; "margin_percent"]
           ["order_id"; "total_amount"; "subtotal"; "status"; "customer_id"]
           ["order_item_id"; "quantity"; "unit_price"; "discount_percent";
            "order_id"; "product_id"]
           three_customers Fixtures.orders_of_cust1 (empty_frame ["product_id"]));
    reflexivity.
Defined.

Lemma column_result_names self sev cols :
  map check_name (map (ValidatorsSpec.column_result self sev) cols)
  = map (fun c => "not_null_" ++ c)%string cols.
Proof.
  rewrite map_map. apply map_ext. intros c.
  unfold ValidatorsSpec.column_result.
  destruct (has_column (df self) c); reflexivity.
Qed.

Lemma check_unique_missing fmt self cols sev :
  has_columns (df self) cols = false -> check_unique fmt self cols sev = None.
Proof. intros H. unfold check_unique. rewrite H. reflexivity. Qed.

(** [validate_customers] raises exactly when the frame lacks the
    [customer_id] or the [email] column, which the uniqueness checks
    select.  Otherwise it returns a validator whose record holds, in
    this order, one null check for each of [customer_id], [email] and
    [country] that the frame has, then the two uniqueness checks and the
    row count: a frame without [country] column gets no result about
    that column. *)
Theorem validate_customers_report (fmt : Formatting) (d : DataFrame) :
  match validate_customers fmt d with
  | None =>
      has_column d "customer_id" = false \/ has_column d "email" = false
  | Some v =>
      has_column d "customer_id" = true /\ has_column d "email" = true
      /\ map check_name (results v)
         = map (fun c => "not_null_" ++ c)%string
             (filter (has_column d) ["customer_id"; "email"; "country"])
           ++ ["unique_customer_id"; "unique_email"; "row_count"]
  end.
Proof.
  unfold validate_customers.
  assert (Hc0 : cache_ok (init d "customers")) by (left; reflexivity).
  destruct (check_not_null_step (init d "customers")
              ["customer_id"; "email"; "country"] ERROR Hc0) as (Hd0 & Hr0 & Hcache0).
  set (v0 := snd (check_not_null (init d "customers")
                    ["customer_id"; "email"; "country"] ERROR)) in *.
  change (df (init d "customers")) with d in *.
  change (results (init d "customers")) with (@nil QualityCheckResult) in Hr0.
  destruct (has_column d "customer_id") eqn:H1.
  - assert (Hcols1 : has_columns (df v0) ["customer_id"] = true).
    { rewrite Hd0. unfold has_columns. simpl. rewrite H1. reflexivity. }
    destruct (check_unique_step fmt v0 ["customer_id"] ERROR Hcache0 Hcols1)
      as (r1 & v1 & E1 & (Hd1 & Hr1 & Hcache1) & Hn1 & _).
    simpl and_then at 2. rewrite E1. simpl option_map.
    destruct (has_column d "email") eqn:H2.
    + assert (Hcols2 : has_columns (df v1) ["email"] = true).
      { rewrite Hd1, Hd0. unfold has_columns. simpl. rewrite H2. reflexivity. }
      destruct (check_unique_step fmt v1 ["email"] WARNING Hcache1 Hcols2)
        as (r2 & v2 & E2 & (Hd2 & Hr2 & Hcache2) & Hn2 & _).
      simpl and_then at 2. rewrite E2. simpl option_map.
      destruct (check_row_count_step fmt v2 1 None ERROR Hcache2)
        as (r3 & v3 & E3 & (Hd3 & Hr3 & Hcache3) & Hn3 & _).
      simpl and_then. rewrite E3. simpl.
      split; [reflexivity|]. split; [reflexivity|].
      rewrite Hr3, Hr2, Hr1, Hr0, !map_app, column_result_names. simpl.
      rewrite Hn1, Hn2, Hn3, H1, H2, <- !app_assoc. reflexivity.
    + assert (Hcols2 : has_columns (df v1) ["email"] = false).
      { rewrite Hd1, Hd0. unfold has_columns. simpl. rewrite H2. reflexivity. }
      simpl and_then at 2.
      rewrite (check_unique_missing fmt v1 ["email"] WARNING Hcols2).
      simpl. right. reflexivity.
  - assert (Hcols1 : has_columns (df v0) ["customer_id"] = false).
    { rewrite Hd0. unfold has_columns. simpl. rewrite H1. reflexivity. }
    simpl and_then at 3.
    rewrite (check_unique_missing fmt v0 ["customer_id"] ERROR Hcols1).
    simpl. left. reflexivity.
Qed.

End ChecksFacts.

(* ================================================================== *)
(** * Surrogate keys and the star schema *)

Module KeysFacts.
Import Spark Relational SortingSpec CalendarSpec StarSpec SparkFacts DedupFacts ListFacts.
Local Open Scope list_scope.

(** ** Ordering and numbering through a projection *)

Section Projection.
Context {A B : Type} (f : A -> B) (leb : B -> B -> bool).

Lemma insert_map (x : A) (l : list A) :
  map f (insert (fun a b => leb (f a) (f b)) x l) = insert leb (f x) (map f l).
Proof.
  induction l as [|y l IH]; simpl; [reflexivity|].
  destruct (leb (f y) (f x)); simpl; [rewrite IH|]; reflexivity.
Qed.

Lemma fold_insert_map (l acc : list A) :
  map f (fold_left (fun acc x => insert (fun a b => leb (f a) (f b)) x acc) l acc)
  = fold_left (fun acc x => insert leb x acc) (map f l) (map f acc).
Proof.
  revert acc. induction l as [|x l IH]; intros acc; simpl; [reflexivity|].
  rewrite IH, insert_map. reflexivity.
Qed.

Lemma orderBy_map (l : list A) :
  map f (orderBy (fun a b => leb (f a) (f b)) l) = orderBy leb (map f l).
Proof. apply (fold_insert_map l []). Qed.

Lemma number_from_map (l : list A) : forall n,
  map (fun p => (f (fst p), snd p)) (number_from n l) = number_from n (map f l).
Proof.
  induction l as [|x l IH]; intros n; simpl; [|rewrite IH]; reflexivity.
Qed.

End Projection.

Lemma number_from_snd {A : Type} (l : list A) : forall n,
  map snd (number_from n l) = zrange n (List.length l).
Proof.
  induction l as [|x l IH]; intros n; [reflexivity|].
  simpl List.length. rewrite CalendarFacts.zrange_S. simpl. rewrite IH. reflexivity.
Qed.

(** ** The order of nullable text keys *)

Lemma ascii_compare_refl (a : ascii) : Ascii.compare a a = Eq.
Proof. unfold Ascii.compare. apply N.compare_refl. Qed.





(** ** [generate_surrogate_key] *)

Section SurrogateKey.
Context {A : Type} (natural_key : A -> option string).

Lemma generate_surrogate_key_keys (df : list A) :
  map snd (DimTables.generate_surrogate_key natural_key df)
  = zrange 1 (List.length df).
Proof.
  unfold DimTables.generate_surrogate_key, row_number.
  rewrite number_from_snd, orderBy_length. reflexivity.
Qed.



(** The natural keys with their surrogate keys: the sorted natural keys,
    numbered. *)
Lemma generate_surrogate_key_pairs (df : list A) :
  map (fun p => (natural_key (fst p), snd p))
    (DimTables.generate_surrogate_key natural_key df)
  = row_number (orderBy str_leb (map natural_key df)).
Proof.
  unfold DimTables.generate_surrogate_key, row_number.
  rewrite (number_from_map natural_key), (orderBy_map natural_key str_leb).
  reflexivity.
Qed.

End SurrogateKey.

(** ** The joined customer frame *)

Lemma customer_metrics_keys (orders : list SilverRows.Orders.row) :
  map DimTables.m_customer_id (DimTables.customer_metrics orders)
  = distinct_by group_eqb (map SilverRows.Orders.customer_id orders).
Proof.
  unfold DimTables.customer_metrics. rewrite map_map. simpl. apply map_id.
Qed.

Lemma customer_metrics_unique (orders : list SilverRows.Orders.row)
    (k : option string) :
  (List.length (filter (fun m => key_match k (DimTables.m_customer_id m))
                  (DimTables.customer_metrics orders)) <= 1)%nat.
Proof.
  apply filter_key_match_unique. rewrite customer_metrics_keys.
  apply distinct_by_NoDup. exact group_eqb_eq.
Qed.

(** The left join keeps every customer once, with or without metrics. *)
Lemma joined_customers (customers : list SilverRows.Customers.row)
    (orders : list SilverRows.Orders.row) :
  map fst (join_left SilverRows.Customers.customer_id DimTables.m_customer_id
             customers (DimTables.customer_metrics orders))
  = customers.
Proof.
  apply join_left_fst. intros a _. apply customer_metrics_unique.
Qed.


Lemma dim_customer_keys (now : timestamp)
    (keyed : list (SilverRows.Customers.row * option DimTables.metrics * Z)) :
  map GoldRows.DimCustomer.customer_key (map (DimTables.dim_customer_row now) keyed)
  = map snd keyed.
Proof. rewrite map_map. apply map_ext. intros [[c m] k]. reflexivity. Qed.


Lemma dim_product_keys (now : timestamp) (keyed : list (SilverRows.Products.row * Z)) :
  map GoldRows.DimProduct.product_key (map (DimTables.dim_product_row now) keyed)
  = map snd keyed.
Proof. rewrite map_map. apply map_ext. intros [p k]. reflexivity. Qed.




(** ** The keys of the fact table and those of the dimensions *)

Lemma customer_lookup_pairs (customers : list SilverRows.Customers.row) :
  NoDup (map SilverRows.Customers.customer_id customers) ->
  FactSales.customer_lookup customers
  = row_number (orderBy str_leb (map SilverRows.Customers.customer_id customers)).
Proof.
  intros Hnd. unfold FactSales.customer_lookup, FactSales.generate_surrogate_keys.
  rewrite (distinct_by_unique_keys group_eqb (fun k : option string => k)).
  - reflexivity.
  - intros x y H. apply group_eqb_eq. assumption.
  - rewrite map_id. assumption.
Qed.

Lemma dim_customer_pairs (now : timestamp)
    (customers : list SilverRows.Customers.row)
    (orders : list SilverRows.Orders.row) :
  map (fun d => (GoldRows.DimCustomer.customer_id d,
                 GoldRows.DimCustomer.customer_key d))
    (DimTables.build_dim_customer now customers orders)
  = row_number (orderBy str_leb (map SilverRows.Customers.customer_id customers)).
Proof.
  unfold DimTables.build_dim_customer. rewrite map_map.
  rewrite (map_ext _ (fun p : SilverRows.Customers.row * option DimTables.metrics * Z =>
                        (SilverRows.Customers.customer_id (fst (fst p)), snd p)))
    by (intros [[c m] k]; reflexivity).
  rewrite (generate_surrogate_key_pairs
             (fun j : SilverRows.Customers.row * option DimTables.metrics =>
                SilverRows.Customers.customer_id (fst j))).
  rewrite <- (map_map fst SilverRows.Customers.customer_id), joined_customers.
  reflexivity.
Qed.

Lemma product_lookup_pairs (products : list SilverRows.Products.row) :
  NoDup (map SilverRows.Products.product_id products) ->
  FactSales.product_lookup products
  = row_number
      (orderBy (fun a b : option string * option double => str_leb (fst a) (fst b))
         (map (fun p => (SilverRows.Products.product_id p,
                         SilverRows.Products.cost p)) products)).
Proof.
  intros Hnd. unfold FactSales.product_lookup, FactSales.generate_surrogate_keys.
  rewrite (distinct_by_unique_keys _ (fun pc : option string * option double => fst pc)).
  - reflexivity.
  - intros x y H. apply andb_prop in H. apply group_eqb_eq. apply H.
  - rewrite map_map. simpl. assumption.
Qed.

Lemma dim_product_pairs (now : timestamp) (products : list SilverRows.Products.row) :
  map (fun d => (GoldRows.DimProduct.product_id d, GoldRows.DimProduct.cost d,
                 GoldRows.DimProduct.product_key d))
    (DimTables.build_dim_product now products)
  = row_number
      (orderBy (fun a b : option string * option double => str_leb (fst a) (fst b))
         (map (fun p => (SilverRows.Products.product_id p,
                         SilverRows.Products.cost p)) products)).
Proof.
  unfold DimTables.build_dim_product, DimTables.generate_surrogate_key, row_number.
  rewrite map_map.
  rewrite (map_ext _ (fun p : SilverRows.Products.row * Z =>
                        ((fun q => (SilverRows.Products.product_id q,
                                    SilverRows.Products.cost q)) (fst p), snd p)))
    by (intros [q k]; reflexivity).
  rewrite (number_from_map
             (fun q => (SilverRows.Products.product_id q, SilverRows.Products.cost q))).
  rewrite <- (orderBy_map
                (fun q => (SilverRows.Products.product_id q, SilverRows.Products.cost q))
                (fun a b : option string * option double => str_leb (fst a) (fst b))).
  reflexivity.
Qed.

(** The fact job numbers its own customer and product lookups instead of
    reading the dimension tables.  When no two Silver customers share a
    [customer_id] and no two Silver products a [product_id], as the
    Silver job leaves them, the two numberings agree: the pairs of
    natural and surrogate key of [dim_customer] are the customer lookup
    of [build_fact_sales], and those of [dim_product], with the cost,
    its product lookup.  A [customer_key] or [product_key] of the fact
    table then names the dimension row of the same customer or
    product. *)
Theorem fact_keys_agree_with_dimensions (now : timestamp)
    (customers : list SilverRows.Customers.row)
    (orders : list SilverRows.Orders.row)
    (products : list SilverRows.Products.row) :
  NoDup (map SilverRows.Customers.customer_id customers) ->
  NoDup (map SilverRows.Products.product_id products) ->
  map (fun d => (GoldRows.DimCustomer.customer_id d,
                 GoldRows.DimCustomer.customer_key d))
    (DimTables.build_dim_customer now customers orders)
  = FactSales.customer_lookup customers
  /\ map (fun d => (GoldRows.DimProduct.product_id d, GoldRows.DimProduct.cost d,
                    GoldRows.DimProduct.product_key d))
       (DimTables.build_dim_product now products)
     = FactSales.product_lookup products.
Proof.
  intros Hc Hp. split.
  - rewrite dim_customer_pairs, customer_lookup_pairs by assumption. reflexivity.
  - rewrite dim_product_pairs, product_lookup_pairs by assumption. reflexivity.
Qed.

Lemma fact_keys_agree_with_dimensions_witness :
  map (fun d => (GoldRows.DimCustomer.customer_id d,
                 GoldRows.DimCustomer.customer_key d))
    (DimTables.build_dim_customer SilverExamples.run_time SilverExamples.customers
       SilverExamples.orders)
  = FactSales.customer_lookup SilverExamples.customers
  /\ map (fun d => (GoldRows.DimProduct.product_id d, GoldRows.DimProduct.cost d,
                    GoldRows.DimProduct.product_key d))
       (DimTables.build_dim_product SilverExamples.run_time SilverExamples.products)
     = FactSales.product_lookup SilverExamples.products.
Proof.
  apply (fact_keys_agree_with_dimensions SilverExamples.run_time
           SilverExamples.customers SilverExamples.orders SilverExamples.products).
  - vm_compute. repeat constructor; simpl; intuition discriminate.
  - vm_compute. repeat constructor; simpl; intuition discriminate.
Defined.

(** ** Customers with and without orders *)

Lemma generate_surrogate_key_In {A : Type} (natural_key : A -> option string)
    (df : list A) (p : A * Z) :
  In p (DimTables.generate_surrogate_key natural_key df) -> In (fst p) df.
Proof.
  unfold DimTables.generate_surrogate_key. intros H.
  apply (in_map fst) in H. rewrite row_number_fst in H.
  apply orderBy_In in H. exact H.
Qed.

Lemma orders_of_group (orders : list SilverRows.Orders.row) (s : string) :
  filter (fun o => group_eqb (SilverRows.Orders.customer_id o) (Some s)) orders
  = orders_of orders (Some s).
Proof.
  unfold orders_of. apply filter_ext. intros o. symmetry. apply key_match_group.
Qed.

(** What the left join attaches to a customer: nothing when no order
    carries the customer's identifier, else the aggregates of the
    customer's orders. *)
Lemma joined_customer_metrics (customers : list SilverRows.Customers.row)
    (orders : list SilverRows.Orders.row)
    (c : SilverRows.Customers.row) (m : option DimTables.metrics) :
  In (c, m) (join_left SilverRows.Customers.customer_id DimTables.m_customer_id
               customers (DimTables.customer_metrics orders)) ->
  let mine := orders_of orders (SilverRows.Customers.customer_id c) in
  match m with
  | None => mine = []
  | Some x =>
      mine <> []
      /\ DimTables.m_total_orders x
         = agg_count (map SilverRows.Orders.order_id mine)
      /\ DimTables.m_total_spend x
         = agg_sum (map SilverRows.Orders.total_amount mine)
      /\ DimTables.m_first_order_date x
         = agg_min (map SilverRows.Orders.order_date mine)
      /\ DimTables.m_last_order_date x
         = agg_max (map SilverRows.Orders.order_date mine)
      /\ DimTables.m_avg_order_value x
         = agg_avg (map SilverRows.Orders.total_amount mine)
  end.
Proof.
  intros H. apply join_left_In in H. destruct H as [_ H]. cbv zeta.
  destruct m as [x|].
  - destruct H as [Hx Hk]. apply key_match_eq in Hk.
    destruct Hk as (s & Hc & Hm). rewrite Hc.
    unfold DimTables.customer_metrics in Hx. apply in_map_iff in Hx.
    destruct Hx as (k & <- & Hkin). simpl in Hm. subst k.
    cbn [DimTables.m_total_orders DimTables.m_total_spend
         DimTables.m_first_order_date DimTables.m_last_order_date
         DimTables.m_avg_order_value].
    rewrite orders_of_group. split; [|repeat split; reflexivity].
    apply distinct_by_subset, in_map_iff in Hkin.
    destruct Hkin as (o & Ho & Hin).
    assert (Hmine : In o (orders_of orders (Some s))).
    { apply filter_In. split; [assumption|]. rewrite Ho.
      apply key_match_eq. exists s. auto. }
    intros E. rewrite E in Hmine. contradiction.
  - apply filter_nil_iff. intros o Ho.
    destruct (key_match (SilverRows.Customers.customer_id c)
                (SilverRows.Orders.customer_id o)) eqn:E; [|reflexivity].
    exfalso. apply key_match_eq in E. destruct E as (s & Hc & Hoc).
    assert (Hk : In (Some s)
                   (distinct_by group_eqb
                      (map SilverRows.Orders.customer_id orders))).
    { apply (distinct_by_In_iff group_eqb group_eqb_eq).
      rewrite <- Hoc. apply in_map. assumption. }
    rewrite <- customer_metrics_keys in Hk. apply in_map_iff in Hk.
    destruct Hk as (x & Hx & Hxin).
    assert (Hf : In x (filter (fun b => key_match (SilverRows.Customers.customer_id c)
                                          (DimTables.m_customer_id b))
                         (DimTables.customer_metrics orders))).
    { apply filter_In. split; [assumption|]. apply key_match_eq.
      exists s. auto. }
    rewrite H in Hf. contradiction.
Qed.

(** A customer whom no order names (or whose identifier is NULL) has a
    row in [dim_customer] all the same: 0 orders, 0 spent, status
    "prospect", tier "bronze", and no order dates.  A customer with
    orders gets the count of those with an [order_id], the sum of their
    totals and their latest date, and is never a "prospect". *)
Theorem dim_customer_metrics_by_customer (now : timestamp)
    (customers : list SilverRows.Customers.row)
    (orders : list SilverRows.Orders.row) :
  Forall
    (fun d =>
       let mine := orders_of orders (GoldRows.DimCustomer.customer_id d) in
       (mine = [] ->
        GoldRows.DimCustomer.total_orders d = Some 0
        /\ GoldRows.DimCustomer.total_spend d = Some 0%Q
        /\ GoldRows.DimCustomer.customer_status d = "prospect"%string
        /\ GoldRows.DimCustomer.value_tier d = "bronze"%string
        /\ GoldRows.DimCustomer.first_order_date d = None
        /\ GoldRows.DimCustomer.last_order_date d = None
        /\ GoldRows.DimCustomer.avg_order_value d = None
        /\ GoldRows.DimCustomer.days_since_last_order d = None)
       /\ (mine <> [] ->
           GoldRows.DimCustomer.total_orders d
           = Some (agg_count (map SilverRows.Orders.order_id mine))
           /\ GoldRows.DimCustomer.total_spend d
              = coalesce (agg_sum (map SilverRows.Orders.total_amount mine))
                  (Some 0%Q)
           /\ GoldRows.DimCustomer.last_order_date d
              = agg_max (map SilverRows.Orders.order_date mine)
           /\ GoldRows.DimCustomer.customer_status d <> "prospect"%string))
    (DimTables.build_dim_customer now customers orders).
Proof.
  apply Forall_forall. intros d Hd. unfold DimTables.build_dim_customer in Hd.
  apply in_map_iff in Hd. destruct Hd as ([[c m] k] & <- & Hin).
  apply generate_surrogate_key_In in Hin. cbn [fst] in Hin.
  pose proof (joined_customer_metrics customers orders c m Hin) as Hm.
  cbv zeta in *.
  change (GoldRows.DimCustomer.customer_id (DimTables.dim_customer_row now (c, m, k)))
    with (SilverRows.Customers.customer_id c).
  destruct m as [x|].
  - destruct Hm as (Hne & Hto & Hts & _ & Hlo & _).
    split; [intros E; contradiction|]. intros _.
    unfold DimTables.dim_customer_row.
    cbn [GoldRows.DimCustomer.total_orders GoldRows.DimCustomer.total_spend
         GoldRows.DimCustomer.last_order_date GoldRows.DimCustomer.customer_status
         DimTables.joined_metric coalesce].
    rewrite Hto, Hts, Hlo. repeat split.
    unfold when_otherwise.
    destruct (is_true _); [discriminate|].
    destruct (is_true _); discriminate.
  - split; [|intros Hne; contradiction]. intros _.
    repeat split.
Qed.

(** ** The grain of the fact table *)











End KeysFacts.

(* ================================================================== *)
(** * Dates: the date dimension's columns and the fact table's date key *)

Module DateFacts.
Import Spark Relational PyDatetime CalendarSpec CalendarFacts.
Local Open Scope list_scope.
Local Open Scope Z_scope.

(** ** Components of a day *)

(** The components Spark reads from a day that is not before 0001-01-01
    form a valid date whose ordinal is the day's. *)
Lemma date_parts_valid (d : SparkDate.date) :
  1 <= d + SparkDate.EPOCH_ORDINAL ->
  1 <= SparkDate.year d
  /\ valid_date (SparkDate.year d) (SparkDate.month d) (SparkDate.dayofmonth d)
  /\ _ymd2ord (SparkDate.year d) (SparkDate.month d) (SparkDate.dayofmonth d)
     = d + SparkDate.EPOCH_ORDINAL.
Proof.
  intros H. unfold SparkDate.year, SparkDate.month, SparkDate.dayofmonth, SparkDate.ymd.
  apply ord2ymd_valid, H.
Qed.

Lemma valid_date_day_le_31 (y m d : Z) : valid_date y m d -> 1 <= d <= 31.
Proof.
  intros [Hm Hd]. rewrite days_in_month_of in Hd.
  pose proof (dim_of_le_31 (_is_leap y) m Hm). lia.
Qed.

(** YYYYMMDD decodes by division. *)
Lemma date_key_decode (y m d : Z) :
  1 <= m <= 12 -> 1 <= d <= 31 ->
  let k := y * 10000 + m * 100 + d in
  k / 10000 = y /\ (k / 100) mod 100 = m /\ k mod 100 = d.
Proof.
  intros Hm Hd k. unfold k.
  assert (E1 : (y * 10000 + m * 100 + d) / 100 = y * 100 + m).
  { replace (y * 10000 + m * 100 + d) with (d + (y * 100 + m) * 100) by lia.
    rewrite Z.div_add by lia. rewrite Z.div_small by lia. lia. }
  split; [|split].
  - replace (y * 10000 + m * 100 + d) with ((m * 100 + d) + y * 10000) by lia.
    rewrite Z.div_add by lia. rewrite Z.div_small by lia. lia.
  - rewrite E1. replace (y * 100 + m) with (m + y * 100) by lia.
    rewrite Z.mod_add by lia. apply Z.mod_small. lia.
  - replace (y * 10000 + m * 100 + d) with (d + (y * 100 + m) * 100) by lia.
    rewrite Z.mod_add by lia. apply Z.mod_small. lia.
Qed.

(** The YYYYMMDD key tells valid dates apart. *)
Lemma date_key_inj (y m d y' m' d' : Z) :
  valid_date y m d -> valid_date y' m' d' ->
  y * 10000 + m * 100 + d = y' * 10000 + m' * 100 + d' ->
  (y, m, d) = (y', m', d').
Proof.
  intros Hv Hv' E.
  pose proof (valid_date_day_le_31 _ _ _ Hv) as Hd.
  pose proof (valid_date_day_le_31 _ _ _ Hv') as Hd'.
  destruct Hv as [Hm _], Hv' as [Hm' _].
  assert (y = y') by lia. subst y'.
  assert (m = m') by lia. subst m'.
  assert (d = d') by lia. subst d'. reflexivity.
Qed.

Lemma dayofweek_range (d : SparkDate.date) : 1 <= SparkDate.dayofweek d <= 7.
Proof.
  unfold SparkDate.dayofweek.
  pose proof (Z.mod_pos_bound (d + SparkDate.EPOCH_ORDINAL) 7 ltac:(lia)). lia.
Qed.

Lemma isoweekday_range (d : SparkDate.date) : 1 <= SparkDate.isoweekday d <= 7.
Proof.
  unfold SparkDate.isoweekday.
  pose proof (Z.mod_pos_bound (d + SparkDate.EPOCH_ORDINAL + 6) 7 ltac:(lia)). lia.
Qed.

Lemma dayofyear_range (d : SparkDate.date) :
  1 <= d + SparkDate.EPOCH_ORDINAL ->
  1 <= SparkDate.dayofyear d <= days_in_year (SparkDate.year d).
Proof.
  intros H. destruct (date_parts_valid d H) as (_ & Hv & E).
  pose proof (ymd2ord_bounds _ _ _ Hv) as Hb. rewrite E in Hb.
  rewrite days_before_next_year in Hb. unfold SparkDate.dayofyear. lia.
Qed.

Lemma iso_weeks_in_year_range (y : Z) :
  52 <= SparkDate.iso_weeks_in_year y <= 53.
Proof.
  unfold SparkDate.iso_weeks_in_year. cbv zeta.
  destruct (_ || _); lia.
Qed.

Lemma weekofyear_range (d : SparkDate.date) :
  1 <= d + SparkDate.EPOCH_ORDINAL ->
  1 <= SparkDate.weekofyear d <= 53.
Proof.
  intros H. pose proof (dayofyear_range d H) as Hd.
  pose proof (days_in_year_pos (SparkDate.year d)) as Hy.
  pose proof (isoweekday_range d) as Hi.
  pose proof (iso_weeks_in_year_range (SparkDate.year d)) as H1.
  pose proof (iso_weeks_in_year_range (SparkDate.year d - 1)) as H0.
  unfold SparkDate.weekofyear. cbv zeta.
  set (w := (SparkDate.dayofyear d - SparkDate.isoweekday d + 10) / 7).
  destruct (Z.ltb_spec w 1); [lia|].
  destruct (Z.ltb_spec (SparkDate.iso_weeks_in_year (SparkDate.year d)) w); lia.
Qed.

Lemma quarter_range (d : SparkDate.date) :
  1 <= SparkDate.month d <= 12 -> 1 <= SparkDate.quarter d <= 4.
Proof.
  intros H. unfold SparkDate.quarter.
  pose proof (Z.div_mod (SparkDate.month d - 1) 3 ltac:(lia)).
  pose proof (Z.mod_pos_bound (SparkDate.month d - 1) 3 ltac:(lia)).
  set (q := (SparkDate.month d - 1) / 3) in *. lia.
Qed.

(** Where a valid day stands in its month and year. *)
Lemma month_facts (leap : bool) (m d : Z) :
  1 <= m <= 12 -> 1 <= d <= dim_of leap m ->
  28 <= dim_of leap m
  /\ (dbm_of leap m + d = 1 <-> m = 1 /\ d = 1)
  /\ (dbm_of leap m + d = (if leap then 366 else 365) <-> m = 12 /\ d = 31).
Proof.
  intros Hm Hd.
  assert (Hin : In m (zrange 1 12)) by (apply zrange_In; simpl; lia).
  simpl in Hin.
  repeat (destruct Hin as [<-|Hin]; [destruct leap; eval_months; lia|]).
  contradiction.
Qed.

(** The last day of a day's month, read back. *)
Lemma last_day_parts (d : SparkDate.date) :
  1 <= d + SparkDate.EPOCH_ORDINAL ->
  SparkDate.ymd (SparkDate.last_day d)
  = (SparkDate.year d, SparkDate.month d,
     _days_in_month (SparkDate.year d) (SparkDate.month d)).
Proof.
  intros H. destruct (date_parts_valid d H) as (Hy & Hv & E).
  set (y := SparkDate.year d) in *. set (m := SparkDate.month d) in *.
  set (dd := SparkDate.dayofmonth d) in *.
  assert (Hdim : 28 <= _days_in_month y m).
  { destruct Hv as [Hm Hd]. rewrite days_in_month_of in *.
    apply (month_facts (_is_leap y) m dd Hm Hd). }
  unfold SparkDate.ymd, SparkDate.last_day. fold y m dd.
  replace (d - dd + _days_in_month y m + SparkDate.EPOCH_ORDINAL)
    with (_ymd2ord y m (_days_in_month y m))
    by (unfold _ymd2ord in *; lia).
  apply ord2ymd_ymd2ord; [exact Hy|].
  destruct Hv as [Hm _]. split; [exact Hm | lia].
Qed.

Lemma is_month_end_iff (d : SparkDate.date) :
  1 <= d + SparkDate.EPOCH_ORDINAL ->
  (SparkDate.dayofmonth d =? SparkDate.dayofmonth (SparkDate.last_day d)) = true
  <-> SparkDate.dayofmonth d = _days_in_month (SparkDate.year d) (SparkDate.month d).
Proof.
  intros H. rewrite Z.eqb_eq.
  unfold SparkDate.dayofmonth at 2. rewrite (last_day_parts d H). reflexivity.
Qed.

(** ** Rows of the date dimension *)

(** The rows of [build_dim_date], by ordinal. *)
Lemma dim_date_rows_In (now : timestamp) (sy ey : Z) (rows : list GoldRows.DimDate.row)
    (r : GoldRows.DimDate.row) :
  1 <= sy <= 9999 -> 1 <= ey <= 9999 ->
  DimTables.build_dim_date now sy ey = Some rows ->
  In r rows ->
  exists n, r = row_of_ordinal now n
            /\ _days_before_year sy + 1 <= n <= _days_before_year (ey + 1)
            /\ 1 <= n.
Proof.
  intros Hsy Hey E Hr. rewrite (build_dim_date_rows now sy ey Hsy Hey) in E.
  injection E as <-. apply in_map_iff in Hr. destruct Hr as (n & <- & Hn).
  apply zrange_In_inv in Hn.
  pose proof (days_before_year_mono 1 sy ltac:(lia)) as H0.
  change (_days_before_year 1) with 0 in H0.
  exists n. split; [reflexivity|]. split; lia.
Qed.

Lemma row_of_ordinal_date (now : timestamp) (n : Z) :
  GoldRows.DimDate.date (row_of_ordinal now n) = n - SparkDate.EPOCH_ORDINAL.
Proof. reflexivity. Qed.

(** The [date_key] of the row of an ordinal determines the ordinal. *)
Lemma row_of_ordinal_key_inj (now : timestamp) (n n' : Z) :
  1 <= n -> 1 <= n' ->
  GoldRows.DimDate.date_key (row_of_ordinal now n)
  = GoldRows.DimDate.date_key (row_of_ordinal now n') ->
  n = n'.
Proof.
  intros Hn Hn' E. rewrite !row_of_ordinal_date_key in E.
  pose proof (row_of_ordinal_ymd now n) as P.
  pose proof (row_of_ordinal_ymd now n') as P'.
  destruct (ord2ymd_valid n Hn) as (_ & Hv & En).
  destruct (ord2ymd_valid n' Hn') as (_ & Hv' & En').
  set (r := row_of_ordinal now n) in *. set (r' := row_of_ordinal now n') in *.
  clearbody r r'.
  destruct (_ord2ymd n) as [[y m] d]. destruct (_ord2ymd n') as [[y' m'] d'].
  cbn [fst snd] in *.
  injection P as P1 P2 P3. injection P' as P1' P2' P3'.
  rewrite P1, P2, P3, P1', P2', P3' in E.
  pose proof (date_key_inj _ _ _ _ _ _ Hv Hv' E) as K.
  injection K as K1 K2 K3. rewrite K1, K2, K3 in En. congruence.
Qed.

Lemma dim_date_keys_NoDup (now : timestamp) (lo : Z) (k : nat) :
  1 <= lo ->
  NoDup (map GoldRows.DimDate.date_key (map (row_of_ordinal now) (zrange lo k))).
Proof.
  intros Hlo. rewrite map_map.
  apply NoDup_map_NoDup_ForallPairs; [|apply zrange_NoDup].
  intros a b Ha Hb E. apply zrange_In_inv in Ha. apply zrange_In_inv in Hb.
  apply (row_of_ordinal_key_inj now); [lia | lia | exact E].
Qed.

(** X.  In the table of [build_dim_date], [date_key] is a key: no two rows
    share it.  It is the row's day written YYYYMMDD: dividing by 10000
    gives [year], the next two digits [month] and the last two
    [day_of_month]; these are the components of the row's [date]; and the
    key lies between 00010101 and 99991231, within the [IntegerType] it is
    cast to. *)
Theorem dim_date_key_identifies_the_day (now : timestamp) (start_year end_year : Z) :
  1 <= start_year <= 9999 -> 1 <= end_year <= 9999 ->
  exists rows,
    DimTables.build_dim_date now start_year end_year = Some rows
    /\ NoDup (map GoldRows.DimDate.date_key rows)
    /\ NoDup (map GoldRows.DimDate.date rows)
    /\ Forall (fun r =>
         let k := GoldRows.DimDate.date_key r in
         k / 10000 = GoldRows.DimDate.year r
         /\ (k / 100) mod 100 = GoldRows.DimDate.month r
         /\ k mod 100 = GoldRows.DimDate.day_of_month r
         /\ 10101 <= k <= 99991231
         /\ k < 2 ^ 31
         /\ _ymd2ord (GoldRows.DimDate.year r) (GoldRows.DimDate.month r)
              (GoldRows.DimDate.day_of_month r)
            = GoldRows.DimDate.date r + SparkDate.EPOCH_ORDINAL) rows.
Proof.
  intros Hsy Hey. eexists. split; [apply build_dim_date_rows; assumption|].
  pose proof (days_before_year_mono 1 start_year ltac:(lia)) as H0.
  change (_days_before_year 1) with 0 in H0.
  split; [apply dim_date_keys_NoDup; lia|].
  split.
  { rewrite map_map. apply NoDup_map_NoDup_ForallPairs; [|apply zrange_NoDup].
    intros a b _ _ E. rewrite !row_of_ordinal_date in E. lia. }
  apply Forall_forall. intros r Hr.
  apply in_map_iff in Hr. destruct Hr as (n & <- & Hn).
  apply zrange_In_inv in Hn.
  assert (Hn1 : 1 <= n) by lia.
  destruct (ord2ymd_valid n Hn1) as (_ & Hv & En).
  pose proof (ord2ymd_year_range n start_year end_year Hn1 ltac:(lia)) as Hyr.
  pose proof (row_of_ordinal_ymd now n) as P.
  cbv zeta. rewrite row_of_ordinal_date_key, row_of_ordinal_date.
  set (r := row_of_ordinal now n) in *. clearbody r.
  destruct (_ord2ymd n) as [[y m] d]. cbn [fst snd] in *.
  injection P as -> -> ->.
  pose proof (valid_date_day_le_31 _ _ _ Hv) as Hd.
  destruct (date_key_decode y m d (proj1 Hv) Hd) as (D1 & D2 & D3).
  destruct Hv as [Hm _].
  repeat split; try assumption; try lia.
Qed.

Lemma dim_date_key_identifies_the_day_witness :
  exists rows,
    DimTables.build_dim_date 0 2023 2024 = Some rows
    /\ NoDup (map GoldRows.DimDate.date_key rows)
    /\ NoDup (map GoldRows.DimDate.date rows)
    /\ Forall (fun r =>
         let k := GoldRows.DimDate.date_key r in
         k / 10000 = GoldRows.DimDate.year r
         /\ (k / 100) mod 100 = GoldRows.DimDate.month r
         /\ k mod 100 = GoldRows.DimDate.day_of_month r
         /\ 10101 <= k <= 99991231
         /\ k < 2 ^ 31
         /\ _ymd2ord (GoldRows.DimDate.year r) (GoldRows.DimDate.month r)
              (GoldRows.DimDate.day_of_month r)
            = GoldRows.DimDate.date r + SparkDate.EPOCH_ORDINAL) rows.
Proof. apply (dim_date_key_identifies_the_day 0 2023 2024); lia. Defined.

(** X.  The derived columns of every row of [build_dim_date] stay within
    their calendar ranges and the flags agree with the calendar:
    [day_of_week] is 1..7, [day_of_year] 1..365 (366 in a leap year),
    [week_of_year] 1..53 and [quarter] 1..4; [is_weekend] holds exactly on
    Sunday (1) and Saturday (7) and [is_weekday] is its negation;
    [is_month_end] holds exactly on the last day of the month,
    [is_year_start] exactly on day 1 of the year and [is_year_end] exactly
    on its last day; a quarter starts with the first day of January,
    April, July or October. *)
Theorem dim_date_columns_follow_the_calendar (now : timestamp) (start_year end_year : Z) :
  1 <= start_year <= 9999 -> 1 <= end_year <= 9999 ->
  exists rows,
    DimTables.build_dim_date now start_year end_year = Some rows
    /\ Forall (fun r =>
         let y := GoldRows.DimDate.year r in
         let m := GoldRows.DimDate.month r in
         let d := GoldRows.DimDate.day_of_month r in
         1 <= GoldRows.DimDate.day_of_week r <= 7
         /\ 1 <= GoldRows.DimDate.day_of_year r <= days_in_year y
         /\ GoldRows.DimDate.day_of_year r = _days_before_month y m + d
         /\ 1 <= GoldRows.DimDate.week_of_year r <= 53
         /\ 1 <= GoldRows.DimDate.quarter r <= 4
         /\ 3 * GoldRows.DimDate.quarter r - 2 <= m <= 3 * GoldRows.DimDate.quarter r
         /\ (GoldRows.DimDate.is_weekend r = true
             <-> GoldRows.DimDate.day_of_week r = 1 \/ GoldRows.DimDate.day_of_week r = 7)
         /\ GoldRows.DimDate.is_weekday r = negb (GoldRows.DimDate.is_weekend r)
         /\ (GoldRows.DimDate.is_month_end r = true <-> d = _days_in_month y m)
         /\ (GoldRows.DimDate.is_year_start r = true
             <-> GoldRows.DimDate.day_of_year r = 1)
         /\ (GoldRows.DimDate.is_year_end r = true
             <-> GoldRows.DimDate.day_of_year r = days_in_year y)
         /\ (GoldRows.DimDate.is_quarter_start r = true
             <-> m = 3 * GoldRows.DimDate.quarter r - 2 /\ d = 1)
         /\ GoldRows.DimDate.fiscal_year r = y
         /\ GoldRows.DimDate.fiscal_quarter r = GoldRows.DimDate.quarter r) rows.
Proof.
  intros Hsy Hey. eexists. split; [apply build_dim_date_rows; assumption|].
  pose proof (days_before_year_mono 1 start_year ltac:(lia)) as H0.
  change (_days_before_year 1) with 0 in H0.
  apply Forall_forall. intros r Hr.
  apply in_map_iff in Hr. destruct Hr as (n & <- & Hn).
  apply zrange_In_inv in Hn.
  unfold row_of_ordinal. set (dt := n - SparkDate.EPOCH_ORDINAL).
  assert (Hdt : 1 <= dt + SparkDate.EPOCH_ORDINAL) by (unfold dt; lia).
  destruct (date_parts_valid dt Hdt) as (Hy & Hv & E).
  pose proof (dayofweek_range dt) as Hdow.
  pose proof (dayofyear_range dt Hdt) as Hdoy.
  pose proof (weekofyear_range dt Hdt) as Hwoy.
  pose proof (quarter_range dt (proj1 Hv)) as Hq.
  pose proof (is_month_end_iff dt Hdt) as Hme.
  assert (Hdoy' : SparkDate.dayofyear dt
                  = _days_before_month (SparkDate.year dt) (SparkDate.month dt)
                    + SparkDate.dayofmonth dt).
  { unfold SparkDate.dayofyear. unfold _ymd2ord in E. lia. }
  assert (Hq3 : 3 * SparkDate.quarter dt - 2 <= SparkDate.month dt
                <= 3 * SparkDate.quarter dt).
  { unfold SparkDate.quarter.
    pose proof (Z.div_mod (SparkDate.month dt - 1) 3 ltac:(lia)).
    pose proof (Z.mod_pos_bound (SparkDate.month dt - 1) 3 ltac:(lia)). lia. }
  unfold DimTables.dim_date_row.
  cbn [GoldRows.DimDate.year GoldRows.DimDate.month GoldRows.DimDate.day_of_month
       GoldRows.DimDate.day_of_week GoldRows.DimDate.day_of_year
       GoldRows.DimDate.week_of_year GoldRows.DimDate.quarter
       GoldRows.DimDate.is_weekend GoldRows.DimDate.is_weekday
       GoldRows.DimDate.is_month_end GoldRows.DimDate.is_year_start
       GoldRows.DimDate.is_year_end GoldRows.DimDate.is_quarter_start
       GoldRows.DimDate.fiscal_year GoldRows.DimDate.fiscal_quarter].
  set (y := SparkDate.year dt) in *. set (m := SparkDate.month dt) in *.
  set (d := SparkDate.dayofmonth dt) in *. set (q := SparkDate.quarter dt) in *.
  set (dow := SparkDate.dayofweek dt) in *. set (doy := SparkDate.dayofyear dt) in *.
  destruct Hv as [Hm Hd]. rewrite days_in_month_of in Hd.
  pose proof (dim_of_le_31 (_is_leap y) m Hm) as H31.
  pose proof (day_of_year_bounds (_is_leap y) m d Hm Hd) as Hb.
  rewrite days_before_month_of in Hdoy'.
  split; [exact Hdow|]. split; [exact Hdoy|].
  split; [rewrite days_before_month_of; exact Hdoy'|].
  split; [exact Hwoy|]. split; [exact Hq|]. split; [exact Hq3|].
  split.
  { unfold DimTables.isin. cbn [existsb]. rewrite !orb_true_iff, !Z.eqb_eq. intuition lia. }
  split; [reflexivity|]. split; [exact Hme|].
  destruct (month_facts (_is_leap y) m d Hm Hd) as (_ & Hfirst & Hlast).
  split.
  { rewrite andb_true_iff, !Z.eqb_eq, Hdoy'. symmetry. exact Hfirst. }
  split.
  { rewrite andb_true_iff, !Z.eqb_eq, Hdoy'. unfold days_in_year.
    symmetry. exact Hlast. }
  split.
  { unfold DimTables.isin. cbn [existsb].
    rewrite andb_true_iff, !orb_true_iff, !Z.eqb_eq. intuition lia. }
  split; reflexivity.
Qed.

Lemma dim_date_columns_follow_the_calendar_witness :
  exists rows,
    DimTables.build_dim_date 0 2023 2024 = Some rows
    /\ Forall (fun r =>
         let y := GoldRows.DimDate.year r in
         let m := GoldRows.DimDate.month r in
         let d := GoldRows.DimDate.day_of_month r in
         1 <= GoldRows.DimDate.day_of_week r <= 7
         /\ 1 <= GoldRows.DimDate.day_of_year r <= days_in_year y
         /\ GoldRows.DimDate.day_of_year r = _days_before_month y m + d
         /\ 1 <= GoldRows.DimDate.week_of_year r <= 53
         /\ 1 <= GoldRows.DimDate.quarter r <= 4
         /\ 3 * GoldRows.DimDate.quarter r - 2 <= m <= 3 * GoldRows.DimDate.quarter r
         /\ (GoldRows.DimDate.is_weekend r = true
             <-> GoldRows.DimDate.day_of_week r = 1 \/ GoldRows.DimDate.day_of_week r = 7)
         /\ GoldRows.DimDate.is_weekday r = negb (GoldRows.DimDate.is_weekend r)
         /\ (GoldRows.DimDate.is_month_end r = true <-> d = _days_in_month y m)
         /\ (GoldRows.DimDate.is_year_start r = true
             <-> GoldRows.DimDate.day_of_year r = 1)
         /\ (GoldRows.DimDate.is_year_end r = true
             <-> GoldRows.DimDate.day_of_year r = days_in_year y)
         /\ (GoldRows.DimDate.is_quarter_start r = true
             <-> m = 3 * GoldRows.DimDate.quarter r - 2 /\ d = 1)
         /\ GoldRows.DimDate.fiscal_year r = y
         /\ GoldRows.DimDate.fiscal_quarter r = GoldRows.DimDate.quarter r) rows.
Proof. apply (dim_date_columns_follow_the_calendar 0 2023 2024); lia. Defined.

(** ** When [build_dim_date] raises *)

Lemma new_year_out_of_range (y m d : Z) :
  ~ 1 <= y <= 9999 -> new y m d = None.
Proof.
  intros H. unfold new, MINYEAR, MAXYEAR.
  destruct (Z.leb_spec 1 y); [|reflexivity].
  destruct (Z.leb_spec y 9999); [lia|reflexivity].
Qed.

Lemma new_first_day (y : Z) :
  1 <= y <= 9999 -> new y 1 1 = Some {| year := y; month := 1; day := 1 |}.
Proof.
  intros H. unfold new, MINYEAR, MAXYEAR. rewrite days_in_month_of.
  replace (1 <=? y) with true by (symmetry; apply Z.leb_le; lia).
  replace (y <=? 9999) with true by (symmetry; apply Z.leb_le; lia).
  destruct (_is_leap y); reflexivity.
Qed.

(** X.  [build_dim_date] raises exactly when one of the two years is
    outside 1..9999, the years [datetime] accepts; it then builds nothing.
    For accepted years with [end_year] before [start_year] it does not
    raise: the table is empty. *)
Theorem build_dim_date_raises_iff_year_out_of_range (now : timestamp)
    (start_year end_year : Z) :
  (DimTables.build_dim_date now start_year end_year = None
   <-> ~ (1 <= start_year <= 9999 /\ 1 <= end_year <= 9999))
  /\ (1 <= end_year -> end_year < start_year -> start_year <= 9999 ->
      DimTables.build_dim_date now start_year end_year = Some []).
Proof.
  split; [split|].
  - intros E [Hsy Hey]. rewrite (build_dim_date_rows now _ _ Hsy Hey) in E. discriminate.
  - intros H. unfold DimTables.build_dim_date, DimTables.date_sequence.
    destruct (Z.le_gt_cases 1 start_year) as [H1|H1];
      [destruct (Z.le_gt_cases start_year 9999) as [H2|H2]|].
    + rewrite (new_first_day start_year) by lia. cbn [bind].
      rewrite (new_year_out_of_range end_year) by lia. reflexivity.
    + rewrite (new_year_out_of_range start_year) by lia. reflexivity.
    + rewrite (new_year_out_of_range start_year) by lia. reflexivity.
  - intros H1 H2 H3. rewrite (build_dim_date_rows now start_year end_year) by lia.
    pose proof (days_before_year_mono (end_year + 1) start_year ltac:(lia)) as Hm.
    replace (Z.to_nat (_days_before_year (end_year + 1) - _days_before_year start_year))
      with 0%nat by lia.
    reflexivity.
Qed.

Lemma build_dim_date_raises_iff_year_out_of_range_witness :
  DimTables.build_dim_date 0 2024 2023 = Some []
  /\ DimTables.build_dim_date 0 2023 10000 = None.
Proof.
  destruct (build_dim_date_raises_iff_year_out_of_range 0 2024 2023) as [_ H].
  destruct (build_dim_date_raises_iff_year_out_of_range 0 2023 10000) as [[_ H'] _].
  split; [apply H; lia | apply H'; lia].
Defined.

(** ** The fact table's date key *)





End DateFacts.

(* ================================================================== *)
(** * What the Silver transformers keep, and the columns they derive *)

Module CleaningFacts.
Import Spark Silver SilverSpec CleaningSpec Relational SparkFacts DedupFacts ListFacts.
Import CalendarSpec.
Local Open Scope list_scope.

(** ** Rows kept by a transformer *)

Section RowCount.
Context {B S : Type}
        (bkey : B -> option string) (bts : B -> option timestamp)
        (skey : S -> option string) (sts : S -> option timestamp)
        (clean : B -> S) (finish : S -> S).
Hypothesis clean_key : forall r, skey (clean r) = bkey r.
Hypothesis clean_ts : forall r, sts (clean r) = bts r.
Hypothesis finish_key : forall s, skey (finish s) = skey s.
Hypothesis finish_ts : forall s, sts (finish s) = sts s.

Lemma transformer_keys_NoDup (df : list B) :
  NoDup (map skey (map finish (deduplicate skey sts (map clean df)))).
Proof.
  rewrite map_map. rewrite (map_ext _ skey finish_key). apply deduplicate_NoDup.
Qed.

Lemma transformer_keys_In (df : list B) (k : option string) :
  In k (map skey (map finish (deduplicate skey sts (map clean df))))
  <-> In k (map bkey df).
Proof.
  destruct (transformer_dedup bkey bts skey sts clean finish
              clean_key clean_ts finish_key finish_ts df) as [H1 H2].
  split; intros H; apply in_map_iff in H.
  - destruct H as (s & <- & Hs). destruct (H2 s Hs) as (r & Hr & ->).
    rewrite finish_key, clean_key. apply in_map. exact Hr.
  - destruct H as (r & <- & Hr). destruct (H1 r Hr) as (s & Hf & Hk & _).
    rewrite <- Hk. apply in_map.
    assert (Hin : In s (filter (fun x => group_eqb (skey x) (bkey r))
                          (map finish (deduplicate skey sts (map clean df)))))
      by (rewrite Hf; left; reflexivity).
    apply filter_In in Hin. apply Hin.
Qed.

Lemma transformer_length (df : list B) :
  (List.length (map finish (deduplicate skey sts (map clean df))) <= List.length df)%nat
  /\ (List.length (map finish (deduplicate skey sts (map clean df))) = List.length df
      <-> NoDup (map bkey df)).
Proof.
  assert (dec : forall x y : option string, {x = y} + {x <> y})
    by (decide equality; apply string_dec).
  assert (P : Permutation
                (map skey (map finish (deduplicate skey sts (map clean df))))
                (nodup dec (map bkey df))).
  { apply NoDup_Permutation.
    - apply transformer_keys_NoDup.
    - apply NoDup_nodup.
    - intros k. rewrite nodup_In. apply transformer_keys_In. }
  apply Permutation_length in P. rewrite length_map in P. rewrite P.
  rewrite <- (length_map bkey df). split.
  - apply nodup_length_le.
  - apply nodup_length_eq.
Qed.

Lemma transformer_unique_keys (df : list B) :
  NoDup (map bkey df) ->
  Permutation (map finish (deduplicate skey sts (map clean df)))
    (map (fun r => finish (clean r)) df).
Proof.
  intros Hnd.
  destruct (transformer_dedup bkey bts skey sts clean finish
              clean_key clean_ts finish_key finish_ts df) as [H1 H2].
  apply NoDup_Permutation.
  - apply (NoDup_map_inv skey). apply transformer_keys_NoDup.
  - apply (NoDup_map_inv skey). rewrite map_map.
    rewrite (map_ext _ bkey); [exact Hnd|].
    intros r. rewrite finish_key. apply clean_key.
  - intros s. split.
    + intros Hs. destruct (H2 s Hs) as (r & Hr & ->).
      apply (in_map (fun r => finish (clean r))). exact Hr.
    + intros Hs. apply in_map_iff in Hs. destruct Hs as (r & <- & Hr).
      destruct (H1 r Hr) as (s & Hf & _ & (r0 & Hr0 & Hk0 & ->) & _).
      assert (r0 = r) by (apply (NoDup_map_In_inj bkey df Hnd); assumption).
      subst r0.
      assert (Hin : In (finish (clean r))
                      (filter (fun x => group_eqb (skey x) (bkey r))
                         (map finish (deduplicate skey sts (map clean df)))))
        by (rewrite Hf; left; reflexivity).
      apply filter_In in Hin. apply Hin.
Qed.

Lemma transformer_loses_rows (df : list B) :
  loses_rows_only_to_repeated_keys bkey (fun r => finish (clean r)) df
    (map finish (deduplicate skey sts (map clean df))).
Proof.
  destruct (transformer_length df) as [Hle Heq].
  split; [exact Hle|]. split; [exact Heq|]. apply transformer_unique_keys.
Qed.

End RowCount.

(** X.  Each of the four transformers loses rows only to repeated keys:
    its output is never longer than its input, it is as long exactly
    when no natural key (customer_id, product_id, order_id,
    order_item_id; NULL counting as a key) occurs twice in the input,
    and in that case the output is, up to the order of rows, the cleaned
    image of every input row: nothing is dropped and nothing is added,
    whatever the values of the other columns. *)
Theorem silver_loses_rows_only_to_repeated_keys
    (fn : Functions) (now : timestamp)
    (customers : list Bronze.Customers.row) (products : list Bronze.Products.row)
    (orders : list Bronze.Orders.row) (order_items : list Bronze.OrderItems.row) :
  loses_rows_only_to_repeated_keys Bronze.Customers.customer_id
    (fun r => customers_finish now (customers_clean fn r))
    customers (transform_customers fn now customers)
  /\ loses_rows_only_to_repeated_keys Bronze.Products.product_id
    (fun r => products_finish now (products_clean fn r))
    products (transform_products fn now products)
  /\ loses_rows_only_to_repeated_keys Bronze.Orders.order_id
    (fun r => orders_finish now (orders_clean fn r))
    orders (transform_orders fn now orders)
  /\ loses_rows_only_to_repeated_keys Bronze.OrderItems.order_item_id
    (fun r => order_items_finish now (order_items_clean fn r))
    order_items (transform_order_items fn now order_items).
Proof.
  split; [|split; [|split]].
  - exact (transformer_loses_rows Bronze.Customers.customer_id
             Bronze.Customers._ingested_at
             SilverRows.Customers.customer_id SilverRows.Customers._ingested_at
             (customers_clean fn) (customers_finish now)
             (fun _ => eq_refl) (fun _ => eq_refl) (fun _ => eq_refl) (fun _ => eq_refl)
             customers).
  - exact (transformer_loses_rows Bronze.Products.product_id
             Bronze.Products._ingested_at
             SilverRows.Products.product_id SilverRows.Products._ingested_at
             (products_clean fn) (products_finish now)
             (fun _ => eq_refl) (fun _ => eq_refl) (fun _ => eq_refl) (fun _ => eq_refl)
             products).
  - exact (transformer_loses_rows Bronze.Orders.order_id
             Bronze.Orders._ingested_at
             SilverRows.Orders.order_id SilverRows.Orders._ingested_at
             (orders_clean fn) (orders_finish now)
             (fun _ => eq_refl) (fun _ => eq_refl) (fun _ => eq_refl) (fun _ => eq_refl)
             orders).
  - exact (transformer_loses_rows Bronze.OrderItems.order_item_id
             Bronze.OrderItems._ingested_at
             SilverRows.OrderItems.order_item_id SilverRows.OrderItems._ingested_at
             (order_items_clean fn) (order_items_finish now)
             (fun _ => eq_refl) (fun _ => eq_refl) (fun _ => eq_refl) (fun _ => eq_refl)
             order_items).
Qed.

(** Three orders with three identifiers are all kept; of the three
    example customers, two of which share CUST-001, one is lost. *)
Lemma silver_loses_rows_only_to_repeated_keys_witness :
  Permutation (transform_orders AsciiFunctions.functions 0 three_orders)
    (map (fun r => orders_finish 0 (orders_clean AsciiFunctions.functions r))
       three_orders)
  /\ List.length (transform_customers AsciiFunctions.functions 0 BronzeExamples.customers)
     <> List.length BronzeExamples.customers.
Proof.
  destruct (silver_loses_rows_only_to_repeated_keys AsciiFunctions.functions 0
              BronzeExamples.customers [] three_orders [])
    as ((_ & Hc & _) & _ & (_ & _ & Ho) & _).
  split.
  - apply Ho. vm_compute. repeat constructor; simpl; intuition discriminate.
  - intros E. apply Hc in E. vm_compute in E.
    inversion E as [|? ? Hn _]. apply Hn. right. left. reflexivity.
Defined.

(** ** Membership in a transformer's output *)

Lemma transform_customers_In fn now df s :
  In s (transform_customers fn now df) ->
  exists r, In r df /\ s = customers_finish now (customers_clean fn r).
Proof.
  apply (proj2 (transformer_dedup Bronze.Customers.customer_id
                  Bronze.Customers._ingested_at
                  SilverRows.Customers.customer_id SilverRows.Customers._ingested_at
                  (customers_clean fn) (customers_finish now)
                  (fun _ => eq_refl) (fun _ => eq_refl) (fun _ => eq_refl)
                  (fun _ => eq_refl) df)).
Qed.

Lemma transform_orders_In fn now df s :
  In s (transform_orders fn now df) ->
  exists r, In r df /\ s = orders_finish now (orders_clean fn r).
Proof.
  apply (proj2 (transformer_dedup Bronze.Orders.order_id Bronze.Orders._ingested_at
                  SilverRows.Orders.order_id SilverRows.Orders._ingested_at
                  (orders_clean fn) (orders_finish now)
                  (fun _ => eq_refl) (fun _ => eq_refl) (fun _ => eq_refl)
                  (fun _ => eq_refl) df)).
Qed.

(** ** Customer segments *)

(** X.  Every Silver customer has a segment, and it follows the account
    age in days counted from [created_at] to the day of the run: "new"
    below 30 days (a [created_at] in the future included), "regular"
    from 30 to 364 days, "established" from 365 days on.  A customer whose
    [created_at] is missing or did not parse has a NULL
    [account_age_days] and is labelled "established". *)
Theorem customer_segment_follows_account_age
    (fn : Functions) (now : timestamp) (df : list Bronze.Customers.row) :
  Forall (fun s =>
    exists seg,
      SilverRows.Customers.segment s = Some seg
      /\ match SilverRows.Customers.created_at s with
         | None =>
             SilverRows.Customers.account_age_days s = None
             /\ seg = "established"%string
         | Some t =>
             let age := (SparkDate.to_date now - SparkDate.to_date t)%Z in
             SilverRows.Customers.account_age_days s = Some age
             /\ (seg = "new"%string <-> (age < 30)%Z)
             /\ (seg = "regular"%string <-> (30 <= age < 365)%Z)
             /\ (seg = "established"%string <-> (365 <= age)%Z)
         end)
    (transform_customers fn now df).
Proof.
  apply Forall_forall. intros s Hs.
  apply transform_customers_In in Hs. destruct Hs as (r & _ & ->).
  unfold customers_finish.
  cbn [SilverRows.Customers.segment SilverRows.Customers.created_at
       SilverRows.Customers.account_age_days].
  eexists. split; [reflexivity|].
  destruct (SilverRows.Customers.created_at (customers_clean fn r)) as [t|].
  - cbv zeta. unfold SparkDate.datediff, Silver.ilt, Silver.on, lift1, lift2, when_otherwise, is_true.
    split; [reflexivity|].
    destruct (Z.ltb_spec (SparkDate.to_date now - SparkDate.to_date t) 30) as [H30|H30].
    + split; [|split]; split; intros ?; try discriminate; try reflexivity; lia.
    + destruct (Z.ltb_spec (SparkDate.to_date now - SparkDate.to_date t) 365)
        as [H365|H365].
      * split; [|split]; split; intros ?; try discriminate; try reflexivity; lia.
      * split; [|split]; split; intros ?; try discriminate; try reflexivity; lia.
  - split; reflexivity.
Qed.

(** ** Date parts of an order *)

(** X.  The date parts of every Silver order come from its parsed
    [order_date]: all five are NULL when the date is missing or did not
    parse; otherwise, for a date not before 0001-01-01, [order_year],
    [order_month] and [order_day] form a valid calendar date, which is
    the day of the timestamp, [order_day_of_week] is in 1..7 and
    [order_week] in 1..53, and the Gold [date_key] of the order date is
    [order_year * 10000 + order_month * 100 + order_day]. *)
Theorem order_date_parts_form_the_order_day
    (fn : Functions) (now : timestamp) (df : list Bronze.Orders.row) :
  Forall (fun s =>
    match SilverRows.Orders.order_date s with
    | None =>
        SilverRows.Orders.order_year s = None
        /\ SilverRows.Orders.order_month s = None
        /\ SilverRows.Orders.order_day s = None
        /\ SilverRows.Orders.order_day_of_week s = None
        /\ SilverRows.Orders.order_week s = None
    | Some t =>
        (1 <= SparkDate.to_date t + SparkDate.EPOCH_ORDINAL)%Z ->
        exists y m d dow w,
          SilverRows.Orders.order_year s = Some y
          /\ SilverRows.Orders.order_month s = Some m
          /\ SilverRows.Orders.order_day s = Some d
          /\ SilverRows.Orders.order_day_of_week s = Some dow
          /\ SilverRows.Orders.order_week s = Some w
          /\ valid_date y m d
          /\ PyDatetime._ymd2ord y m d
             = (SparkDate.to_date t + SparkDate.EPOCH_ORDINAL)%Z
          /\ (1 <= dow <= 7)%Z /\ (1 <= w <= 53)%Z
          /\ FactSales.create_date_key (SilverRows.Orders.order_date s)
             = Some (y * 10000 + m * 100 + d)%Z
    end)
    (transform_orders fn now df).
Proof.
  apply Forall_forall. intros s Hs.
  apply transform_orders_In in Hs. destruct Hs as (r & _ & ->).
  unfold orders_finish, orders_clean.
  cbn [SilverRows.Orders.order_date SilverRows.Orders.order_year
       SilverRows.Orders.order_month SilverRows.Orders.order_day
       SilverRows.Orders.order_day_of_week SilverRows.Orders.order_week].
  destruct (on_opt (to_timestamp fn) (Bronze.Orders.order_date r)) as [t|].
  - intros Ht. unfold on, lift1.
    destruct (DateFacts.date_parts_valid _ Ht) as (_ & Hv & E).
    exists (SparkDate.year (SparkDate.to_date t)),
           (SparkDate.month (SparkDate.to_date t)),
           (SparkDate.dayofmonth (SparkDate.to_date t)),
           (SparkDate.dayofweek (SparkDate.to_date t)),
           (SparkDate.weekofyear (SparkDate.to_date t)).
    repeat (split; [reflexivity|]).
    split; [exact Hv|]. split; [exact E|].
    split; [apply DateFacts.dayofweek_range|].
    split; [apply DateFacts.weekofyear_range; exact Ht|].
    reflexivity.
  - repeat split; reflexivity.
Qed.

End CleaningFacts.

(* ================================================================== *)
(** * From Bronze to the star schema *)

Module PipelineFacts.
Import Spark Silver Relational SparkFacts DedupFacts ListFacts CalendarSpec.
Import CleaningFacts KeysFacts.
Local Open Scope list_scope.

(** ** Keys of the Silver tables *)

Lemma transform_customers_keys (fn : Functions) (now : timestamp)
    (df : list Bronze.Customers.row) :
  NoDup (map SilverRows.Customers.customer_id (transform_customers fn now df)).
Proof.
  exact (transformer_keys_NoDup SilverRows.Customers.customer_id
           SilverRows.Customers._ingested_at
           (customers_clean fn) (customers_finish now) (fun _ => eq_refl) df).
Qed.

Lemma transform_products_keys (fn : Functions) (now : timestamp)
    (df : list Bronze.Products.row) :
  NoDup (map SilverRows.Products.product_id (transform_products fn now df)).
Proof.
  exact (transformer_keys_NoDup SilverRows.Products.product_id
           SilverRows.Products._ingested_at
           (products_clean fn) (products_finish now) (fun _ => eq_refl) df).
Qed.

(** ** Rows found by their surrogate key *)

Lemma find_by_key {A : Type} (key : A -> Z) (l : list A) (a : A) :
  NoDup (map key l) -> In a l ->
  filter (fun x => key x =? key a) l = [a].
Proof.
  intros Hnd Ha. apply CalendarFacts.filter_unique.
  - apply (NoDup_map_inv key). exact Hnd.
  - exact Ha.
  - intros x Hx. rewrite Z.eqb_eq. split.
    + intros E. apply (NoDup_map_In_inj key l Hnd); assumption.
    + intros ->. reflexivity.
Qed.

Lemma dim_customer_keys_NoDup (now : timestamp)
    (customers : list SilverRows.Customers.row) (orders : list SilverRows.Orders.row) :
  NoDup (map GoldRows.DimCustomer.customer_key
           (DimTables.build_dim_customer now customers orders)).
Proof.
  unfold DimTables.build_dim_customer.
  rewrite dim_customer_keys, generate_surrogate_key_keys.
  apply CalendarFacts.zrange_NoDup.
Qed.

Lemma dim_product_keys_NoDup (now : timestamp)
    (products : list SilverRows.Products.row) :
  NoDup (map GoldRows.DimProduct.product_key
           (DimTables.build_dim_product now products)).
Proof.
  unfold DimTables.build_dim_product.
  rewrite dim_product_keys, generate_surrogate_key_keys.
  apply CalendarFacts.zrange_NoDup.
Qed.

(** On Silver tables with unique identifiers, every fact row finds its
    customer and its product in the dimension tables. *)
Lemma fact_rows_join_dimensions (t_dim t_fact : timestamp)
    (orders : list SilverRows.Orders.row)
    (order_items : list SilverRows.OrderItems.row)
    (products : list SilverRows.Products.row)
    (customers : list SilverRows.Customers.row)
    (f : GoldRows.FactSales.row) :
  NoDup (map SilverRows.Customers.customer_id customers) ->
  NoDup (map SilverRows.Products.product_id products) ->
  In f (FactSales.build_fact_sales t_fact orders order_items products customers) ->
  (exists c o,
      filter (fun d => GoldRows.DimCustomer.customer_key d
                       =? GoldRows.FactSales.customer_key f)
        (DimTables.build_dim_customer t_dim customers orders) = [c]
      /\ In o orders
      /\ SilverRows.Orders.order_id o = GoldRows.FactSales.order_id f
      /\ GoldRows.DimCustomer.customer_id c = SilverRows.Orders.customer_id o
      /\ GoldRows.DimCustomer.customer_id c <> None)
  /\ (exists p i,
        filter (fun d => GoldRows.DimProduct.product_key d
                         =? GoldRows.FactSales.product_key f)
          (DimTables.build_dim_product t_dim products) = [p]
        /\ In i order_items
        /\ SilverRows.OrderItems.order_item_id i = GoldRows.FactSales.order_item_id f
        /\ GoldRows.DimProduct.product_id p = SilverRows.OrderItems.product_id i
        /\ GoldRows.FactSales.cost_of_goods f
           = dround2 (dmul (of_int (GoldRows.FactSales.quantity f))
                        (GoldRows.DimProduct.cost p))).
Proof.
  intros Hc Hp Hf. unfold FactSales.build_fact_sales in Hf.
  apply in_map_iff in Hf. destruct Hf as ([j k] & <- & Hj).
  unfold FactSales.keyed_fact_base in Hj.
  apply GoldFacts.generate_surrogate_keys_In, GoldFacts.fact_base_In in Hj.
  cbn [fst] in Hj. destruct Hj as (Hi & Ho & Hcl & Hpl & Ko & Kc & Kp).
  apply key_match_eq in Ko, Kc, Kp.
  destruct Ko as (so & Eo1 & Eo2), Kc as (sc & Ec1 & Ec2), Kp as (sp & Ep1 & Ep2).
  split.
  -
    assert (Hpairs : FactSales.customer_lookup customers
                     = map (fun d => (GoldRows.DimCustomer.customer_id d,
                                      GoldRows.DimCustomer.customer_key d))
                         (DimTables.build_dim_customer t_dim customers orders)).
    { rewrite dim_customer_pairs, customer_lookup_pairs by assumption. reflexivity. }
    rewrite Hpairs in Hcl. apply in_map_iff in Hcl. destruct Hcl as (c & Ec & Hcin).
    exists c, (FactSales.j_order j).
    assert (Ekey : GoldRows.FactSales.customer_key (FactSales.fact_row t_fact (j, k))
                   = GoldRows.DimCustomer.customer_key c).
    { cbn [FactSales.fact_row GoldRows.FactSales.customer_key]. rewrite <- Ec.
      reflexivity. }
    assert (Eid : GoldRows.DimCustomer.customer_id c = fst (FactSales.j_customer j))
      by (rewrite <- Ec; reflexivity).
    split.
    + rewrite Ekey. apply find_by_key; [apply dim_customer_keys_NoDup | exact Hcin].
    + split; [exact Ho|]. split.
      * cbn [FactSales.fact_row GoldRows.FactSales.order_id]. congruence.
      * split; congruence.
  - assert (Hpairs : FactSales.product_lookup products
                     = map (fun d => (GoldRows.DimProduct.product_id d,
                                      GoldRows.DimProduct.cost d,
                                      GoldRows.DimProduct.product_key d))
                         (DimTables.build_dim_product t_dim products)).
    { rewrite dim_product_pairs, product_lookup_pairs by assumption. reflexivity. }
    rewrite Hpairs in Hpl. apply in_map_iff in Hpl. destruct Hpl as (p & Ep & Hpin).
    exists p, (FactSales.j_item j).
    assert (Ekey : GoldRows.FactSales.product_key (FactSales.fact_row t_fact (j, k))
                   = GoldRows.DimProduct.product_key p).
    { cbn [FactSales.fact_row GoldRows.FactSales.product_key]. rewrite <- Ep.
      reflexivity. }
    split.
    + rewrite Ekey. apply find_by_key; [apply dim_product_keys_NoDup | exact Hpin].
    + split; [exact Hi|]. split; [reflexivity|]. split.
      * rewrite Ep1, <- Ep2, <- Ep. reflexivity.
      * cbn [FactSales.fact_row GoldRows.FactSales.cost_of_goods
             GoldRows.FactSales.quantity].
        rewrite <- Ep. reflexivity.
Qed.

(** X.  Run end to end, the pipeline builds a consistent star schema,
    whatever the Bronze tables hold: with the Silver tables made by the
    four transformers and the dimensions and the fact table built from
    them, every row of [fact_sales] finds exactly one row of
    [dim_customer] by its [customer_key], and that row is the customer of
    the row's order; it finds exactly one row of [dim_product] by its
    [product_key], that row is the product of the row's order item, and
    the row's [cost_of_goods] is its quantity times that product's cost,
    rounded to cents. *)
Theorem pipeline_fact_rows_join_one_row_of_each_dimension
    (fn : Functions) (t1 t2 t3 t4 t_dim t_fact : timestamp)
    (bronze_customers : list Bronze.Customers.row)
    (bronze_products : list Bronze.Products.row)
    (bronze_orders : list Bronze.Orders.row)
    (bronze_order_items : list Bronze.OrderItems.row) :
  let customers := transform_customers fn t1 bronze_customers in
  let products := transform_products fn t2 bronze_products in
  let orders := transform_orders fn t3 bronze_orders in
  let order_items := transform_order_items fn t4 bronze_order_items in
  Forall (fun f =>
    (exists c o,
        filter (fun d => GoldRows.DimCustomer.customer_key d
                         =? GoldRows.FactSales.customer_key f)
          (DimTables.build_dim_customer t_dim customers orders) = [c]
        /\ In o orders
        /\ SilverRows.Orders.order_id o = GoldRows.FactSales.order_id f
        /\ GoldRows.DimCustomer.customer_id c = SilverRows.Orders.customer_id o
        /\ GoldRows.DimCustomer.customer_id c <> None)
    /\ (exists p i,
          filter (fun d => GoldRows.DimProduct.product_key d
                           =? GoldRows.FactSales.product_key f)
            (DimTables.build_dim_product t_dim products) = [p]
          /\ In i order_items
          /\ SilverRows.OrderItems.order_item_id i = GoldRows.FactSales.order_item_id f
          /\ GoldRows.DimProduct.product_id p = SilverRows.OrderItems.product_id i
          /\ GoldRows.FactSales.cost_of_goods f
             = dround2 (dmul (of_int (GoldRows.FactSales.quantity f))
                          (GoldRows.DimProduct.cost p))))
    (FactSales.build_fact_sales t_fact orders order_items products customers).
Proof.
  intros customers products orders order_items.
  apply Forall_forall. intros f Hf.
  apply (fact_rows_join_dimensions t_dim t_fact orders order_items products customers).
  - apply transform_customers_keys.
  - apply transform_products_keys.
  - exact Hf.
Qed.

End PipelineFacts.

(* ================================================================== *)
(** * The daily sales summary *)

Module AggregateFacts.
Import Spark Relational FactAggregates AggregateSpec SparkFacts DedupFacts ListFacts.
Local Open Scope list_scope.

(** ** Grouping *)

Lemma group_zeqb_eq (a b : option Z) : group_zeqb a b = true <-> a = b.
Proof.
  destruct a as [x|], b as [y|]; simpl; split; intros H;
    try discriminate; try reflexivity.
  - apply Z.eqb_eq in H. congruence.
  - injection H as ->. apply Z.eqb_refl.
Qed.

Lemma same_day_country_eq (a b : option Z * option string) :
  same_day_country a b = true <-> a = b.
Proof.
  unfold same_day_country. destruct a as [a1 a2], b as [b1 b2]. cbn [fst snd].
  rewrite andb_true_iff, group_zeqb_eq, group_eqb_eq. split.
  - intros [-> ->]. reflexivity.
  - intros H. injection H as -> ->. split; reflexivity.
Qed.

Section Groups.
Context {A K : Type} (key : A -> K) (eqb : K -> K -> bool).
Hypothesis eqb_eq : forall a b, eqb a b = true <-> a = b.

Lemma filter_disjoint_app (p q : A -> bool) (l : list A) :
  (forall x, In x l -> p x && q x = false) ->
  Permutation (filter p l ++ filter q l) (filter (fun x => p x || q x) l).
Proof.
  induction l as [|a l IH]; intros H; [reflexivity|].
  assert (IH' : Permutation (filter p l ++ filter q l)
                  (filter (fun x => p x || q x) l))
    by (apply IH; intros x Hx; apply H; right; exact Hx).
  pose proof (H a (or_introl eq_refl)) as Ha. cbn [filter].
  destruct (p a), (q a); cbn [orb]; try discriminate.
  - cbn [app]. constructor. exact IH'.
  - symmetry. etransitivity; [constructor; symmetry; exact IH'|].
    apply Permutation_middle.
  - exact IH'.
Qed.

(** The groups of the keys [ks], put end to end, are the rows whose key
    is among [ks]. *)
Lemma groups_cover (l : list A) (ks : list K) :
  NoDup ks ->
  Permutation (flat_map (fun k => filter (fun x => eqb (key x) k) l) ks)
    (filter (fun x => existsb (eqb (key x)) ks) l).
Proof.
  induction 1 as [|k ks Hk Hnd IH]; cbn [flat_map existsb].
  - rewrite (proj2 (filter_nil_iff (fun _ => false) l)); [reflexivity|].
    intros; reflexivity.
  - etransitivity; [apply Permutation_app_head; exact IH|].
    apply filter_disjoint_app. intros x _.
    destruct (eqb (key x) k) eqn:E; [|reflexivity]. cbn [andb].
    apply eqb_eq in E. subst k.
    destruct (existsb (eqb (key x)) ks) eqn:E'; [|reflexivity].
    apply existsb_exists in E'. destruct E' as (k' & Hk' & E').
    apply eqb_eq in E'. subst k'. contradiction.
Qed.

(** Grouping by [key] splits the frame: every row is in exactly one
    group. *)
Lemma groups_partition (l : list A) :
  Permutation
    (flat_map (fun k => filter (fun x => eqb (key x) k) l)
       (distinct_by eqb (map key l)))
    l.
Proof.
  etransitivity; [apply groups_cover, distinct_by_NoDup, eqb_eq|].
  rewrite filter_all; [reflexivity|].
  intros x Hx. apply existsb_exists. exists (key x). split.
  - apply (distinct_by_In_iff eqb eqb_eq). apply in_map. exact Hx.
  - apply eqb_eq. reflexivity.
Qed.

End Groups.

(** ** Totals *)

Lemma present_app {A : Type} (l1 l2 : list (option A)) :
  present (l1 ++ l2) = present l1 ++ present l2.
Proof.
  induction l1 as [|[x|] l1 IH]; cbn [present app]; [reflexivity| |exact IH].
  rewrite IH. reflexivity.
Qed.

Lemma present_perm {A : Type} (l1 l2 : list (option A)) :
  Permutation l1 l2 -> Permutation (present l1) (present l2).
Proof.
  induction 1 as [|[x|] l1 l2 _ IH|[x|] [y|] l|l1 l2 l3 _ IH1 _ IH2];
    cbn [present]; try reflexivity; try assumption.
  - constructor. exact IH.
  - apply perm_swap.
  - etransitivity; eassumption.
Qed.

Lemma present_In {A : Type} (l : list (option A)) (x : A) :
  In x (present l) <-> In (Some x) l.
Proof.
  induction l as [|[y|] l IH]; cbn [present In].
  - reflexivity.
  - rewrite IH. split; (intros [H|H]; [left; congruence | right; exact H]).
  - rewrite IH. split; [intros H; right; exact H | intros [H|H]; [discriminate|exact H]].
Qed.

Lemma total_int_app (l1 l2 : list (option Z)) :
  total_int (l1 ++ l2) = total_int l1 + total_int l2.
Proof.
  unfold total_int. rewrite present_app.
  induction (present l1) as [|x l IH]; cbn [app fold_right]; lia.
Qed.

Lemma total_int_perm (l1 l2 : list (option Z)) :
  Permutation l1 l2 -> total_int l1 = total_int l2.
Proof.
  intros H. apply present_perm in H. unfold total_int.
  induction H; cbn [fold_right]; lia.
Qed.

Lemma fold_left_add (xs : list Z) (a : Z) :
  fold_left Z.add xs a = a + fold_right Z.add 0 xs.
Proof.
  revert a. induction xs as [|x xs IH]; intros a; cbn [fold_left fold_right]; [lia|].
  rewrite IH. lia.
Qed.

Lemma agg_sum_int_total (l : list (option Z)) (rest : list (option Z)) :
  total_int (agg_sum_int l :: rest) = total_int l + total_int rest.
Proof.
  unfold agg_sum_int, total_int. destruct (present l) as [|x xs].
  - reflexivity.
  - cbn [present fold_right]. rewrite fold_left_add. lia.
Qed.

Lemma total_int_groups {K A : Type} (c : A -> option Z) (G : K -> list A)
    (ks : list K) :
  total_int (map (fun k => agg_sum_int (map c (G k))) ks)
  = total_int (map c (flat_map G ks)).
Proof.
  induction ks as [|k ks IH]; [reflexivity|].
  cbn [map flat_map]. rewrite agg_sum_int_total, map_app, total_int_app, IH.
  reflexivity.
Qed.

Lemma total_double_app (l1 l2 : list (option double)) :
  (total_double (l1 ++ l2) == total_double l1 + total_double l2)%Q.
Proof.
  unfold total_double. rewrite present_app.
  induction (present l1) as [|x l IH]; cbn [app fold_right]; [lra|].
  rewrite IH. lra.
Qed.

Lemma total_double_perm (l1 l2 : list (option double)) :
  Permutation l1 l2 -> (total_double l1 == total_double l2)%Q.
Proof.
  intros H. apply present_perm in H. unfold total_double.
  induction H as [|x l l' _ IH|x y l|l l' l'' _ IH1 _ IH2]; cbn [fold_right].
  - reflexivity.
  - rewrite IH. reflexivity.
  - lra.
  - rewrite IH1. exact IH2.
Qed.

Lemma fold_left_Qplus (xs : list Q) (a : Q) :
  (fold_left Qplus xs a == a + fold_right Qplus 0 xs)%Q.
Proof.
  revert a. induction xs as [|x xs IH]; intros a; cbn [fold_left fold_right]; [lra|].
  rewrite IH. lra.
Qed.

Lemma agg_sum_total (l : list (option double)) (rest : list (option double)) :
  (total_double (agg_sum l :: rest) == total_double l + total_double rest)%Q.
Proof.
  unfold agg_sum, total_double. destruct (present l) as [|x xs].
  - cbn [present fold_right]. lra.
  - cbn [present fold_right]. rewrite fold_left_Qplus. lra.
Qed.

Lemma total_double_groups {K A : Type} (c : A -> option double) (G : K -> list A)
    (ks : list K) :
  (total_double (map (fun k => agg_sum (map c (G k))) ks)
   == total_double (map c (flat_map G ks)))%Q.
Proof.
  induction ks as [|k ks IH]; [reflexivity|].
  cbn [map flat_map]. rewrite agg_sum_total, map_app, total_double_app, IH.
  reflexivity.
Qed.

(** ** The summary table *)

Lemma sales_partition (fact_sales : list GoldRows.FactSales.row) :
  Permutation
    (flat_map (sales_of fact_sales)
       (distinct_by same_day_country (map day_country fact_sales)))
    fact_sales.
Proof. apply (groups_partition day_country same_day_country same_day_country_eq). Qed.

Lemma summary_keys (now : timestamp) (fact_sales : list GoldRows.FactSales.row) :
  map summary_day_country (build_daily_sales_summary now fact_sales)
  = distinct_by same_day_country (map day_country fact_sales).
Proof.
  unfold build_daily_sales_summary. rewrite map_map.
  rewrite (map_ext _ (fun k => k)); [apply map_id|].
  intros [d c]. reflexivity.
Qed.

Lemma summary_In (now : timestamp) (fact_sales : list GoldRows.FactSales.row)
    (r : AggRows.DailySales.row) :
  In r (build_daily_sales_summary now fact_sales)
  <-> exists f, In f fact_sales
                /\ r = daily_row now (day_country f) (sales_of fact_sales (day_country f)).
Proof.
  unfold build_daily_sales_summary. rewrite in_map_iff. split.
  - intros (k & <- & Hk).
    apply (proj1 (distinct_by_In_iff same_day_country same_day_country_eq _ _)) in Hk.
    apply in_map_iff in Hk. destruct Hk as (f & <- & Hf). exists f. auto.
  - intros (f & Hf & ->). exists (day_country f). split; [reflexivity|].
    apply (distinct_by_In_iff same_day_country same_day_country_eq).
    apply in_map. exact Hf.
Qed.

Lemma summary_column {B : Type} (now : timestamp)
    (fact_sales : list GoldRows.FactSales.row)
    (col : AggRows.DailySales.row -> B)
    (agg : list GoldRows.FactSales.row -> B) :
  (forall k g, col (daily_row now k g) = agg g) ->
  map col (build_daily_sales_summary now fact_sales)
  = map (fun k => agg (sales_of fact_sales k))
      (distinct_by same_day_country (map day_country fact_sales)).
Proof.
  intros H. unfold build_daily_sales_summary. rewrite map_map.
  apply map_ext. intros k. apply H.
Qed.

(** X.  [build_daily_sales_summary] splits the fact table by day and
    shipping country (NULL being a day, or a country, of its own): no two
    summary rows share the pair, every fact row belongs to exactly one
    summary row, and every summary row stands for at least one fact row.
    Nothing is lost or counted twice: each of the totals
    [total_items_sold], [gross_revenue], [net_revenue] and [total_profit],
    summed over the summary, is the total of the column over the fact
    table (NULLs left out on both sides). *)
Theorem daily_summary_splits_the_fact_table (now : timestamp)
    (fact_sales : list GoldRows.FactSales.row) :
  let summary := build_daily_sales_summary now fact_sales in
  NoDup (map summary_day_country summary)
  /\ Forall (fun f =>
       exists r,
         filter (fun r => same_day_country (summary_day_country r) (day_country f))
           summary = [r])
       fact_sales
  /\ Forall (fun r =>
       exists f, In f fact_sales /\ day_country f = summary_day_country r)
       summary
  /\ total_int (map AggRows.DailySales.total_items_sold summary)
     = total_int (map GoldRows.FactSales.quantity fact_sales)
  /\ (total_double (map AggRows.DailySales.gross_revenue summary)
      == total_double (map GoldRows.FactSales.gross_revenue fact_sales))%Q
  /\ (total_double (map AggRows.DailySales.net_revenue summary)
      == total_double (map GoldRows.FactSales.net_revenue fact_sales))%Q
  /\ (total_double (map AggRows.DailySales.total_profit summary)
      == total_double (map GoldRows.FactSales.profit fact_sales))%Q.
Proof.
  intros summary.
  assert (Hnd : NoDup (map summary_day_country summary)).
  { unfold summary. rewrite summary_keys.
    apply distinct_by_NoDup. exact same_day_country_eq. }
  split; [exact Hnd|]. split; [|split].
  - apply Forall_forall. intros f Hf.
    exists (daily_row now (day_country f) (sales_of fact_sales (day_country f))).
    apply CalendarFacts.filter_unique.
    + apply (NoDup_map_inv summary_day_country). exact Hnd.
    + apply summary_In. exists f. auto.
    + intros x Hx. rewrite same_day_country_eq. split.
      * intros E. apply summary_In in Hx. destruct Hx as (f' & _ & ->).
        change (summary_day_country (daily_row now (day_country f')
                  (sales_of fact_sales (day_country f'))))
          with (fst (day_country f'), snd (day_country f')) in E.
        rewrite <- surjective_pairing in E. rewrite E. reflexivity.
      * intros ->. unfold summary_day_country, daily_row. cbn.
        symmetry. apply surjective_pairing.
  - apply Forall_forall. intros r Hr. apply summary_In in Hr.
    destruct Hr as (f & Hf & ->). exists f. split; [exact Hf|].
    unfold summary_day_country, daily_row. cbn. apply surjective_pairing.
  - unfold summary. split; [|split; [|split]].
    + rewrite (summary_column now fact_sales AggRows.DailySales.total_items_sold
                 (fun g => agg_sum_int (map GoldRows.FactSales.quantity g)))
        by reflexivity.
      rewrite (total_int_groups GoldRows.FactSales.quantity (sales_of fact_sales)).
      apply total_int_perm, Permutation_map, sales_partition.
    + rewrite (summary_column now fact_sales AggRows.DailySales.gross_revenue
                 (fun g => agg_sum (map GoldRows.FactSales.gross_revenue g)))
        by reflexivity.
      rewrite (total_double_groups GoldRows.FactSales.gross_revenue
                 (sales_of fact_sales)).
      apply total_double_perm, Permutation_map, sales_partition.
    + rewrite (summary_column now fact_sales AggRows.DailySales.net_revenue
                 (fun g => agg_sum (map GoldRows.FactSales.net_revenue g)))
        by reflexivity.
      rewrite (total_double_groups GoldRows.FactSales.net_revenue
                 (sales_of fact_sales)).
      apply total_double_perm, Permutation_map, sales_partition.
    + rewrite (summary_column now fact_sales AggRows.DailySales.total_profit
                 (fun g => agg_sum (map GoldRows.FactSales.profit g)))
        by reflexivity.
      rewrite (total_double_groups GoldRows.FactSales.profit (sales_of fact_sales)).
      apply total_double_perm, Permutation_map, sales_partition.
Qed.

(** ** The two ratios *)

Lemma nodup_nonempty {A : Type} (dec : forall x y : A, {x = y} + {x <> y})
    (l : list A) (x : A) :
  In x l -> (1 <= List.length (nodup dec l))%nat.
Proof.
  intros H. apply (nodup_In dec) in H.
  destruct (nodup dec l); [contradiction | simpl; lia].
Qed.

Lemma nodup_empty {A : Type} (dec : forall x y : A, {x = y} + {x <> y})
    (l : list A) :
  List.length (nodup dec l) = 0%nat <-> l = [].
Proof.
  split; [|intros ->; reflexivity].
  destruct l as [|x l]; [reflexivity|]. intros H.
  pose proof (nodup_nonempty dec (x :: l) x (or_introl eq_refl)). lia.
Qed.

Lemma Qeq_bool_inject_Z (n : Z) : Qeq_bool (inject_Z n) 0 = (n =? 0)%Z.
Proof.
  apply Bool.eq_iff_eq_true. rewrite Qeq_bool_iff, Z.eqb_eq.
  unfold Qeq, inject_Z. cbn [Qnum Qden]. lia.
Qed.

(** A ratio by the number of orders is NULL when its numerator is, or
    when there is no order to divide by. *)
Lemma ratio_null (a : option double) (n : Z) :
  dround2 (ddiv a (of_int (Some n))) = None <-> a = None \/ n = 0%Z.
Proof.
  unfold dround2, ddiv, of_int, lift1. rewrite Qeq_bool_inject_Z.
  destruct a as [x|].
  - destruct (Z.eqb_spec n 0); split; intros H; try discriminate; auto.
    destruct H as [H|H]; [discriminate | contradiction].
  - split; auto.
Qed.

Lemma of_int_null (a : option Z) : of_int a = None <-> a = None.
Proof. destruct a; split; intros H; try discriminate; reflexivity. Qed.

Lemma sales_of_In (fact_sales : list GoldRows.FactSales.row)
    (f : GoldRows.FactSales.row) :
  In f fact_sales -> In f (sales_of fact_sales (day_country f)).
Proof.
  intros H. apply filter_In. split; [exact H|].
  apply same_day_country_eq. reflexivity.
Qed.

(** The rows of [build_fact_sales] carry the identifier of their order. *)
Lemma build_fact_sales_order_id (now : timestamp)
    (orders : list SilverRows.Orders.row)
    (order_items : list SilverRows.OrderItems.row)
    (products : list SilverRows.Products.row)
    (customers : list SilverRows.Customers.row) (f : GoldRows.FactSales.row) :
  In f (FactSales.build_fact_sales now orders order_items products customers) ->
  exists s, GoldRows.FactSales.order_id f = Some s.
Proof.
  unfold FactSales.build_fact_sales. intros H. apply in_map_iff in H.
  destruct H as ([j k] & <- & Hj). unfold FactSales.keyed_fact_base in Hj.
  apply GoldFacts.generate_surrogate_keys_In, GoldFacts.fact_base_In in Hj.
  destruct Hj as (_ & _ & _ & _ & Ko & _). cbn [fst] in Ko.
  apply key_match_eq in Ko. destruct Ko as (s & Hs & _).
  exists s. exact Hs.
Qed.

(** X.  The two ratios of the daily summary, [avg_order_value] and
    [items_per_order], divide by the number of distinct non-NULL order
    identifiers of the group: they are NULL exactly when their numerator
    is NULL or that number is 0, which happens exactly when every row of
    the group has a NULL [order_id].  On a fact table made by
    [build_fact_sales] this never happens: every summary row counts at
    least one order and one customer, and a ratio is NULL only when its
    numerator is. *)
Theorem daily_summary_ratios_divide_by_orders (now : timestamp) :
  (forall fact_sales,
     Forall (fun r =>
       (0 <= AggRows.DailySales.total_orders r)%Z
       /\ (AggRows.DailySales.total_orders r = 0%Z
           <-> forall f, In f (sales_of fact_sales (summary_day_country r)) ->
                         GoldRows.FactSales.order_id f = None)
       /\ (AggRows.DailySales.avg_order_value r = None
           <-> AggRows.DailySales.net_revenue r = None
               \/ AggRows.DailySales.total_orders r = 0%Z)
       /\ (AggRows.DailySales.items_per_order r = None
           <-> AggRows.DailySales.total_items_sold r = None
               \/ AggRows.DailySales.total_orders r = 0%Z))
       (build_daily_sales_summary now fact_sales))
  /\ (forall t orders order_items products customers,
        Forall (fun r =>
          (1 <= AggRows.DailySales.total_orders r)%Z
          /\ (1 <= AggRows.DailySales.unique_customers r)%Z
          /\ (AggRows.DailySales.avg_order_value r = None
              <-> AggRows.DailySales.net_revenue r = None)
          /\ (AggRows.DailySales.items_per_order r = None
              <-> AggRows.DailySales.total_items_sold r = None))
          (build_daily_sales_summary now
             (FactSales.build_fact_sales t orders order_items products customers))).
Proof.
  split.
  - intros fact_sales. apply Forall_forall. intros r Hr.
    apply summary_In in Hr. destruct Hr as (f0 & Hf0 & ->).
    set (k := day_country f0). set (g := sales_of fact_sales k).
    assert (Ek : summary_day_country (daily_row now k g) = k)
      by (unfold summary_day_country, daily_row; cbn; symmetry;
          apply surjective_pairing).
    rewrite Ek. fold g.
    unfold daily_row.
    cbn [AggRows.DailySales.total_orders AggRows.DailySales.avg_order_value
         AggRows.DailySales.items_per_order AggRows.DailySales.net_revenue
         AggRows.DailySales.total_items_sold].
    split; [unfold countDistinct_str; lia|]. split; [|split].
    + unfold countDistinct_str.
      rewrite <- Nat2Z.inj_0, Nat2Z.inj_iff, nodup_empty. split.
      * intros E f Hf.
        destruct (GoldRows.FactSales.order_id f) as [s|] eqn:Es; [|reflexivity].
        assert (Hin : In s (present (map GoldRows.FactSales.order_id g))).
        { apply present_In. rewrite <- Es. apply in_map. exact Hf. }
        rewrite E in Hin. contradiction.
      * intros H.
        destruct (present (map GoldRows.FactSales.order_id g)) as [|s l] eqn:E;
          [reflexivity|].
        assert (Hin : In s (present (map GoldRows.FactSales.order_id g)))
          by (rewrite E; left; reflexivity).
        apply present_In, in_map_iff in Hin. destruct Hin as (f & Ef & Hf).
        rewrite (H f Hf) in Ef. discriminate.
    + apply ratio_null.
    + rewrite ratio_null, of_int_null. reflexivity.
  - intros t orders order_items products customers.
    set (fact_sales := FactSales.build_fact_sales t orders order_items products
                         customers).
    apply Forall_forall. intros r Hr.
    apply summary_In in Hr. destruct Hr as (f0 & Hf0 & ->).
    set (g := sales_of fact_sales (day_country f0)).
    assert (Hg : In f0 g) by (apply sales_of_In; exact Hf0).
    destruct (build_fact_sales_order_id _ _ _ _ _ _ Hf0) as (s & Es).
    assert (Ho : (1 <= countDistinct_str (map GoldRows.FactSales.order_id g))%Z).
    { unfold countDistinct_str.
      pose proof (nodup_nonempty string_dec
                    (present (map GoldRows.FactSales.order_id g)) s) as H.
      assert (Hin : In s (present (map GoldRows.FactSales.order_id g))).
      { apply present_In. rewrite <- Es. apply in_map. exact Hg. }
      specialize (H Hin). lia. }
    unfold daily_row.
    cbn [AggRows.DailySales.total_orders AggRows.DailySales.avg_order_value
         AggRows.DailySales.items_per_order AggRows.DailySales.net_revenue
         AggRows.DailySales.total_items_sold AggRows.DailySales.unique_customers].
    split; [exact Ho|]. split; [|split].
    + unfold countDistinct_int.
      pose proof (nodup_nonempty Z.eq_dec
                    (present (map (fun f => Some (GoldRows.FactSales.customer_key f)) g))
                    (GoldRows.FactSales.customer_key f0)) as H.
      assert (Hin : In (GoldRows.FactSales.customer_key f0)
                      (present (map (fun f => Some (GoldRows.FactSales.customer_key f))
                                  g))).
      { apply present_In.
        apply (in_map (fun f => Some (GoldRows.FactSales.customer_key f))).
        exact Hg. }
      specialize (H Hin). lia.
    + rewrite ratio_null. split; [intros [H|H]; [exact H | lia] | auto].
    + rewrite ratio_null, of_int_null. split; [intros [H|H]; [exact H | lia] | auto].
Qed.

End AggregateFacts.

(* ================================================================== *)
(** * The Bronze job *)

Module IngestFacts.
Import Spark Relational IngestSpec SparkFacts DedupFacts ListFacts.
Local Open Scope list_scope.

(** ** One table *)

Lemma get_SCHEMAS_known (table_name : string) :
  Ingest.get Ingest.SCHEMAS table_name <> None <-> known_table table_name.
Proof.
  unfold known_table, Ingest.SCHEMAS. cbn [Ingest.get In].
  destruct (String.eqb_spec "customers" table_name) as [E1|E1];
    [split; intros _; [auto | discriminate]|].
  destruct (String.eqb_spec "products" table_name) as [E2|E2];
    [split; intros _; [auto | discriminate]|].
  destruct (String.eqb_spec "orders" table_name) as [E3|E3];
    [split; intros _; [auto | discriminate]|].
  destruct (String.eqb_spec "order_items" table_name) as [E4|E4];
    [split; intros _; [auto | discriminate]|].
  split; [intros H; exfalso; apply H; reflexivity|].
  intros [H|[H|[H|[H|[]]]]]; contradiction.
Qed.

Lemma ingest_table_raises (now : timestamp) (source_bucket : string)
    (raw bronze : Ingest.tables) (table_name : string) :
  Ingest.ingest_table now source_bucket raw bronze table_name = None
  <-> ~ known_table table_name.
Proof.
  rewrite <- get_SCHEMAS_known. unfold Ingest.ingest_table.
  destruct (Ingest.get Ingest.SCHEMAS table_name) as [[| | |]|]; split; intros H;
    try discriminate; try reflexivity; try (exfalso; apply H; discriminate).
  intros H'. apply H'. reflexivity.
Qed.

(** Skipping an empty frame and appending it are the same. *)
Lemma ingest_frame_appends {A : Type} `{Ingest.Lineage A} (now : timestamp)
    (df : list A) (path : string) (write : list A -> Ingest.tables)
    (bronze : Ingest.tables) :
  write [] = bronze ->
  Ingest.ingest_frame now df path write bronze
  = write (Ingest.add_bronze_metadata now df path).
Proof.
  intros Hw. unfold Ingest.ingest_frame.
  destruct df as [|r df]; [symmetry; exact Hw|].
  replace (Z.of_nat (List.length (r :: df)) =? 0) with false; [reflexivity|].
  symmetry. apply Z.eqb_neq. cbn [List.length]. lia.
Qed.

Lemma ingest_customers (now : timestamp) (source_bucket : string)
    (raw bronze : Ingest.tables) :
  Ingest.ingest_table now source_bucket raw bronze "customers"
  = Some (Ingest.append_customers bronze
            (Ingest.add_bronze_metadata now (Ingest.customers raw)
               (Ingest.source_path source_bucket "customers"))).
Proof.
  unfold Ingest.ingest_table. cbn [Ingest.get Ingest.SCHEMAS String.eqb Ascii.eqb
    Bool.eqb]. cbv iota. f_equal. apply ingest_frame_appends.
  destruct bronze. unfold Ingest.append_customers. cbn. rewrite app_nil_r. reflexivity.
Qed.

Lemma ingest_products (now : timestamp) (source_bucket : string)
    (raw bronze : Ingest.tables) :
  Ingest.ingest_table now source_bucket raw bronze "products"
  = Some (Ingest.append_products bronze
            (Ingest.add_bronze_metadata now (Ingest.products raw)
               (Ingest.source_path source_bucket "products"))).
Proof.
  unfold Ingest.ingest_table. cbn [Ingest.get Ingest.SCHEMAS String.eqb Ascii.eqb
    Bool.eqb]. cbv iota. f_equal. apply ingest_frame_appends.
  destruct bronze. unfold Ingest.append_products. cbn. rewrite app_nil_r. reflexivity.
Qed.

Lemma ingest_orders (now : timestamp) (source_bucket : string)
    (raw bronze : Ingest.tables) :
  Ingest.ingest_table now source_bucket raw bronze "orders"
  = Some (Ingest.append_orders bronze
            (Ingest.add_bronze_metadata now (Ingest.orders raw)
               (Ingest.source_path source_bucket "orders"))).
Proof.
  unfold Ingest.ingest_table. cbn [Ingest.get Ingest.SCHEMAS String.eqb Ascii.eqb
    Bool.eqb]. cbv iota. f_equal. apply ingest_frame_appends.
  destruct bronze. unfold Ingest.append_orders. cbn. rewrite app_nil_r. reflexivity.
Qed.

Lemma ingest_order_items (now : timestamp) (source_bucket : string)
    (raw bronze : Ingest.tables) :
  Ingest.ingest_table now source_bucket raw bronze "order_items"
  = Some (Ingest.append_order_items bronze
            (Ingest.add_bronze_metadata now (Ingest.order_items raw)
               (Ingest.source_path source_bucket "order_items"))).
Proof.
  unfold Ingest.ingest_table. cbn [Ingest.get Ingest.SCHEMAS String.eqb Ascii.eqb
    Bool.eqb]. cbv iota. f_equal. apply ingest_frame_appends.
  destruct bronze. unfold Ingest.append_order_items. cbn. rewrite app_nil_r.
  reflexivity.
Qed.

(** ** Appending only *)

Lemma extends_refl (a : Ingest.tables) : extends a a.
Proof.
  repeat split; exists []; rewrite app_nil_r; reflexivity.
Qed.

Lemma extends_trans (a b c : Ingest.tables) : extends a b -> extends b c -> extends a c.
Proof.
  intros ((c1 & E1) & (p1 & E2) & (o1 & E3) & (i1 & E4))
         ((c2 & F1) & (p2 & F2) & (o2 & F3) & (i2 & F4)).
  repeat split.
  - exists (c1 ++ c2). rewrite F1, E1, app_assoc. reflexivity.
  - exists (p1 ++ p2). rewrite F2, E2, app_assoc. reflexivity.
  - exists (o1 ++ o2). rewrite F3, E3, app_assoc. reflexivity.
  - exists (i1 ++ i2). rewrite F4, E4, app_assoc. reflexivity.
Qed.

Lemma ingest_table_extends (now : timestamp) (source_bucket : string)
    (raw bronze bronze' : Ingest.tables) (table_name : string) :
  Ingest.ingest_table now source_bucket raw bronze table_name = Some bronze' ->
  extends bronze bronze'.
Proof.
  intros H.
  assert (Hk : known_table table_name).
  { apply get_SCHEMAS_known. unfold Ingest.ingest_table in H.
    destruct (Ingest.get Ingest.SCHEMAS table_name); [discriminate | discriminate H]. }
  destruct Hk as [<-|[<-|[<-|[<-|[]]]]].
  - rewrite ingest_customers in H. injection H as <-.
    repeat split; cbn; try (exists []; rewrite app_nil_r; reflexivity).
    eexists. reflexivity.
  - rewrite ingest_products in H. injection H as <-.
    repeat split; cbn; try (exists []; rewrite app_nil_r; reflexivity).
    eexists. reflexivity.
  - rewrite ingest_orders in H. injection H as <-.
    repeat split; cbn; try (exists []; rewrite app_nil_r; reflexivity).
    eexists. reflexivity.
  - rewrite ingest_order_items in H. injection H as <-.
    repeat split; cbn; try (exists []; rewrite app_nil_r; reflexivity).
    eexists. reflexivity.
Qed.

(** ** The loop over the tables *)

Lemma process_tables_outcome (clock : nat -> timestamp) (source_bucket : string)
    (raw : Ingest.tables) (table_names : list string) :
  forall (i : nat) (bronze : Ingest.tables),
  match Ingest.process_tables clock i source_bucket raw table_names bronze with
  | Ingest.Committed bronze' =>
      Forall known_table table_names /\ extends bronze bronze'
  | Ingest.Failed bronze' =>
      extends bronze bronze'
      /\ exists before bad rest,
          table_names = before ++ bad :: rest
          /\ Forall known_table before
          /\ ~ known_table bad
          /\ Ingest.process_tables clock i source_bucket raw before bronze
             = Ingest.Committed bronze'
  end.
Proof.
  induction table_names as [|t ts IH]; intros i bronze; cbn [Ingest.process_tables].
  - split; [constructor | apply extends_refl].
  - destruct (Ingest.ingest_table (clock i) source_bucket raw bronze t) as [b1|] eqn:E.
    + assert (Ht : known_table t).
      { destruct (proj1 (get_SCHEMAS_known t)) as [H|H]; [|left; exact H|right; exact H].
        intros Hn. unfold Ingest.ingest_table in E. rewrite Hn in E. discriminate. }
      pose proof (ingest_table_extends _ _ _ _ _ _ E) as Hext.
      specialize (IH (S i) b1).
      destruct (Ingest.process_tables clock (S i) source_bucket raw ts b1) as [b2|b2].
      * destruct IH as [Hall Hx]. split; [constructor; assumption|].
        apply (extends_trans _ _ _ Hext Hx).
      * destruct IH as (Hx & before & bad & rest & -> & Hb & Hbad & Hrun).
        split; [apply (extends_trans _ _ _ Hext Hx)|].
        exists (t :: before), bad, rest.
        split; [reflexivity|]. split; [constructor; assumption|].
        split; [exact Hbad|]. cbn [Ingest.process_tables]. rewrite E. exact Hrun.
    + split; [apply extends_refl|]. exists [], t, ts.
      split; [reflexivity|]. split; [constructor|].
      split; [apply ingest_table_raises in E; exact E | reflexivity].
Qed.

(** X.  A run of the Bronze job over a list of table names ends in one
    of two ways.  It commits exactly when every name is one of customers,
    products, orders and order_items.  Otherwise it fails at the first
    other name, and fails half-way: the tables listed before that name
    have been ingested and stay so, exactly as by a run over those names
    alone, and no table listed after it is touched.  Either way the job
    only appends: every Bronze table it leaves starts with the rows the
    table had before the run, unchanged and in place. *)
Theorem bronze_job_fails_at_first_unknown_table (clock : nat -> timestamp)
    (source_bucket : string) (raw bronze : Ingest.tables)
    (table_names : list string) :
  match Ingest.main clock source_bucket raw table_names bronze with
  | Ingest.Committed bronze' =>
      Forall known_table table_names /\ extends bronze bronze'
  | Ingest.Failed bronze' =>
      extends bronze bronze'
      /\ exists before bad rest,
          table_names = before ++ bad :: rest
          /\ Forall known_table before
          /\ ~ known_table bad
          /\ Ingest.main clock source_bucket raw before bronze
             = Ingest.Committed bronze'
  end.
Proof. apply process_tables_outcome. Qed.

End IngestFacts.
